(** * Myokit symbolic expressions: a shallow embedding of [myokit/_expressions.py]

    The development follows the layout of the Python module: host-language
    helpers first, then the unit algebra and the variable container the
    module talks to, then the expression classes with their four
    interpreters (value, unit, derivative, text), and finally the properties
    of the specification, stated on these definitions.

    Conventions.
    - A Python float is modelled by the rational it denotes ([Q], kept in
      reduced form).  The operators [+], [-], [*], [/], [//] and [%] round
      their result to the nearest binary64 number, ties to even, as the
      hardware does.  Infinities, NaN and the sign of zero are outside the
      model: a result too large for binary64 is rounded to 53 bits and not
      turned into an infinity.  In single precision the numbers are rounded
      by [numpy.float32], a function of the host; the operators stay those
      of binary64.
    - A Python call that can raise returns a [result]; [Raise] carries the
      exception.  Unbounded recursion through variable definitions is cut by
      a recursion budget, as the interpreter does with [RecursionError].
    - [_token] is [None] on every expression built by the constructors of the
      module (only the parser, which is not part of the module, sets it), so
      the branches that read a token are not taken. *)

From Stdlib Require Import String Ascii List ZArith QArith Qround Qabs Bool Lia
  Lqa DecimalString DecimalN DecimalPos.
Import ListNotations.
Close Scope Q_scope.
Open Scope list_scope.
Open Scope string_scope.

Set Implicit Arguments.

(* ===================================================================== *)
(** * Host language: strings, slices, floats *)
(* ===================================================================== *)

Module Py.

(** [str(n)] for a non-negative integer. *)
Definition str_of_N (n : N) : string := NilZero.string_of_uint (N.to_uint n).

Definition str_of_nat (n : nat) : string := str_of_N (N.of_nat n).

(** [sep.join(parts)]. *)
Definition join (sep : string) (parts : list string) : string :=
  String.concat sep parts.

(** [c * n] for a one-character string [c]. *)
Fixpoint repeat (c : string) (n : nat) : string :=
  match n with
  | O => ""
  | S n' => c ++ repeat c n'
  end.

(** [s.find(sub)]: index of the first occurrence, [None] for Python's -1. *)
Definition find (s sub : string) : option nat := String.index 0 sub s.

(** Python slice bounds: a negative index counts from the end, and the
    result is clamped to the string. *)
Definition clamp (len : Z) (i : Z) : Z :=
  let j := if (i <? 0)%Z then (i + len)%Z else i in
  Z.max 0 (Z.min len j).

(** [s[start:stop]] with optional bounds. *)
Definition slice (s : string) (start stop : option Z) : string :=
  let len := Z.of_nat (String.length s) in
  let a := match start with Some i => clamp len i | None => 0%Z end in
  let b := match stop with Some i => clamp len i | None => len end in
  substring (Z.to_nat a) (Z.to_nat (b - a)) s.

(** ** Numbers as reduced rationals *)

(** Exact arithmetic, as on fractions; the negation of a float is exact
    as well. *)
Definition add (a b : Q) : Q := Qred (a + b).
Definition sub (a b : Q) : Q := Qred (a - b).
Definition mul (a b : Q) : Q := Qred (a * b).
Definition neg (a : Q) : Q := Qred (- a).

Definition of_Z (z : Z) : Q := inject_Z z.

(** [a == b], [a < b] and [a <= b]. *)
Definition eqb (a b : Q) : bool := Qeq_bool a b.
Definition ltb (a b : Q) : bool := negb (Qle_bool b a).
Definition leb (a b : Q) : bool := Qle_bool a b.

(** ** Float arithmetic *)

(** [2 ** e] for an integer [e] of either sign. *)
Definition pow2 (e : Z) : Q :=
  if (e <? 0)%Z then 1 # (2 ^ Z.to_pos (- e)) else inject_Z (2 ^ e).

(** The integer nearest to [x], the even one of the two when [x] lies
    halfway. *)
Definition round_half_even (x : Q) : Z :=
  let f := Qfloor x in
  match Qcompare (x - inject_Z f) (1 # 2) with
  | Lt => f
  | Gt => (f + 1)%Z
  | Eq => if Z.even f then f else (f + 1)%Z
  end.

(** The exponent [e] with [2 ** e <= |x| < 2 ** (e + 1)], for [x] other
    than zero: the difference of the bit lengths of numerator and
    denominator, or one less. *)
Definition ilog2 (x : Q) : Z :=
  let e := (Z.log2 (Z.abs (Qnum x)) - Z.log2 (QDen x))%Z in
  if Qle_bool (pow2 e) (Qabs x) then e else (e - 1)%Z.

(** The binary64 number nearest to [x], ties to even: 53 significant bits,
    and no bit below [2 ** -1074]. *)
Definition binary64 (x : Q) : Q :=
  let x := Qred x in
  if Qeq_bool x 0 then 0%Q
  else
    let u := Z.max (ilog2 x - 52) (-1074) in
    Qred (inject_Z (round_half_even (x / pow2 u)) * pow2 u).

(** [a + b], [a - b], [a * b] and [a / b] (for [b != 0]) on floats. *)
Definition float_add (a b : Q) : Q := binary64 (a + b).
Definition float_sub (a b : Q) : Q := binary64 (a - b).
Definition float_mul (a b : Q) : Q := binary64 (a * b).
Definition float_truediv (a b : Q) : Q := binary64 (a / b).

Definition floor (a : Q) : Q := of_Z (Qfloor a).
Definition ceil (a : Q) : Q := of_Z (Qceiling a).
Definition abs (a : Q) : Q := Qred (Qabs a).

(** The C function [fmod(x, y)] for [y != 0]: [x - n * y] for the integer
    [n] that is [x / y] with its fraction cut off; the result is exact. *)
Definition fmod (x y : Q) : Q :=
  let n := (Qnum x * QDen y ÷ (Qnum y * QDen x))%Z in
  Qred (x - y * inject_Z n).

(** [vx % wx] on floats for [wx != 0], as the interpreter computes it
    (and numpy, for its own floats): [fmod], moved by [wx] when its sign is
    not that of [wx]. *)
Definition mod_ (vx wx : Q) : Q :=
  let rem := fmod vx wx in
  if negb (eqb rem 0) then
    (* ensure the remainder has the same sign as the denominator *)
    if xorb (ltb wx 0) (ltb rem 0) then float_add rem wx else rem
  else 0%Q.

(** [vx // wx] on floats for [wx != 0], as the interpreter computes it:
    the quotient of [vx - fmod(vx, wx)] by [wx], one less when the
    remainder was moved, then snapped to the nearest integral value. *)
Definition floordiv (vx wx : Q) : Q :=
  let rem := fmod vx wx in
  let div := float_truediv (float_sub vx rem) wx in
  let div :=
    if negb (eqb rem 0) && xorb (ltb wx 0) (ltb rem 0)
    then float_sub div 1 else div in
  if negb (eqb div 0) then
    let floordiv := floor div in
    if ltb (1 # 2) (float_sub div floordiv) then float_add floordiv 1
    else floordiv
  else 0%Q.

End Py.

(* ===================================================================== *)
(** * Unit algebra *)
(* ===================================================================== *)

(** Modelled from the spec: [myokit.Unit] (its module is not part of the
    sources at hand).  "Seven rational exponents (one per base dimension)
    and a scale factor (logarithmic magnitude)", with multiplication,
    division, rational powers and equality. *)
Record Unit : Type := mkUnit {
  exponents : list Q;
  scale : Q
}.

Module Units.

Fixpoint zip_with (f : Q -> Q -> Q) (a b : list Q) : list Q :=
  match a, b with
  | x :: a', y :: b' => f x y :: zip_with f a' b'
  | _, _ => []
  end.

Fixpoint all_eq (a b : list Q) : bool :=
  match a, b with
  | [], [] => true
  | x :: a', y :: b' => Qeq_bool x y && all_eq a' b'
  | _, _ => false
  end.

Definition dimensionless : Unit :=
  mkUnit [0%Q; 0%Q; 0%Q; 0%Q; 0%Q; 0%Q; 0%Q] 0%Q.

Definition eqb (u v : Unit) : bool :=
  all_eq (exponents u) (exponents v) && Qeq_bool (scale u) (scale v).

Definition mul (u v : Unit) : Unit :=
  mkUnit (zip_with Py.add (exponents u) (exponents v))
         (Py.add (scale u) (scale v)).

Definition div (u v : Unit) : Unit :=
  mkUnit (zip_with Py.sub (exponents u) (exponents v))
         (Py.sub (scale u) (scale v)).

Definition pow (u : Unit) (f : Q) : Unit :=
  mkUnit (map (fun x => Py.mul x f) (exponents u)) (Py.mul (scale u) f).

(** [1 / u]. *)
Definition rdiv_one (u : Unit) : Unit := div dimensionless u.

(** [u1 == u2] where either side may be [None]. *)
Definition opt_eqb (u v : option Unit) : bool :=
  match u, v with
  | None, None => true
  | Some a, Some b => eqb a b
  | _, _ => false
  end.

End Units.

(* ===================================================================== *)
(** * Expression objects *)
(* ===================================================================== *)

(** Expression precedence levels. *)
Definition FUNCTION_CALL : Z := 70.
Definition POWER : Z := 60.
Definition PREFIX : Z := 50.
Definition PRODUCT : Z := 40.
Definition SUM : Z := 30.
Definition CONDITIONAL : Z := 20.
Definition CONDITION_AND : Z := 10.
Definition LITERAL : Z := 0.

(** What a [Name] wraps: a [myokit.Variable], known by its object identity
    ([id(var)]; variables compare by identity), or a string, which the
    module allows "for debugging".  (A [Name] can be given any other
    object; the module calls that abuse and it is not modelled.) *)
Inductive Handle : Type :=
| Var (id : N)
| Str (s : string).

Definition Handle_eqb (a b : Handle) : bool :=
  match a, b with
  | Var i, Var j => N.eqb i j
  | Str s, Str t => String.eqb s t
  | _, _ => false
  end.

(** Concrete subclasses of [PrefixExpression]. *)
Inductive PrefixClass : Type := KPrefixPlus | KPrefixMinus | KNot.

(** Concrete subclasses of [InfixExpression]. *)
Inductive InfixClass : Type :=
| KPlus | KMinus | KMultiply | KDivide | KQuotient | KRemainder | KPower
| KEqual | KNotEqual | KMore | KLess | KMoreEqual | KLessEqual | KAnd | KOr.

(** Concrete subclasses of [Function]. *)
Inductive FunctionClass : Type :=
| KSqrt | KSin | KCos | KTan | KASin | KACos | KATan | KExp | KLog | KLog10
| KFloor | KCeil | KAbs | KIf | KPiecewise.

(** An expression object: its class and the attributes the class stores.
    The constructors here only allocate; the checks of each [__init__] are
    the functions [*__init__] below. *)
#[warnings="-register-all"] Inductive Expression : Type :=
| Number (_value : Q) (_unit : option Unit)
| Name (_value : Handle)
| Derivative (_op : Expression)
| PartialDerivative (_var1 _var2 : Expression)
| InitialValue (_var : Expression)
| PrefixExpression (cls : PrefixClass) (_op : Expression)
| InfixExpression (cls : InfixClass) (_op1 _op2 : Expression)
| Function (cls : FunctionClass) (ops : list Expression).

Abbreviation PrefixPlus := (PrefixExpression KPrefixPlus).
Abbreviation PrefixMinus := (PrefixExpression KPrefixMinus).
Abbreviation Not := (PrefixExpression KNot).
Abbreviation Plus := (InfixExpression KPlus).
Abbreviation Minus := (InfixExpression KMinus).
Abbreviation Multiply := (InfixExpression KMultiply).
Abbreviation Divide := (InfixExpression KDivide).
Abbreviation Quotient := (InfixExpression KQuotient).
Abbreviation Remainder := (InfixExpression KRemainder).
Abbreviation Power := (InfixExpression KPower).
Abbreviation Equal := (InfixExpression KEqual).
Abbreviation NotEqual := (InfixExpression KNotEqual).
Abbreviation More := (InfixExpression KMore).
Abbreviation Less := (InfixExpression KLess).
Abbreviation MoreEqual := (InfixExpression KMoreEqual).
Abbreviation LessEqual := (InfixExpression KLessEqual).
Abbreviation And := (InfixExpression KAnd).
Abbreviation Or := (InfixExpression KOr).

(** Induction over expression trees, through the operand lists. *)
Section Expression_induction.
Variable P : Expression -> Prop.
Hypothesis HNumber : forall v u, P (Number v u).
Hypothesis HName : forall h, P (Name h).
Hypothesis HDerivative : forall op, P op -> P (Derivative op).
Hypothesis HPartial :
  forall a b, P a -> P b -> P (PartialDerivative a b).
Hypothesis HInitial : forall v, P v -> P (InitialValue v).
Hypothesis HPrefix : forall c op, P op -> P (PrefixExpression c op).
Hypothesis HInfix :
  forall c a b, P a -> P b -> P (InfixExpression c a b).
Hypothesis HFunction : forall c ops, Forall P ops -> P (Function c ops).

Fixpoint Expression_tree_ind (e : Expression) : P e :=
  match e with
  | Number v u => HNumber v u
  | Name h => HName h
  | Derivative op => HDerivative (Expression_tree_ind op)
  | PartialDerivative a b =>
      HPartial (Expression_tree_ind a) (Expression_tree_ind b)
  | InitialValue v => HInitial (Expression_tree_ind v)
  | PrefixExpression c op => HPrefix c (Expression_tree_ind op)
  | InfixExpression c a b =>
      HInfix c (Expression_tree_ind a) (Expression_tree_ind b)
  | Function c ops =>
      HFunction c
        ((fix all (l : list Expression) : Forall P l :=
            match l with
            | [] => Forall_nil P
            | x :: l' => Forall_cons x (Expression_tree_ind x) (all l')
            end) ops)
  end.
End Expression_induction.

(** ** Exceptions and results *)

Inductive Exception : Type :=
| TypeError (msg : string)
| ValueError (msg : string)
| AttributeError (msg : string)
| NameError (msg : string)
| IndexError (msg : string)
| RecursionError
| NotImplementedError (msg : string)
| ZeroDivisionError (msg : string)
| OverflowError (msg : string)
| IntegrityError (msg : string)
| IncompatibleUnitError (msg : string)
| NumericalError (msg : string)
| EvalError (expr : Expression) (err : Exception)
| EvalUnitError (expr : Expression) (err : string).

Inductive result (A : Type) : Type :=
| Return (a : A)
| Raise (e : Exception).

Arguments Return {A} a.
Arguments Raise {A} e.

Definition bind {A B : Type} (c : result A) (k : A -> result B) : result B :=
  match c with
  | Return a => k a
  | Raise e => Raise e
  end.

Notation "x <- c ;; k" := (bind c (fun x => k))
  (at level 61, c at next level, right associativity).

(** [except (ArithmeticError, ValueError)]: the classes these clauses
    catch. *)
Definition is_ArithmeticError_or_ValueError (e : Exception) : bool :=
  match e with
  | ZeroDivisionError _ | OverflowError _ | ValueError _ => true
  | _ => false
  end.

(** [str(err)] for the exception stored in an [EvalError]. *)
Definition Exception_str (e : Exception) : string :=
  match e with
  | TypeError s | ValueError s | AttributeError s | NameError s
  | IndexError s | NotImplementedError s | ZeroDivisionError s
  | OverflowError s | IntegrityError s | IncompatibleUnitError s
  | NumericalError s => s
  | RecursionError => "maximum recursion depth exceeded"
  | EvalError _ _ => ""
  | EvalUnitError _ s => s
  end.

(** ** The class hierarchy *)

(** Every class of the module, abstract ones included, as [isinstance] and
    [type(self)] see them. *)
Inductive Class : Type :=
| CExpression | CNumber | CLhsExpression | CName | CDerivative
| CPartialDerivative | CInitialValue
| CPrefixExpression | CInfixExpression | CFunction
| CUnaryDimensionlessFunction
| CCondition | CPrefixCondition | CInfixCondition | CBinaryComparison
| CPrefix (k : PrefixClass)
| CInfix (k : InfixClass)
| CFunc (k : FunctionClass).

Definition PrefixClass_eq_dec (a b : PrefixClass) : {a = b} + {a <> b}.
Proof. decide equality. Defined.

Definition InfixClass_eq_dec (a b : InfixClass) : {a = b} + {a <> b}.
Proof. decide equality. Defined.

Definition FunctionClass_eq_dec (a b : FunctionClass) : {a = b} + {a <> b}.
Proof. decide equality. Defined.

Definition Class_eq_dec (a b : Class) : {a = b} + {a <> b}.
Proof.
  decide equality;
    [apply PrefixClass_eq_dec | apply InfixClass_eq_dec
    | apply FunctionClass_eq_dec].
Defined.

Definition Class_eqb (a b : Class) : bool :=
  if Class_eq_dec a b then true else false.

(** The base classes named in each [class] statement. *)
Definition __bases__ (c : Class) : list Class :=
  match c with
  | CExpression => []
  | CNumber => [CExpression]
  | CLhsExpression => [CExpression]
  | CName | CDerivative | CPartialDerivative | CInitialValue =>
      [CLhsExpression]
  | CPrefixExpression | CInfixExpression | CFunction => [CExpression]
  | CUnaryDimensionlessFunction => [CFunction]
  | CCondition => []
  | CPrefixCondition => [CCondition; CPrefixExpression]
  | CInfixCondition => [CCondition; CInfixExpression]
  | CBinaryComparison => [CInfixCondition]
  | CPrefix KNot => [CPrefixCondition]
  | CPrefix _ => [CPrefixExpression]
  | CInfix (KEqual | KNotEqual | KMore | KLess | KMoreEqual | KLessEqual) =>
      [CBinaryComparison]
  | CInfix (KAnd | KOr) => [CInfixCondition]
  | CInfix _ => [CInfixExpression]
  | CFunc (KSin | KCos | KTan | KASin | KACos | KATan | KExp | KLog10) =>
      [CUnaryDimensionlessFunction]
  | CFunc _ => [CFunction]
  end.

Fixpoint issubclass_upto (depth : nat) (c d : Class) : bool :=
  Class_eqb c d ||
  match depth with
  | O => false
  | S depth' => existsb (fun b => issubclass_upto depth' b d) (__bases__ c)
  end.

(** [issubclass(c, d)]; no chain of bases is longer than five. *)
Definition issubclass (c d : Class) : bool := issubclass_upto 5 c d.

(** [type(self)]. *)
Definition type_ (self : Expression) : Class :=
  match self with
  | Number _ _ => CNumber
  | Name _ => CName
  | Derivative _ => CDerivative
  | PartialDerivative _ _ => CPartialDerivative
  | InitialValue _ => CInitialValue
  | PrefixExpression k _ => CPrefix k
  | InfixExpression k _ _ => CInfix k
  | Function k _ => CFunc k
  end.

Definition isinstance (self : Expression) (kind : Class) : bool :=
  issubclass (type_ self) kind.

(** ** Class attributes *)

Definition InfixClass_rbp (k : InfixClass) : Z :=
  match k with
  | KPlus | KMinus => SUM
  | KMultiply | KDivide | KQuotient | KRemainder => PRODUCT
  | KPower => POWER
  | KEqual | KNotEqual | KMore | KLess | KMoreEqual | KLessEqual =>
      CONDITIONAL
  | KAnd | KOr => CONDITION_AND
  end.

(** [self._rbp]: the right-binding power of the object's class. *)
Definition _rbp (self : Expression) : Z :=
  match self with
  | Number _ _ | Name _ => LITERAL
  | Derivative _ | PartialDerivative _ _ | InitialValue _ => FUNCTION_CALL
  | PrefixExpression _ _ => PREFIX
  | InfixExpression k _ _ => InfixClass_rbp k
  | Function _ _ => FUNCTION_CALL
  end.

Definition PrefixClass_rep (k : PrefixClass) : string :=
  match k with
  | KPrefixPlus => "+"
  | KPrefixMinus => "-"
  | KNot => "not"
  end.

Definition InfixClass_rep (k : InfixClass) : string :=
  match k with
  | KPlus => "+" | KMinus => "-" | KMultiply => "*" | KDivide => "/"
  | KQuotient => "//" | KRemainder => "%" | KPower => "^"
  | KEqual => "==" | KNotEqual => "!=" | KMore => ">" | KLess => "<"
  | KMoreEqual => ">=" | KLessEqual => "<=" | KAnd => "and" | KOr => "or"
  end.

Definition _fname (k : FunctionClass) : string :=
  match k with
  | KSqrt => "sqrt" | KSin => "sin" | KCos => "cos" | KTan => "tan"
  | KASin => "asin" | KACos => "acos" | KATan => "atan" | KExp => "exp"
  | KLog => "log" | KLog10 => "log10" | KFloor => "floor" | KCeil => "ceil"
  | KAbs => "abs" | KIf => "if" | KPiecewise => "piecewise"
  end.

(** [_nargs]: the operand counts a function class accepts; [None] for
    [Piecewise], which checks its own. *)
Definition _nargs (k : FunctionClass) : option (list nat) :=
  match k with
  | KLog => Some [1; 2]%nat
  | KIf => Some [3]%nat
  | KPiecewise => None
  | _ => Some [1]%nat
  end.

(** ** Constructors: the checks of each [__init__] *)

Definition is_Name (e : Expression) : bool :=
  match e with Name _ => true | _ => false end.

Definition is_InitialValue (e : Expression) : bool :=
  match e with InitialValue _ => true | _ => false end.

(** [Number(value, unit)]: [float(value) if value else 0.0], the unit
    stored as given.  (The conversions from a [myokit.Quantity] and from a
    unit written as a string belong to classes outside the module and are
    not modelled.) *)
Definition Number__init__ (value : Q) (unit : option Unit) : Expression :=
  Number (if Py.eqb value 0 then 0%Q else Qred value) unit.

Definition Derivative__init__ (op : Expression) : result Expression :=
  if negb (is_Name op) then
    Raise (IntegrityError
             "The dot() operator can only be used on variables.")
  else Return (Derivative op).

Definition PartialDerivative__init__ (var1 var2 : Expression)
  : result Expression :=
  if negb (is_Name var1) then
    Raise (IntegrityError
      "The first argument to a partial derivative must be a variable name.")
  else if negb (is_Name var2 || is_InitialValue var2) then
    Raise (IntegrityError
      ("The second argument to a partial derivative must be a"
       ++ " variable name or an initial value."))
  else Return (PartialDerivative var1 var2).

Definition InitialValue__init__ (var : Expression) : result Expression :=
  if negb (is_Name var) then
    Raise (IntegrityError
      "The first argument to an initial condition must be a variable name.")
  else Return (InitialValue var).

(** [Function.__init__] on the operand tuple: the operand count must be one of [_nargs]. *)
Definition Function__init__ (k : FunctionClass) (ops : list Expression)
  : result Expression :=
  match _nargs k with
  | Some nargs =>
      if negb (existsb (Nat.eqb (length ops)) nargs) then
        Raise (IntegrityError
          ("Function (" ++ _fname k ++ ") created with wrong number of"
           ++ " arguments (" ++ Py.str_of_nat (length ops) ++ ", expecting "
           ++ Py.join " or " (map Py.str_of_nat nargs) ++ ")."))
      else Return (Function k ops)
  | None => Return (Function k ops)
  end.

(** [Piecewise.__init__] on the operand tuple: an odd number of operands, at least
    three. *)
Definition Piecewise__init__ (ops : list Expression) : result Expression :=
  self <- Function__init__ KPiecewise ops ;;
  let n := length ops in
  if Nat.eqb (n mod 2) 0 then
    Raise (IntegrityError
      ("Piecewise function must have odd number of arguments:"
       ++ " ([condition, value]+, else_value)."))
  else if Nat.ltb n 3 then
    Raise (IntegrityError
      "Piecewise function must have 3 or more arguments.")
  else Return self.

(** [type(self)] applied to an operand list, for a function class, as [clone] calls it. *)
Definition construct_Function (k : FunctionClass) (ops : list Expression)
  : result Expression :=
  match k with
  | KPiecewise => Piecewise__init__ ops
  | KIf =>
      match ops with
      | [i; t; e] => Function__init__ KIf [i; t; e]
      | _ => Raise (TypeError "__init__() takes exactly 4 arguments")
      end
  | _ => Function__init__ k ops
  end.

Definition Sqrt (op : Expression) := Function__init__ KSqrt [op].
Definition Sin (op : Expression) := Function__init__ KSin [op].
Definition Cos (op : Expression) := Function__init__ KCos [op].
Definition Log (ops : list Expression) := Function__init__ KLog ops.
Definition Floor (ops : list Expression) := Function__init__ KFloor ops.
Definition If (i t e : Expression) := Function__init__ KIf [i; t; e].
Definition Piecewise (ops : list Expression) := Piecewise__init__ ops.

(* ===================================================================== *)
(** * The host and the model container *)
(* ===================================================================== *)

(** What an evaluation returns: a float, or the [bool] of a condition. *)
Inductive PyValue : Type :=
| VFloat (x : Q)
| VBool (b : bool).

(** The numeric value of a result in arithmetic ([True] counts as 1). *)
Definition to_float (v : PyValue) : Q :=
  match v with
  | VFloat x => x
  | VBool true => 1%Q
  | VBool false => 0%Q
  end.

(** Truth value of a result, as [if] and [not] take it. *)
Definition truthy (v : PyValue) : bool :=
  match v with
  | VFloat x => negb (Py.eqb x 0)
  | VBool b => b
  end.

(** Functions of the interpreter, of numpy and of the parts of myokit that
    the module calls but does not define. *)
Record Host : Type := mkHost {
  strfloat : Q -> string;            (* myokit.strfloat(value) *)
  Unit_str : Unit -> string;         (* str(unit) *)
  Unit_clarify : Unit -> string;     (* unit.clarify() *)
  hash_str : string -> Z;            (* hash(s) for a string *)
  value_str : PyValue -> string;     (* str(x) for an evaluation result *)
  numpy_float32 : Q -> Q;            (* numpy.float32(x) *)
  numpy_call : FunctionClass -> Q -> Q;  (* numpy.sqrt, numpy.sin, ... *)
  float_pow : Q -> Q -> result Q;    (* a ** b *)
  floordiv_zero_msg : string;        (* message of 1.0 // 0.0 *)
  mod_zero_msg : string              (* message of 1.0 % 0.0 *)
}.

(** Modelled from the spec: the variable handle contract ([myokit.Variable],
    whose module is not part of the sources at hand).  A variable exposes
    its names, declared unit, state-hood, state value, right-hand side,
    nesting and binding; it is constant when it was declared so and is not
    bound. *)
Record VariableInfo : Type := mkVariable {
  var_name : string;
  var_component : string;
  var_unit : option Unit;
  var_is_state : bool;
  var_state_value : Q;
  var_rhs : Expression;
  var_is_nested : bool;
  var_binding : option string;
  var_declared_constant : bool
}.

(** Modelled from the spec: the model that owns the variables, with its
    time unit and a label no variable is bound to. *)
Record Model : Type := mkModel {
  variables : N -> VariableInfo;
  model_time_unit : option Unit;
  _unused_label : string
}.

(** Modelled from the spec: a component, with the aliases it defines.  A
    component is a container of variables, and [comp_len] is its [len()]. *)
Record Component : Type := mkComponent {
  comp_name : string;
  comp_aliases : N -> option string;
  comp_len : nat
}.

Inductive UnitMode : Type := UNIT_TOLERANT | UNIT_STRICT.

Inductive Precision : Type := SINGLE_PRECISION | DOUBLE_PRECISION.

Module Vars.

Definition name (m : Model) (v : N) : string := var_name (variables m v).

(** [qname(hide)]: the dotted name, or the short one seen from the
    variable's own component. *)
Definition qname (m : Model) (v : N) (hide : option Component) : string :=
  let info := variables m v in
  match hide with
  | Some c =>
      if String.eqb (comp_name c) (var_component info) then var_name info
      else var_component info ++ "." ++ var_name info
  | None => var_component info ++ "." ++ var_name info
  end.

(** [unit(mode)]: the declared unit; dimensionless for an undeclared one in
    strict mode. *)
Definition unit (m : Model) (v : N) (mode : UnitMode) : option Unit :=
  match var_unit (variables m v), mode with
  | None, UNIT_STRICT => Some Units.dimensionless
  | u, _ => u
  end.

Definition is_state (m : Model) (v : N) : bool := var_is_state (variables m v).

Definition is_nested (m : Model) (v : N) : bool :=
  var_is_nested (variables m v).

Definition is_bound (m : Model) (v : N) : bool :=
  match var_binding (variables m v) with Some _ => true | None => false end.

Definition is_constant (m : Model) (v : N) : bool :=
  var_declared_constant (variables m v) && negb (is_bound m v)
  && negb (is_state m v).

Definition state_value (m : Model) (v : N) : Q :=
  var_state_value (variables m v).

Definition rhs (m : Model) (v : N) : Expression := var_rhs (variables m v).

(** [lhs()]: the left-hand side of the defining equation, [dot(x)] for a
    state and [x] otherwise. *)
Definition lhs (m : Model) (v : N) : Expression :=
  if is_state m v then Derivative (Name (Var v)) else Name (Var v).

(** [set_binding(label)]. *)
Definition set_binding (m : Model) (v : N) (label : option string) : Model :=
  mkModel
    (fun w =>
       if N.eqb w v then
         let i := variables m v in
         mkVariable (var_name i) (var_component i) (var_unit i)
           (var_is_state i) (var_state_value i) (var_rhs i)
           (var_is_nested i) label (var_declared_constant i)
       else variables m w)
    (model_time_unit m) (_unused_label m).

End Vars.

(** [model.time_unit(mode)]. *)
Definition time_unit (m : Model) (mode : UnitMode) : option Unit :=
  match model_time_unit m, mode with
  | None, UNIT_STRICT => Some Units.dimensionless
  | u, _ => u
  end.

(** [component.alias_for(variable)]; [KeyError] is [None]. *)
Definition alias_for (c : Component) (v : N) : option string :=
  comp_aliases c v.

(** The truth value of a component in [if c:]: as for every container,
    false when it is empty. *)
Definition Component_bool (c : Component) : bool :=
  negb (Nat.eqb (comp_len c) 0).

(* ===================================================================== *)
(** * class Expression *)
(* ===================================================================== *)

(** What iterating over [self._operands] yields.  [InitialValue] passes the
    wrapped name itself where a tuple is expected, so the iteration runs
    over that name's operands. *)
Fixpoint _operands (self : Expression) : list Expression :=
  match self with
  | Number _ _ => []
  | Name _ => []
  | Derivative op => [op]
  | PartialDerivative var1 var2 => [var1; var2]
  | InitialValue var => _operands var
  | PrefixExpression _ op => [op]
  | InfixExpression _ op1 op2 => [op1; op2]
  | Function _ ops => ops
  end.

Definition is_PartialDerivative (e : Expression) : bool :=
  match e with PartialDerivative _ _ => true | _ => false end.

(** The loop of [Expression.__init__] over the operands: is the flag set on
    one of them?  ([self._has_partials = False], then [True] as soon as an
    operand has it; [PartialDerivative.__init__] sets its own afterwards.)
    The attribute is assigned in the constructor only and the operands never
    change, so what an object stores is this function of its operands. *)
Fixpoint operands_have_partials (self : Expression) : bool :=
  let flag op := is_PartialDerivative op || operands_have_partials op in
  match self with
  | Number _ _ => false
  | Name _ => false
  | Derivative op => flag op
  | PartialDerivative var1 var2 => flag var1 || flag var2
  | InitialValue var => operands_have_partials var
  | PrefixExpression _ op => flag op
  | InfixExpression _ op1 op2 => flag op1 || flag op2
  | Function _ ops => existsb flag ops
  end.

(** [self._has_partials]. *)
Definition _has_partials (self : Expression) : bool :=
  is_PartialDerivative self || operands_have_partials self.

(** The same loop for [_has_initials]; [InitialValue.__init__] sets its
    own. *)
Fixpoint operands_have_initials (self : Expression) : bool :=
  let flag op := is_InitialValue op || operands_have_initials op in
  match self with
  | Number _ _ => false
  | Name _ => false
  | Derivative op => flag op
  | PartialDerivative var1 var2 => flag var1 || flag var2
  | InitialValue var => operands_have_initials var
  | PrefixExpression _ op => flag op
  | InfixExpression _ op1 op2 => flag op1 || flag op2
  | Function _ ops => existsb flag ops
  end.

(** [self._has_initials]. *)
Definition _has_initials (self : Expression) : bool :=
  is_InitialValue self || operands_have_initials self.

(** [walk()] without a type filter: the nodes of the tree, depth first,
    each node before its operands. *)
Fixpoint walk_operands (self : Expression) : list Expression :=
  let walker op := op :: walk_operands op in
  match self with
  | Number _ _ => []
  | Name _ => []
  | Derivative op => walker op
  | PartialDerivative var1 var2 => (walker var1 ++ walker var2)%list
  | InitialValue var => walk_operands var
  | PrefixExpression _ op => walker op
  | InfixExpression _ op1 op2 => (walker op1 ++ walker op2)%list
  | Function _ ops => flat_map walker ops
  end.

Definition walk (self : Expression) : list Expression :=
  self :: walk_operands self.

(** A [StringIO] buffer, threaded through the writers. *)
Definition StringIO : Type := string.

Definition write (b : StringIO) (s : string) : StringIO := b ++ s.

Definition getvalue (b : StringIO) : string := b.

Section Expressions.

Variable host : Host.

(** ** Number: the text built by [Number.__init__] *)

(** [self._str]: [strfloat] of the value, with "5.0" turned into "5",
    "1e-05" into "1e-5", "1e+00" into "1", "1e+05" into "1e5" and "1e+15"
    into "1e15", and the unit appended unless it is absent or
    dimensionless.  (The index [s[-1]] is taken where [s[-4:-1]] has three
    characters, so it is the slice [s[-1:]].) *)
Definition Number_str (value : Q) (unit : option Unit) : string :=
  let s := strfloat host value in
  let s :=
    if String.eqb (Py.slice s (Some (-2)%Z) None) ".0" then
      Py.slice s None (Some (-2)%Z)
    else if String.eqb (Py.slice s (Some (-4)%Z) (Some (-1)%Z)) "e-0" then
      Py.slice s None (Some (-2)%Z) ++ Py.slice s (Some (-1)%Z) None
    else if String.eqb (Py.slice s (Some (-4)%Z) (Some (-2)%Z)) "e+" then
      if String.eqb (Py.slice s (Some (-2)%Z) None) "00" then
        Py.slice s None (Some (-4)%Z)
      else if String.eqb (Py.slice s (Some (-2)%Z) (Some (-1)%Z)) "0" then
        Py.slice s None (Some (-3)%Z) ++ Py.slice s (Some (-1)%Z) None
      else
        Py.slice s None (Some (-3)%Z) ++ Py.slice s (Some (-2)%Z) None
    else s in
  match unit with
  | Some u =>
      if negb (Units.eqb u Units.dimensionless)
      then s ++ " " ++ Unit_str host u
      else s
  | None => s
  end.

(** ** Canonical form, equality and hash *)

(** [_polishb(b)] of each class: reverse-polish text with variable
    identities in place of variable names. *)
Fixpoint _polishb (self : Expression) (b : StringIO) : StringIO :=
  match self with
  | Number value unit => write b (Number_str value unit)
  | Name (Str s) =>
      let b := write b "str:" in
      write b s
  | Name (Var id) =>
      let b := write b "var:" in
      write b (Py.str_of_N id)
  | Derivative op =>
      let b := write b "dot " in
      _polishb op b
  | PartialDerivative var1 var2 =>
      let b := write b "partial " in
      let b := _polishb var1 b in
      _polishb var2 b
  | InitialValue var =>
      let b := write b "init " in
      _polishb var b
  | PrefixExpression KPrefixPlus op => _polishb op b
  | PrefixExpression KPrefixMinus op =>
      let b := write b "~ " in
      _polishb op b
  | PrefixExpression KNot op =>
      let b := write b "not " in
      _polishb op b
  | InfixExpression k op1 op2 =>
      let b := write b (InfixClass_rep k) in
      let b := write b " " in
      let b := _polishb op1 b in
      let b := write b " " in
      _polishb op2 b
  | Function k ops =>
      let b := write b (_fname k) in
      let b := write b " " in
      let b := write b (Py.str_of_nat (length ops)) in
      fold_left (fun b op => _polishb op (write b " ")) ops b
  end.

(** [_polish()]: the canonical form.  The result is kept in
    [_cached_polish]; the cache is written once and the tree is immutable,
    so the cached and the computed text are the same. *)
Definition _polish (self : Expression) : string :=
  getvalue (_polishb self "").

(** [self == other].  [Name], [Derivative], [PartialDerivative] and
    [InitialValue] define their own [__eq__]; every other class inherits
    the one of [Expression]. *)
Fixpoint __eq__ (self other : Expression) : bool :=
  match self with
  | Name value =>
      match other with
      | Name value' => Handle_eqb value value'
      | _ => false
      end
  | Derivative op =>
      match other with
      | Derivative op' => __eq__ op op'
      | _ => false
      end
  | PartialDerivative var1 var2 =>
      match other with
      | PartialDerivative var1' var2' =>
          __eq__ var1 var1' && __eq__ var2 var2'
      | _ => false
      end
  | InitialValue var =>
      match other with
      | InitialValue var' => __eq__ var var'
      | _ => false
      end
  | _ =>
      if negb (Class_eqb (type_ self) (type_ other)) then false
      else String.eqb (_polish self) (_polish other)
  end.

Definition __ne__ (self other : Expression) : bool := negb (__eq__ self other).

(** [hash(self)]: the hash of the canonical form (kept in
    [_cached_hash]). *)
Definition __hash__ (self : Expression) : Z := hash_str host (_polish self).

(** ** Sets and dictionaries keyed by expressions *)

(** [x in s] for a set, or the keys of a dict, of expressions: some stored
    element has the hash of [x] and equals it. *)
Definition same_key (stored x : Expression) : bool :=
  Z.eqb (__hash__ stored) (__hash__ x) && __eq__ stored x.

Definition set_mem (x : Expression) (s : list Expression) : bool :=
  existsb (fun y => same_key y x) s.

Definition set_add (s : list Expression) (x : Expression) : list Expression :=
  if set_mem x s then s else (s ++ [x])%list.

(** [s |= t].  Sets are kept as duplicate-free lists; the order in which
    Python iterates over a set is not specified, and nothing below depends
    on it. *)
Definition set_union (s t : list Expression) : list Expression :=
  fold_left set_add t s.

(** A [subst] dictionary, after [eval] has checked it. *)
Definition dict : Type := list (Expression * Expression).

Definition dict_get (d : dict) (key : Expression) : option Expression :=
  match List.find (fun kv => same_key (fst kv) key) d with
  | Some kv => Some (snd kv)
  | None => None
  end.

(** [subst and self in subst]. *)
Definition in_subst (subst : dict) (self : Expression) : bool :=
  match subst with
  | [] => false
  | _ => match dict_get subst self with Some _ => true | None => false end
  end.

(** ** References and type search *)

(** [self._references]: for the left-hand-side classes the object itself,
    otherwise the union over the operands. *)
Fixpoint _references (self : Expression) : list Expression :=
  match self with
  | Number _ _ => []
  | Name _ | Derivative _ | PartialDerivative _ _ | InitialValue _ => [self]
  | PrefixExpression _ op => set_union [] (_references op)
  | InfixExpression _ op1 op2 =>
      set_union (set_union [] (_references op1)) (_references op2)
  | Function _ ops =>
      fold_left (fun refs op => set_union refs (_references op)) ops []
  end.

Definition references (self : Expression) : list Expression :=
  _references self.

Definition depends_on (self lhs : Expression) : bool :=
  set_mem lhs (_references self).

(** The loop at the end of [contains_type]: [for op in self], asking each
    operand in turn. *)
Fixpoint operands_contain_type (self : Expression) (kind : Class) : bool :=
  let contains op :=
    if isinstance op kind then true
    else if Class_eqb kind CPartialDerivative then _has_partials op
    else if Class_eqb kind CInitialValue then _has_initials op
    else operands_contain_type op kind in
  match self with
  | Number _ _ => false
  | Name _ => false
  | Derivative op => contains op
  | PartialDerivative var1 var2 => contains var1 || contains var2
  | InitialValue var => operands_contain_type var kind
  | PrefixExpression _ op => contains op
  | InfixExpression _ op1 op2 => contains op1 || contains op2
  | Function _ ops => existsb contains ops
  end.

(** [contains_type(kind)]. *)
Definition contains_type (self : Expression) (kind : Class) : bool :=
  if isinstance self kind then true
  else if Class_eqb kind CPartialDerivative then _has_partials self
  else if Class_eqb kind CInitialValue then _has_initials self
  else operands_contain_type self kind.

(** ** Rendering in mmt syntax *)

Section Code.

Variable m : Model.

Fixpoint _code (self : Expression) (b : StringIO) (c : option Component)
  : StringIO :=
  match self with
  | Number value unit => write b (Number_str value unit)
  | Name (Var v) =>
      if Vars.is_nested m v then write b (Vars.name m v)
      else
        match c with
        | Some comp =>
            if Component_bool comp then
              match alias_for comp v with
              | Some alias => write b alias
              | None => write b (Vars.qname m v c)
              end
            else write b (Vars.qname m v c)
        | None => write b (Vars.qname m v c)
        end
  | Name (Str s) => write b ("str:" ++ s)
  | Derivative op =>
      let b := write b "dot(" in
      let b := _code op b c in
      write b ")"
  | PartialDerivative var1 var2 =>
      let b := write b "partial(" in
      let b := _code var1 b c in
      let b := _code var2 b c in
      write b ")"
  | InitialValue var =>
      let b := write b "init(" in
      let b := _code var b c in
      write b ")"
  | PrefixExpression k op =>
      let b := match k with
               | KNot => write b "not "
               | _ => write b (PrefixClass_rep k)
               end in
      let brackets := (LITERAL <? _rbp op)%Z && (_rbp op <? _rbp self)%Z in
      let b := if brackets then write b "(" else b in
      let b := _code op b c in
      if brackets then write b ")" else b
  | InfixExpression k op1 op2 =>
      let b :=
        if (LITERAL <? _rbp op1)%Z && (_rbp op1 <? _rbp self)%Z then
          let b := write b "(" in
          let b := _code op1 b c in
          write b ")"
        else _code op1 b c in
      let b := write b " " in
      let b := write b (InfixClass_rep k) in
      let b := write b " " in
      if (LITERAL <? _rbp op2)%Z && (_rbp op2 <=? _rbp self)%Z then
        let b := write b "(" in
        let b := _code op2 b c in
        write b ")"
      else _code op2 b c
  | Function k ops =>
      let b := write b (_fname k) in
      let b := write b "(" in
      let b :=
        match ops with
        | [] => b
        | op0 :: rest =>
            let b := _code op0 b c in
            fold_left (fun b op => _code op (write b ", ") c) rest b
        end in
      write b ")"
  end.

(** [code(component)]; also [str(self)] when no component is given. *)
Definition code (self : Expression) (component : option Component) : string :=
  getvalue (_code self "" component).

Definition __str__ (self : Expression) : string := code self None.

End Code.

End Expressions.

(* ===================================================================== *)
(** * Evaluation *)
(* ===================================================================== *)

(** The newline character. *)
Definition nl : string := String (ascii_of_nat 10) "".

(** [l[i]] for a list, negative indices counting from the end. *)
Definition getitem {A : Type} (l : list A) (i : Z) : result A :=
  let j := if (i <? 0)%Z then (i + Z.of_nat (length l))%Z else i in
  if (j <? 0)%Z then Raise (IndexError "list index out of range")
  else
    match nth_error l (Z.to_nat j) with
    | Some x => Return x
    | None => Raise (IndexError "list index out of range")
    end.

(** [t[i]] for a tuple, as [self._operands] is one: the same, with the
    message of a tuple. *)
Definition tuple_getitem {A : Type} (t : list A) (i : Z) : result A :=
  let j := if (i <? 0)%Z then (i + Z.of_nat (length t))%Z else i in
  if (j <? 0)%Z then Raise (IndexError "tuple index out of range")
  else
    match nth_error t (Z.to_nat j) with
    | Some x => Return x
    | None => Raise (IndexError "tuple index out of range")
    end.

(** The attributes [_i] (conditions) and [_e] (values, the default last)
    that [Piecewise.__init__] fills from its operands, taken two at a
    time. *)
Fixpoint Piecewise_split (ops : list Expression)
  : list Expression * list Expression :=
  match ops with
  | cond :: value :: rest =>
      let (i, e) := Piecewise_split rest in (cond :: i, value :: e)
  | [default] => ([], [default])
  | [] => ([], [])
  end.

Definition Piecewise_i (ops : list Expression) : list Expression :=
  fst (Piecewise_split ops).

Definition Piecewise_e (ops : list Expression) : list Expression :=
  snd (Piecewise_split ops).

(** [except (ArithmeticError, ValueError) as e: raise EvalError(self, subst,
    e)], around the body of an [_eval]. *)
Definition except_arithmetic {A : Type} (self : Expression) (body : result A)
  : result A :=
  match body with
  | Raise e =>
      if is_ArithmeticError_or_ValueError e then Raise (EvalError self e)
      else Raise e
  | Return a => Return a
  end.

Section Evaluation.

Variable host : Host.
Variable m : Model.

(** ** Left-hand sides *)

(** [rhs()] of the classes that extend [LhsExpression]. *)
Definition rhs (self : Expression) : result (option Expression) :=
  match self with
  | Name (Var v) =>
      if Vars.is_state m v then
        Return (Some (Number__init__ (Vars.state_value m v) None))
      else if __eq__ host (Vars.lhs m v) self then
        Return (Some (Vars.rhs m v))
      else Return None
  | Name (Str _) =>
      Raise (AttributeError "'str' object has no attribute 'is_state'")
  | Derivative (Name (Var v)) => Return (Some (Vars.rhs m v))
  | Derivative _ =>
      Raise (AttributeError "'str' object has no attribute 'rhs'")
  | PartialDerivative _ _ => Return None
  | InitialValue _ => Return None
  | _ => Raise (AttributeError "object has no attribute 'rhs'")
  end.

(** [var()] of the classes that extend [LhsExpression]: the wrapped
    [_value]. *)
Definition var (self : Expression) : result Handle :=
  match self with
  | Name value => Return value
  | Derivative (Name value) => Return value
  | PartialDerivative (Name value) _ => Return value
  | InitialValue (Name value) => Return value
  | _ => Raise (AttributeError "object has no attribute 'var'")
  end.

(** ** Error messages *)

(** The local function [path] of [_expr_error_message]: the names that
    lead from [root] to [target], following right-hand sides. *)
Fixpoint path (fuel : nat) (root target : Expression)
    (trail : list Expression) : result (option (list Expression)) :=
  match fuel with
  | O => Raise RecursionError
  | S fuel =>
      if __eq__ host root target then Return (Some trail)
      else if isinstance root CName then
        r <- rhs root ;;
        match r with
        | Some r => path fuel r target (trail ++ [root])%list
        | None => Raise (TypeError "'NoneType' object is not iterable")
        end
      else
        (fix children (ops : list Expression)
           : result (option (list Expression)) :=
           match ops with
           | [] => Return None
           | child :: ops' =>
               r <- path fuel child target trail ;;
               match r with
               | Some t => Return (Some t)
               | None => children ops'
               end
           end) (_operands root)
  end.

(** The lines "  x", "    y", ... of the trail, indented by depth. *)
Fixpoint trail_lines (i : nat) (trail : list Expression) : list string :=
  match trail with
  | [] => []
  | v :: trail' =>
      (Py.repeat "  " (1 + i) ++ __str__ host m v) :: trail_lines (S i) trail'
  end.

(** [_expr_error_message(owner, e)] for an error [e] with attributes
    [e.expr] and [e.err]; [unit_error] tells an [EvalUnitError] from an
    [EvalError]. *)
Definition _expr_error_message (fuel : nat) (owner : Expression)
    (unit_error : bool) (e_expr : Expression) (e_err : string)
  : result string :=
  let out :=
    if unit_error then ["Incompatible units" ++ ": " ++ e_err]
    else [e_err] in
  let out := (out ++ ["Encountered when evaluating"])%list in
  let par_str := "  " ++ code host m owner None in
  let err_str := code host m e_expr None in
  let out := (out ++ [par_str])%list in
  trail <- path fuel owner e_expr [] ;;
  located <-
    match trail with
    | Some (v :: trail') =>
        let trail := v :: trail' in
        let out := (out ++ ["Error located at:"])%list in
        let out := (out ++ trail_lines 0 trail)%list in
        let final := List.last trail v in
        r <- rhs final ;;
        match r with
        | Some r =>
            let par_str :=
              __str__ host m final ++ " = " ++ code host m r None in
            Return ((out ++ [par_str])%list, par_str)
        | None =>
            Raise (AttributeError "'NoneType' object has no attribute 'code'")
        end
    | _ => Return (out, par_str)
    end ;;
  let (out, par_str) := located in
  let out :=
    match Py.find par_str err_str with
    | Some start =>
        (out ++ [(Py.repeat " " start
                  ++ Py.repeat "~" (String.length err_str))%string])%list
    | None => out
    end in
  Return (Py.join nl out).

(** ** Numeric evaluation *)

(** The Python operator applied by the [_eval] of an infix class that
    evaluates both operands and combines them. *)
Definition infix_operator (k : InfixClass) (a b : PyValue) : result PyValue :=
  let x := to_float a in
  let y := to_float b in
  match k with
  | KPlus => Return (VFloat (Py.float_add x y))
  | KMinus => Return (VFloat (Py.float_sub x y))
  | KMultiply => Return (VFloat (Py.float_mul x y))
  | KDivide => Return (VFloat (Py.float_truediv x y))
  | KQuotient =>
      if Py.eqb y 0 then Raise (ZeroDivisionError (floordiv_zero_msg host))
      else Return (VFloat (Py.floordiv x y))
  | KRemainder =>
      if Py.eqb y 0 then Raise (ZeroDivisionError (mod_zero_msg host))
      else Return (VFloat (Py.mod_ x y))
  | KPower => z <- float_pow host x y ;; Return (VFloat z)
  | KEqual => Return (VBool (Py.eqb x y))
  | KNotEqual => Return (VBool (negb (Py.eqb x y)))
  | KMore => Return (VBool (Py.ltb y x))
  | KLess => Return (VBool (Py.ltb x y))
  | KMoreEqual => Return (VBool (Py.leb y x))
  | KLessEqual => Return (VBool (Py.leb x y))
  | KAnd => Return (if truthy a then b else a)
  | KOr => Return (if truthy a then a else b)
  end.

(** The numpy function applied by the [_eval] of a one-operand function
    class. *)
Definition function_operator (k : FunctionClass) (x : Q) : Q :=
  match k with
  | KFloor => Py.floor x
  | KCeil => Py.ceil x
  | KAbs => Py.abs x
  | _ => numpy_call host k x
  end.

(** [try: out.append(pre + str(x._eval(subst, precision)))] with
    [except EvalError: out.append(pre + 'another error')]: the line for the
    outcome [r] of the evaluation. *)
Definition try_line (pre : string) (r : result PyValue) : result string :=
  match r with
  | Return v => Return (pre ++ value_str host v)
  | Raise (EvalError _ _) => Return (pre ++ "another error")
  | Raise e => Raise e
  end.

(** The lines "  (1) value" of the operands of the failing expression,
    each evaluated on its own. *)
Fixpoint operand_lines (ev : Expression -> result PyValue) (i : nat)
    (ops : list Expression) : result (list string) :=
  match ops with
  | [] => Return []
  | op :: ops' =>
      let pre := "  (" ++ Py.str_of_nat (1 + i) ++ ") " in
      line <- try_line pre (ev op) ;;
      rest <- operand_lines ev (S i) ops' ;;
      Return (line :: rest)
  end.

(** How a variable is introduced: a number on the same line, any other
    expression on a line of its own, its value below it. *)
Definition reference_heading (name : string) (r : Expression)
  : list string * string :=
  match r with
  | Number _ _ => ([], "  " ++ name ++ " = ")
  | _ =>
      (["  " ++ name ++ " = " ++ code host m r None],
       "  " ++ Py.repeat " " (String.length name) ++ " = ")
  end.

(** [subst[ref] if subst and ref in subst else ref.rhs()]: the expression
    shown for a variable in the error message. *)
Definition substitute_or_rhs (subst : dict) (ref : Expression)
  : result (option Expression) :=
  if in_subst host subst ref then
    match dict_get host subst ref with
    | Some s => Return (Some s)
    | None => Raise (IndexError "key")
    end
  else rhs ref.

(** The lines for the variables the failing expression refers to. *)
Fixpoint reference_lines (ev : Expression -> result PyValue) (subst : dict)
    (refs : list Expression) : result (list string) :=
  match refs with
  | [] => Return []
  | ref :: refs' =>
      let name := __str__ host m ref in
      r <- substitute_or_rhs subst ref ;;
      match r with
      | None =>
          Raise (AttributeError "'NoneType' object has no attribute 'code'")
      | Some r =>
          let (first, pre) := reference_heading name r in
          line <- try_line pre (ev r) ;;
          rest <- reference_lines ev subst refs' ;;
          Return (first ++ line :: rest)%list
      end
  end.

(** [_eval(subst, precision)] of each class, and the part of [eval] that
    follows the check of [subst].  The budget [fuel] is the depth of calls
    still allowed. *)
Fixpoint _eval (fuel : nat) (subst : dict) (precision : Precision)
    (self : Expression) {struct fuel} : result PyValue :=
  match fuel with
  | O => Raise RecursionError
  | S fuel =>
      let ev := _eval fuel subst precision in
      match self with
      | Number value _ =>
          match precision with
          | SINGLE_PRECISION => Return (VFloat (numpy_float32 host value))
          | DOUBLE_PRECISION => Return (VFloat value)
          end
      | Name _ | Derivative _ | PartialDerivative _ _ | InitialValue _ =>
          if in_subst host subst self then
            match dict_get host subst self with
            | Some s => eval_checked fuel [] DOUBLE_PRECISION s
            | None => Raise (IndexError "key")
            end
          else
            except_arithmetic self
              (r <- rhs self ;;
               match r with
               | Some r => ev r
               | None =>
                   Raise (AttributeError
                            "'NoneType' object has no attribute '_eval'")
               end)
      | PrefixExpression KPrefixPlus op => except_arithmetic self (ev op)
      | PrefixExpression KPrefixMinus op =>
          except_arithmetic self
            (x <- ev op ;; Return (VFloat (Py.neg (to_float x))))
      | PrefixExpression KNot op =>
          except_arithmetic self
            (x <- ev op ;; Return (VBool (negb (truthy x))))
      | InfixExpression KDivide op1 op2 =>
          except_arithmetic self
            (b <- ev op2 ;;
             if Py.eqb (to_float b) 0 then Raise (ZeroDivisionError "")
             else a <- ev op1 ;; infix_operator KDivide a b)
      | InfixExpression KAnd op1 op2 =>
          except_arithmetic self
            (a <- ev op1 ;; if truthy a then ev op2 else Return a)
      | InfixExpression KOr op1 op2 =>
          except_arithmetic self
            (a <- ev op1 ;; if truthy a then Return a else ev op2)
      | InfixExpression k op1 op2 =>
          except_arithmetic self
            (a <- ev op1 ;; b <- ev op2 ;; infix_operator k a b)
      | Function KIf ops =>
          match ops with
          | [i; t; e] =>
              c <- ev i ;;
              if truthy c then ev t else ev e
          | _ => Raise (AttributeError "'If' object has no attribute '_i'")
          end
      | Function KPiecewise ops =>
          (fix conditions (k : Z) (conds : list Expression)
             : result PyValue :=
             match conds with
             | [] => e <- getitem (Piecewise_e ops) (-1) ;; ev e
             | cond :: conds' =>
                 c <- ev cond ;;
                 if truthy c then e <- getitem (Piecewise_e ops) k ;; ev e
                 else conditions (k + 1)%Z conds'
             end) 0%Z (Piecewise_i ops)
      | Function KLog ops =>
          except_arithmetic self
            (if Nat.eqb (length ops) 1 then
               op <- tuple_getitem ops 0 ;;
               x <- ev op ;;
               Return (VFloat (numpy_call host KLog (to_float x)))
             else
               op0 <- tuple_getitem ops 0 ;;
               x <- ev op0 ;;
               op1 <- tuple_getitem ops 1 ;;
               y <- ev op1 ;;
               Return (VFloat (Py.float_truediv
                                 (numpy_call host KLog (to_float x))
                                 (numpy_call host KLog (to_float y)))))
      | Function k ops =>
          except_arithmetic self
            (op <- tuple_getitem ops 0 ;;
             x <- ev op ;;
             Return (VFloat (function_operator k (to_float x))))
      end
  end

with eval_checked (fuel : nat) (subst : dict) (precision : Precision)
    (self : Expression) {struct fuel} : result PyValue :=
  match fuel with
  | O => Raise RecursionError
  | S fuel =>
      match _eval fuel subst precision self with
      | Raise (EvalError e_expr e_err) =>
          (* It went wrong! Create a nice error message. *)
          msg <- _expr_error_message fuel self false e_expr
                   (Exception_str e_err) ;;
          let out := [msg] in
          (* Show values of operands *)
          let ops := _operands e_expr in
          out <-
            match ops with
            | [] => Return out
            | _ =>
                lines <- operand_lines (_eval fuel subst precision) 0 ops ;;
                Return (out ++ "With the following operands:" :: lines)%list
            end ;;
          (* Show variables included in expression *)
          let refs := references host e_expr in
          out <-
            match refs with
            | [] => Return out
            | _ =>
                lines <- reference_lines (_eval fuel subst precision)
                           subst refs ;;
                Return (out ++ "And the following variables:" :: lines)%list
            end ;;
          (* Raise new exception with better message *)
          Raise (NumericalError (Py.join nl out))
      | r => r
      end
  end.

(** A value of the [subst] argument of [eval]: an expression or a
    number. *)
Inductive Substitute : Type :=
| SubstExpression (e : Expression)
| SubstNumber (x : Q).

(** The check of [subst] at the start of [eval]: keys must be left-hand
    sides, numbers become [Number] objects.  (The argument is typed as a
    dictionary of expressions and numbers, so the two [ValueError]s for
    other arguments cannot arise.) *)
Fixpoint check_subst (subst : list (Expression * Substitute))
  : result dict :=
  match subst with
  | [] => Return []
  | (k, v) :: subst' =>
      if negb (isinstance k CLhsExpression) then
        Raise (ValueError "All keys in `subst` must LhsExpression objects.")
      else
        let v := match v with
                 | SubstExpression e => e
                 | SubstNumber x => Number__init__ x None
                 end in
        rest <- check_subst subst' ;;
        Return ((k, v) :: rest)
  end.

(** [if subst: ...]: an absent or empty [subst] is left alone. *)
Definition checked_subst (subst : option (list (Expression * Substitute)))
  : result dict :=
  match subst with
  | Some (kv :: rest) => check_subst (kv :: rest)
  | _ => Return []
  end.

(** [eval(subst, precision)]. *)
Definition eval (fuel : nat) (subst : option (list (Expression * Substitute)))
    (precision : Precision) (self : Expression) : result PyValue :=
  subst <- checked_subst subst ;;
  eval_checked fuel subst precision self.

End Evaluation.

(* ===================================================================== *)
(** * Unit evaluation *)
(* ===================================================================== *)

(** What [eval_unit] keeps and hands out: a unit, or the
    [IncompatibleUnitError] it will raise. *)
Inductive UnitResult : Type :=
| UnitValue (u : Unit)
| UnitError (msg : string).

(** The attributes of one expression object that [eval_unit] reads and
    writes.  The two [_cached_unit_*] slots are created as [None] by
    [Expression.__init__]; an attribute that was never assigned is absent
    ([None] at the outer level). *)
Record Attributes : Type := mkAttributes {
  _cached_unit_tolerant : option UnitResult;
  _cached_unit_strict : option UnitResult;
  _unit_tolerant : option (option UnitResult);
  _unit_strict : option (option UnitResult)
}.

(** The slots as [Expression.__init__] leaves them. *)
Definition Attributes__init__ : Attributes := mkAttributes None None None None.

(** [set(units)] followed by the removal of [None]: the distinct units of
    the branches, and whether a [None] was among them. *)
Fixpoint unit_set (units : list (option Unit)) : list Unit :=
  match units with
  | [] => []
  | None :: units' => unit_set units'
  | Some u :: units' =>
      let s := unit_set units' in
      if existsb (Units.eqb u) s then s else u :: s
  end.

Definition has_None (units : list (option Unit)) : bool :=
  existsb (fun u => match u with None => true | Some _ => false end) units.

(** [[f(x) for x in xs]] where [f] can raise. *)
Fixpoint for_each {A B : Type} (f : A -> result B) (xs : list A)
  : result (list B) :=
  match xs with
  | [] => Return []
  | x :: xs' => y <- f x ;; ys <- for_each f xs' ;; Return (y :: ys)
  end.

Section UnitEvaluation.

Variable host : Host.
Variable m : Model.

(** The division of units shared by [Derivative], [PartialDerivative],
    [Divide] and [Quotient]. *)
Definition unit_quotient (unit1 unit2 : option Unit) : option Unit :=
  match unit2 with
  | None => unit1
  | Some u2 =>
      match unit1 with
      | None => Some (Units.rdiv_one u2)
      | Some u1 => Some (Units.div u1 u2)
      end
  end.

Definition is_dimensionless (u : option Unit) : bool :=
  Units.opt_eqb u (Some Units.dimensionless).

Definition opt_str (u : option Unit) : string :=
  match u with Some u => Unit_str host u | None => "None" end.

Definition opt_clarify (u : option Unit) : result string :=
  match u with
  | Some u => Return (Unit_clarify host u)
  | None =>
      Raise (AttributeError "'NoneType' object has no attribute 'clarify'")
  end.

(** [_eval_unit(mode)] of each class. *)
Fixpoint _eval_unit (fuel : nat) (mode : UnitMode) (self : Expression)
    {struct fuel} : result (option Unit) :=
  match fuel with
  | O => Raise RecursionError
  | S fuel =>
      let eu := _eval_unit fuel mode in
      match self with
      | Number _ unit =>
          match mode, unit with
          | UNIT_STRICT, None => Return (Some Units.dimensionless)
          | _, _ => Return unit
          end
      | Name (Var v) => Return (Vars.unit m v mode)
      | Name (Str _) =>
          match mode with
          | UNIT_STRICT => Return (Some Units.dimensionless)
          | UNIT_TOLERANT => Return None
          end
      | Derivative op =>
          (* Get numerator (never None in strict mode) *)
          unit1 <- eu op ;;
          (* Get denominator: the variable belongs to the model, so the
             default for a missing model is never used *)
          unit2 <-
            match op with
            | Name (Var _) => Return (time_unit m mode)
            | _ =>
                Raise (AttributeError "'str' object has no attribute 'model'")
            end ;;
          Return (unit_quotient unit1 unit2)
      | PartialDerivative var1 var2 =>
          unit1 <- eu var1 ;;
          unit2 <- eu var2 ;;
          Return (unit_quotient unit1 unit2)
      | InitialValue var => eu var
      | PrefixExpression KNot op =>
          unit <- eu op ;;
          match unit with
          | None => Return unit
          | Some u =>
              if Units.eqb u Units.dimensionless then Return unit
              else
                Raise (EvalUnitError self
                         "Operator `not` expects a dimensionless operand.")
          end
      | PrefixExpression _ op => eu op
      | InfixExpression k op1 op2 =>
          unit1 <- eu op1 ;;
          unit2 <- eu op2 ;;
          match k with
          | KPlus | KMinus =>
              if Units.opt_eqb unit1 unit2 then Return unit1
              else
                match unit1, unit2 with
                | None, _ => Return unit2
                | _, None => Return unit1
                | _, _ =>
                    c1 <- opt_clarify unit1 ;;
                    c2 <- opt_clarify unit2 ;;
                    Raise (EvalUnitError self
                      ((match k with
                        | KPlus => "Addition"
                        | _ => "Subtraction"
                        end) ++ " requires equal units, got "
                       ++ c1 ++ " and " ++ c2 ++ "."))
                end
          | KMultiply =>
              match unit1, unit2 with
              | None, _ => Return unit2
              | _, None => Return unit1
              | Some u1, Some u2 => Return (Some (Units.mul u1 u2))
              end
          | KDivide | KQuotient => Return (unit_quotient unit1 unit2)
          | KRemainder => Return unit1
          | KPower =>
              if negb (is_dimensionless unit2)
                 && match mode with UNIT_STRICT => true | _ => false end
              then
                Raise (EvalUnitError self
                         "Exponent in Power must be dimensionless.")
              else
                match unit1 with
                | None => Return None
                | Some u1 =>
                    x <- eval host m fuel None DOUBLE_PRECISION op2 ;;
                    Return (Some (Units.pow u1 (to_float x)))
                end
          | KAnd | KOr =>
              match unit1, unit2 with
              | None, None => Return None
              | _, _ =>
                  let unit1 :=
                    match unit1 with
                    | None => Some Units.dimensionless
                    | _ => unit1
                    end in
                  let unit2 :=
                    match unit2 with
                    | None => Some Units.dimensionless
                    | _ => unit2
                    end in
                  if Units.opt_eqb unit1 unit2 && is_dimensionless unit2
                  then Return unit1
                  else
                    Raise (EvalUnitError self
                      ("Operator `" ++ InfixClass_rep k
                       ++ "` expects dimensionless operands."))
              end
          | _ =>
              (* BinaryComparison *)
              if Units.opt_eqb unit1 unit2 then
                match unit1 with
                | None => Return None
                | Some _ => Return (Some Units.dimensionless)
                end
              else
                match unit1, unit2 with
                | None, _ | _, None => Return (Some Units.dimensionless)
                | _, _ =>
                    Raise (EvalUnitError self
                      ("Condition " ++ InfixClass_rep k
                       ++ " requires equal units on both sides, got "
                       ++ opt_str unit1 ++ " and " ++ opt_str unit2 ++ "."))
                end
          end
      | Function KSqrt ops =>
          op <- tuple_getitem ops 0 ;;
          unit <- eu op ;;
          match unit with
          | None => Return None
          | Some u => Return (Some (Units.pow u (1 # 2)))
          end
      | Function KLog ops =>
          if Nat.eqb (length ops) 1 then
            op <- tuple_getitem ops 0 ;;
            unit <- eu op ;;
            match unit with
            | None => Return None
            | Some _ =>
                if match mode with UNIT_STRICT => true | _ => false end
                   && negb (is_dimensionless unit)
                then
                  Raise (EvalUnitError self
                           "Log() requires a dimensionless operand.")
                else Return (Some Units.dimensionless)
            end
          else
            op0 <- tuple_getitem ops 0 ;;
            unit1 <- eu op0 ;;
            op1 <- tuple_getitem ops 1 ;;
            unit2 <- eu op1 ;;
            match unit1, unit2 with
            | None, None => Return None
            | _, _ =>
                if match mode with UNIT_STRICT => true | _ => false end
                   && negb (Units.opt_eqb unit1 unit2
                            && is_dimensionless unit2)
                then
                  Raise (EvalUnitError self
                           "Log() requires dimensionless operands.")
                else Return (Some Units.dimensionless)
            end
      | Function (KFloor | KCeil | KAbs) ops =>
          op <- tuple_getitem ops 0 ;;
          eu op
      | Function KIf ops =>
          match ops with
          | [i; t; e] =>
              _ <- eu i ;;
              unit2 <- eu t ;;
              unit3 <- eu e ;;
              if Units.opt_eqb unit2 unit3 then Return unit2
              else
                match unit2, unit3 with
                | None, _ => Return unit3
                | _, None => Return unit2
                | _, _ =>
                    Raise (EvalUnitError self
                      ("Units of `then` and `else` part of an `if` must"
                       ++ " match. Got " ++ opt_str unit2 ++ " and "
                       ++ opt_str unit3 ++ "."))
                end
          | _ => Raise (AttributeError "'If' object has no attribute '_i'")
          end
      | Function KPiecewise ops =>
          _ <- for_each eu (Piecewise_i ops) ;;
          units <- for_each eu (Piecewise_e ops) ;;
          let distinct := unit_set units in
          match distinct with
          | [] =>
              if has_None units then Return None
              else
                Raise (EvalUnitError self
                  "All branches of a piecewise() must have the same unit.")
          | [u] => Return (Some u)
          | _ =>
              Raise (EvalUnitError self
                "All branches of a piecewise() must have the same unit.")
          end
      | Function k ops =>
          (* UnaryDimensionlessFunction *)
          op <- tuple_getitem ops 0 ;;
          unit <- eu op ;;
          match unit with
          | None => Return None
          | Some _ =>
              if match mode with UNIT_STRICT => true | _ => false end
                 && negb (is_dimensionless unit)
              then
                Raise (EvalUnitError self
                  ("Function " ++ _fname k
                   ++ "() requires a dimensionless operand."))
              else Return (Some Units.dimensionless)
          end
      end
  end.

(** [if isinstance(result, IncompatibleUnitError): raise result], then
    [return result]. *)
Definition raise_or_return (r : option UnitResult) : result (option Unit) :=
  match r with
  | Some (UnitError msg) => Raise (IncompatibleUnitError msg)
  | Some (UnitValue u) => Return (Some u)
  | None => Return None
  end.

(** [eval_unit(mode)] on an object whose slots are [attrs]; returns the
    outcome and the slots after the call. *)
Definition eval_unit (fuel : nat) (mode : UnitMode) (self : Expression)
    (attrs : Attributes) : result (option Unit) * Attributes :=
  (* Get cached unit or error *)
  let cached :=
    match mode with
    | UNIT_STRICT => _cached_unit_strict attrs
    | UNIT_TOLERANT => _cached_unit_tolerant attrs
    end in
  match cached with
  | None =>
      (* Evaluate and cache *)
      let computed :=
        match _eval_unit fuel mode self with
        | Return None => Return None
        | Return (Some u) => Return (Some (UnitValue u))
        | Raise (EvalUnitError e_expr e_err) =>
            msg <- _expr_error_message host m fuel self true e_expr e_err ;;
            Return (Some (UnitError msg))
        | Raise e => Raise e
        end in
      match computed with
      | Raise e => (Raise e, attrs)
      | Return r =>
          let attrs :=
            match mode with
            | UNIT_STRICT =>
                mkAttributes (_cached_unit_tolerant attrs)
                  (_cached_unit_strict attrs) (_unit_tolerant attrs) (Some r)
            | UNIT_TOLERANT =>
                mkAttributes (_cached_unit_tolerant attrs)
                  (_cached_unit_strict attrs) (Some r) (_unit_strict attrs)
            end in
          (raise_or_return r, attrs)
      end
  | Some r => (raise_or_return (Some r), attrs)
  end.

End UnitEvaluation.

(* ===================================================================== *)
(** * Partial derivatives *)
(* ===================================================================== *)

(** A Python object handed to the public entry point: an expression, one of
    the classes of the module, one of the builtin classes [type] and
    [object], or an exception object. *)
Inductive PyObject : Type :=
| PyExpression (e : Expression)
| PyClass (c : Class)
| PyBuiltinClass
| PyException (e : Exception).

(** [isinstance(cls, classinfo)] for a class [cls] of the module as first
    argument.  A class object is an instance of [type] (and of [object])
    only, so the answer is [False] for every class of the module; anything
    that is not a class is refused as second argument. *)
Definition isinstance_of_class_object (cls : Class) (classinfo : PyObject)
  : result bool :=
  match classinfo with
  | PyClass _ => Return false
  | PyBuiltinClass => Return true
  | _ =>
      Raise (TypeError
        "isinstance() arg 2 must be a type, a tuple of types, or a union")
  end.

Section Derivatives.

Variable host : Host.

(** [self.eval_unit(mode)] as called from inside the module.  The cache
    slots of every object are [None] when it is created and [eval_unit]
    leaves them so (lemma [eval_unit_leaves_cache] below), hence the call
    always starts from the slots of [Attributes__init__]. *)
Definition call_eval_unit (m : Model) (fuel : nat) (mode : UnitMode)
    (self : Expression) : result (option Unit) :=
  fst (eval_unit host m fuel mode self Attributes__init__).

(** [_partial_derivative_unit(lhs)].  [lhs.var] is the bound method, not
    the variable, so reading its attribute [unit] fails. *)
Definition _partial_derivative_unit (m : Model) (fuel : nat)
    (self lhs : Expression) : result (option Unit) :=
  let attempt :=
    unit1 <- call_eval_unit m fuel UNIT_TOLERANT self ;;
    unit2 <- (Raise (AttributeError
                "'function' object has no attribute 'unit'")
              : result (option Unit)) ;;
    Return (unit1, unit2) in
  match attempt with
  | Raise (IncompatibleUnitError _) => Return None
  | Raise e => Raise e
  | Return (unit1, unit2) =>
      match unit1, unit2 with
      | Some u1, Some u2 => Return (Some (Units.div u1 u2))
      | _, _ => Return None
      end
  end.

Definition some (e : Expression) : result (option Expression) :=
  Return (Some e).

(** [zero if op is None else op]. *)
Definition or_zero (zero : option Expression) (op : option Expression)
  : option Expression :=
  match op with
  | None => zero
  | Some _ => op
  end.

(** The operands [new_ops] that [Piecewise._partial_derivative] puts
    together: each condition followed by the derivative of its value, then
    one more entry, which the code takes from the index [i] left over by
    the loop. *)
Fixpoint Piecewise_new_ops (conds : list Expression)
    (ops : list (option Expression)) (zero : option Expression)
  : list (option Expression) :=
  match conds, ops with
  | _if :: conds', op :: ops' =>
      Some _if :: or_zero zero op :: Piecewise_new_ops conds' ops' zero
  | _, _ => []
  end.

(** [_partial_derivative(lhs)] of each class: the derivative, or [None]
    for zero. *)
Fixpoint _partial_derivative (m : Model) (fuel : nat) (lhs : Expression)
    (self : Expression) {struct fuel} : result (option Expression) :=
  match fuel with
  | O => Raise RecursionError
  | S fuel =>
      let d := _partial_derivative m fuel lhs in
      match self with
      | Number _ _ => Return None
      | Name _ =>
          if __eq__ host lhs self then
            (* dx/dx = 1, with units U/U = dimensionless *)
            some (Number__init__ 1 (Some Units.dimensionless))
          else
            v <- var lhs ;;
            match v with
            | Str _ =>
                Raise (AttributeError
                         "'str' object has no attribute 'is_bound'")
            | Var v =>
                if Vars.is_bound m v then Return None
                else if Vars.is_constant m v then Return None
                else
                  p <- PartialDerivative__init__ self lhs ;;
                  some p
            end
      | Derivative _ =>
          p <- PartialDerivative__init__ self lhs ;;
          some p
      | PartialDerivative _ _ =>
          Raise (NotImplementedError
            "Partial derivatives of partial derivatives are not supported.")
      | InitialValue _ =>
          Raise (NotImplementedError
            "Partial derivatives of initial conditions are not supported.")
      | PrefixExpression KPrefixPlus _op =>
          op <- d _op ;;
          match op with
          | None => Return None
          | Some op => some (PrefixPlus op)
          end
      | PrefixExpression KPrefixMinus _op =>
          op <- d _op ;;
          match op with
          | None => Return None
          | Some op => some (PrefixMinus op)
          end
      | PrefixExpression KNot _ =>
          Raise (NotImplementedError
                   "Conditions do not have partial derivatives.")
      | InfixExpression KPlus _op1 _op2 =>
          op1 <- d _op1 ;;
          op2 <- d _op2 ;;
          match op1, op2 with
          | None, _ => Return op2
          | _, None => Return op1
          | Some op1, Some op2 => some (Plus op1 op2)
          end
      | InfixExpression KMinus _op1 _op2 =>
          op1 <- d _op1 ;;
          op2 <- d _op2 ;;
          match op1, op2 with
          | _, None => Return op1
          | None, Some op2 => some (PrefixMinus op2)
          | Some op1, Some op2 => some (Minus op1 op2)
          end
      | InfixExpression KMultiply _op1 _op2 =>
          op1 <- d _op1 ;;
          op2 <- d _op2 ;;
          match op1, op2 with
          | None, None => Return None
          | Some op1, None => some (Multiply op1 _op2)
          | None, Some op2 => some (Multiply _op1 op2)
          | Some op1, Some op2 =>
              some (Plus (Multiply op1 _op2) (Multiply _op1 op2))
          end
      | InfixExpression KDivide _op1 _op2 =>
          op1 <- d _op1 ;;
          op2 <- d _op2 ;;
          match op1, op2 with
          | None, None => Return None
          | Some op1, None => some (Divide op1 _op2)
          | None, Some op2 =>
              some (PrefixMinus
                      (Divide (Multiply _op1 op2)
                              (Power _op2 (Number__init__ 2 None))))
          | Some op1, Some op2 =>
              some (Divide
                      (Minus (Multiply op1 _op2) (Multiply _op1 op2))
                      (Power _op2 (Number__init__ 2 None)))
          end
      | InfixExpression KQuotient _ _ => Return None
      | InfixExpression KRemainder _op1 _op2 =>
          op1 <- d _op1 ;;
          op2 <- d _op2 ;;
          match op1, op2 with
          | None, None => Return None
          | None, Some op2 =>
              (* -b' floor(a/b) *)
              f <- Floor [_op1; _op2] ;;
              some (PrefixMinus (Multiply op2 f))
          | Some op1, None => some op1
          | Some op1, Some op2 =>
              (* a' - b' floor(a/b) *)
              f <- Floor [_op1; _op2] ;;
              some (Minus op1 (Multiply op2 f))
          end
      | InfixExpression KPower _op1 _op2 =>
          op1 <- d _op1 ;;
          op2 <- d _op2 ;;
          match op1, op2 with
          | None, None => Return None
          | Some op1, None =>
              some (Multiply
                      (Multiply _op2
                         (Power _op1 (Minus _op2 (Number__init__ 1 None))))
                      op1)
          | None, Some op2 =>
              l <- Log [_op1] ;;
              some (Divide (Multiply self op2) l)
          | Some op1, Some op2 =>
              l <- Log [_op1] ;;
              some (Multiply self
                      (Plus (Multiply l op2)
                            (Multiply (Divide _op2 _op1) op1)))
          end
      | InfixExpression _ _ _ =>
          Raise (NotImplementedError
                   "Conditions do not have partial derivatives.")
      | Function KSqrt ops =>
          op <- tuple_getitem ops 0 ;;
          dop <- d op ;;
          match dop with
          | None => Return None
          | Some dop =>
              some (Divide dop (Multiply (Number__init__ 2 None) self))
          end
      | Function KSin ops =>
          op <- tuple_getitem ops 0 ;;
          dop <- d op ;;
          match dop with
          | None => Return None
          | Some dop => c <- Cos op ;; some (Multiply c dop)
          end
      | Function KCos ops =>
          op <- tuple_getitem ops 0 ;;
          dop <- d op ;;
          match dop with
          | None => Return None
          | Some dop => s <- Sin op ;; some (PrefixMinus (Multiply s dop))
          end
      | Function KTan ops =>
          op <- tuple_getitem ops 0 ;;
          dop <- d op ;;
          match dop with
          | None => Return None
          | Some dop =>
              c <- Cos op ;;
              some (Divide dop (Power c (Number__init__ 2 None)))
          end
      | Function KASin ops =>
          op <- tuple_getitem ops 0 ;;
          dop <- d op ;;
          match dop with
          | None => Return None
          | Some dop =>
              s <- Sqrt (Minus (Number__init__ 1 None)
                               (Power op (Number__init__ 2 None))) ;;
              some (Divide dop s)
          end
      | Function KACos ops =>
          op <- tuple_getitem ops 0 ;;
          dop <- d op ;;
          match dop with
          | None => Return None
          | Some dop =>
              s <- Sqrt (Minus (Number__init__ 1 None)
                               (Power op (Number__init__ 2 None))) ;;
              some (Divide (PrefixMinus dop) s)
          end
      | Function KATan ops =>
          op <- tuple_getitem ops 0 ;;
          dop <- d op ;;
          match dop with
          | None => Return None
          | Some dop =>
              some (Divide dop
                      (Plus (Number__init__ 1 None)
                            (Power op (Number__init__ 2 None))))
          end
      | Function KExp ops =>
          op <- tuple_getitem ops 0 ;;
          dop <- d op ;;
          match dop with
          | None => Return None
          | Some dop => some (Multiply self dop)
          end
      | Function KLog ops =>
          if Nat.eqb (length ops) 1 then
            (* One operand: natural logarithm *)
            op <- tuple_getitem ops 0 ;;
            dop <- d op ;;
            match dop with
            | None => Return None
            | Some dop => some (Divide dop op)
            end
          else
            (* Two operands: log_a(b) = Log(b, a) *)
            op1 <- tuple_getitem ops 0 ;;
            op2 <- tuple_getitem ops 1 ;;
            dop1 <- d op1 ;;
            dop2 <- d op2 ;;
            match dop1, dop2 with
            | None, None => Return None
            | Some dop1, None =>
                l2 <- Log [op2] ;;
                some (Divide dop1 (Multiply op1 l2))
            | None, Some dop2 =>
                l1 <- Log [op1] ;;
                l2 <- Log [op2] ;;
                some (PrefixMinus
                        (Divide (Multiply dop2 l1)
                           (Multiply op2
                              (Power l2 (Number__init__ 2 None)))))
            | Some dop1, Some dop2 =>
                l2 <- Log [op2] ;;
                l1 <- Log [op1] ;;
                l2' <- Log [op2] ;;
                some (Minus
                        (Divide dop1 (Multiply op1 l2))
                        (Divide (Multiply dop2 l1)
                           (Multiply op2
                              (Power l2' (Number__init__ 2 None)))))
            end
      | Function KLog10 ops =>
          op <- tuple_getitem ops 0 ;;
          Raise (NameError "name 'op1' is not defined")
      | Function KFloor _ => Return None
      | Function KCeil _ => Return None
      | Function KAbs ops =>
          (* Get derivative of operand *)
          op <- tuple_getitem ops 0 ;;
          dop <- d op ;;
          match dop with
          | None => Return None
          | Some dop =>
              (* Get operand unit (_not_ the unit of the derivative) *)
              unit <-
                match call_eval_unit m fuel UNIT_TOLERANT op with
                | Raise (IncompatibleUnitError _) => Return None
                | r => r
                end ;;
              i <- If (MoreEqual op (Number__init__ 0 unit)) dop
                      (PrefixMinus dop) ;;
              some i
          end
      | Function KIf ops =>
          match ops with
          | [_i; _t; _e] =>
              op1 <- d _t ;;
              op2 <- d _e ;;
              match op1, op2 with
              | None, None => Return None
              | Some op1, Some op2 => i <- If _i op1 op2 ;; some i
              | _, _ =>
                  (* If only one is None, create a zero with the correct
                     units *)
                  unit <- _partial_derivative_unit m fuel self lhs ;;
                  let zero := Number__init__ 0 unit in
                  match op1, op2 with
                  | None, Some op2 => i <- If _i zero op2 ;; some i
                  | Some op1, _ => i <- If _i op1 zero ;; some i
                  | None, None => Return None
                  end
              end
          | _ => Raise (AttributeError "'If' object has no attribute '_t'")
          end
      | Function KPiecewise operands =>
          (* Evaluate derivatives of the (m + 1) expressions *)
          ops <- for_each d (Piecewise_e operands) ;;
          (* Count the number of Nones *)
          let n_zeroes :=
            list_sum (map (fun op => match op with
                                     | None => 1
                                     | Some _ => 0
                                     end) ops)%nat in
          (* Return None if all None *)
          if Nat.eqb n_zeroes (length ops) then Return None
          else
            (* Create zero to use if any of the expressions are None *)
            zero <-
              (if Nat.ltb 0 n_zeroes then
                 unit <- _partial_derivative_unit m fuel self lhs ;;
                 Return (Some (Number__init__ 0 unit))
               else Return None) ;;
            (* Create and return piecewise *)
            let _i := Piecewise_i operands in
            i <- (match _i with
                  | [] => Raise (NameError "name 'i' is not defined")
                  | _ => Return (Z.of_nat (length _i) - 1)%Z
                  end) ;;
            last_op <- getitem ops i ;;
            let new_ops :=
              (Piecewise_new_ops _i ops zero ++ [or_zero zero last_op])%list in
            (* the method ends here, without a return statement *)
            Return None
      end
  end.

(** [partial_derivative(lhs)], the public entry point; returns the outcome
    and the model, whose bindings the call changes and restores. *)
Definition partial_derivative (m : Model) (fuel : nat) (self : Expression)
    (lhs : PyObject) : result PyObject * Model :=
  (* Check LHS *)
  match isinstance_of_class_object CName lhs with
  | Raise e => (Raise e, m)
  | Return false =>
      (Return (PyException (ValueError
         ("Partial derivatives can only be taken with respect to a"
          ++ " myokit.Name."))), m)
  | Return true =>
      (* Get derivative or None for 0 *)
      let attempt : result (option Expression) * Model * option N :=
        match lhs with
        | PyExpression lhs' =>
            match var lhs' with
            | Raise e => (Raise e, m, None)
            | Return (Str _) =>
                (Raise (AttributeError
                   "'str' object has no attribute 'is_constant'"), m, None)
            | Return (Var v) =>
                if Vars.is_constant m v then
                  let m' := Vars.set_binding m v (Some (_unused_label m)) in
                  (_partial_derivative m' fuel lhs' self, m', Some v)
                else (_partial_derivative m fuel lhs' self, m, None)
            end
        | _ => (Raise (AttributeError "object has no attribute 'var'"),
                m, None)
        end in
      let '(derivative, m, temporary_binding) := attempt in
      (* finally *)
      let m := match temporary_binding with
               | Some v => Vars.set_binding m v None
               | None => m
               end in
      match derivative, lhs with
      | Raise e, _ => (Raise e, m)
      | Return (Some derivative), _ => (Return (PyExpression derivative), m)
      | Return None, PyExpression lhs' =>
          (* Result zero? Then ensure it has the right unit *)
          match _partial_derivative_unit m fuel self lhs' with
          | Raise e => (Raise e, m)
          | Return unit => (Return (PyExpression (Number__init__ 0 unit)), m)
          end
      | Return None, _ =>
          (Raise (AttributeError "object has no attribute 'var'"), m)
      end
  end.

End Derivatives.

(* ===================================================================== *)
(** * Cloning *)
(* ===================================================================== *)

(** An entry of the [retain] argument of [clone]: an expression, a
    variable, or a qualified name. *)
Inductive RetainItem : Type :=
| RetainExpression (e : Expression)
| RetainVariable (v : N)
| RetainName (qname : string).

Section Cloning.

Variable host : Host.
Variable m : Model.

(** [self not in retain and self._value not in retain and
    self._value.qname() not in retain] for a name that wraps the variable
    [v]. *)
Definition not_retained (retain : list RetainItem) (self : Expression)
    (v : N) : bool :=
  negb (existsb (fun item => match item with
                             | RetainExpression e => __eq__ host e self
                             | _ => false
                             end) retain)
  && negb (existsb (fun item => match item with
                                | RetainVariable w => N.eqb w v
                                | _ => false
                                end) retain)
  && negb (existsb (fun item => match item with
                                | RetainName s =>
                                    String.eqb s (Vars.qname m v None)
                                | _ => false
                                end) retain).

(** [clone(subst, expand, retain)] of each class. *)
Fixpoint clone (fuel : nat) (subst : dict) (expand : bool)
    (retain : option (list RetainItem)) (self : Expression) {struct fuel}
  : result Expression :=
  match fuel with
  | O => Raise RecursionError
  | S fuel =>
      let cl := clone fuel subst expand retain in
      if in_subst host subst self then
        match dict_get host subst self with
        | Some s => Return s
        | None => Raise (IndexError "key")
        end
      else
        match self with
        | Number value unit => Return (Number__init__ value unit)
        | Name value =>
            match value with
            | Var v =>
                if expand && negb (Vars.is_state m v)
                   && match retain with
                      | None => true
                      | Some retain => not_retained retain self v
                      end
                then cl (Vars.rhs m v)
                else Return (Name value)
            | Str _ => Return (Name value)
            end
        | Derivative op => op' <- cl op ;; Derivative__init__ op'
        | PartialDerivative var1 var2 =>
            var1' <- cl var1 ;;
            var2' <- cl var2 ;;
            PartialDerivative__init__ var1' var2'
        | InitialValue var => var' <- cl var ;; InitialValue__init__ var'
        | PrefixExpression k op =>
            op' <- cl op ;; Return (PrefixExpression k op')
        | InfixExpression k op1 op2 =>
            op1' <- cl op1 ;;
            op2' <- cl op2 ;;
            Return (InfixExpression k op1' op2')
        | Function k ops =>
            ops' <- for_each cl ops ;;
            construct_Function k ops'
        end
  end.

End Cloning.

(* ===================================================================== *)
(** * Operand access, brackets, predicates, validation *)
(* ===================================================================== *)

(** [iter(self)]. *)
Definition __iter__ (self : Expression) : list Expression := _operands self.

(** [len(self)]. *)
Definition __len__ (self : Expression) : nat := length (_operands self).

(** [self[key]] for an integer [key]. *)
Definition __getitem__ (self : Expression) (key : Z) : result Expression :=
  tuple_getitem (_operands self) key.

(** The loop of [is_conditional] over the operands; [If] and [Piecewise]
    answer [True] themselves. *)
Fixpoint operands_are_conditional (self : Expression) : bool :=
  let is_conditional op :=
    match op with
    | Function KIf _ | Function KPiecewise _ => true
    | _ => operands_are_conditional op
    end in
  match self with
  | Number _ _ => false
  | Name _ => false
  | Derivative op => is_conditional op
  | PartialDerivative var1 var2 => is_conditional var1 || is_conditional var2
  | InitialValue var => operands_are_conditional var
  | PrefixExpression _ op => is_conditional op
  | InfixExpression _ op1 op2 => is_conditional op1 || is_conditional op2
  | Function _ ops => existsb is_conditional ops
  end.

(** [is_conditional()]. *)
Definition is_conditional (self : Expression) : bool :=
  match self with
  | Function KIf _ | Function KPiecewise _ => true
  | _ => operands_are_conditional self
  end.

(** [walk(allowed_types)] with a sequence of types: the nodes whose own
    class ([type(op)], not [isinstance]) is one of them, in the order of
    the plain walk. *)
Fixpoint walk_operands_of_types (allowed_types : list Class)
    (self : Expression) : list Expression :=
  let walker op :=
    ((if existsb (Class_eqb (type_ op)) allowed_types then [op] else [])
     ++ walk_operands_of_types allowed_types op)%list in
  match self with
  | Number _ _ => []
  | Name _ => []
  | Derivative op => walker op
  | PartialDerivative var1 var2 => (walker var1 ++ walker var2)%list
  | InitialValue var => walk_operands_of_types allowed_types var
  | PrefixExpression _ op => walker op
  | InfixExpression _ op1 op2 => (walker op1 ++ walker op2)%list
  | Function _ ops => flat_map walker ops
  end.

(** [walk(allowed_types)]; [None] is the walk without a filter. *)
Definition walk_types (allowed_types : option (list Class))
    (self : Expression) : list Expression :=
  match allowed_types with
  | None => walk self
  | Some allowed_types =>
      ((if existsb (Class_eqb (type_ self)) allowed_types then [self] else [])
       ++ walk_operands_of_types allowed_types self)%list
  end.

(** ** If and Piecewise: the parts *)

(** [If.condition()]. *)
Definition If_condition (self : Expression) : result Expression :=
  match self with
  | Function KIf [i; _; _] => Return i
  | _ => Raise (AttributeError "object has no attribute '_i'")
  end.

(** [If.value(which)]. *)
Definition If_value (self : Expression) (which : bool) : result Expression :=
  match self with
  | Function KIf [_; t; e] => Return (if which then t else e)
  | _ => Raise (AttributeError "object has no attribute '_t'")
  end.

(** [If.piecewise()]. *)
Definition If_piecewise (self : Expression) : result Expression :=
  match self with
  | Function KIf [i; t; e] => Piecewise [i; t; e]
  | _ => Raise (AttributeError "object has no attribute '_i'")
  end.

(** [Piecewise.conditions()], as the list the iterator runs over. *)
Definition Piecewise_conditions (self : Expression)
  : result (list Expression) :=
  match self with
  | Function KPiecewise ops => Return (Piecewise_i ops)
  | _ => Raise (AttributeError "object has no attribute 'conditions'")
  end.

(** [Piecewise.pieces()], as the list the iterator runs over. *)
Definition Piecewise_pieces (self : Expression) : result (list Expression) :=
  match self with
  | Function KPiecewise ops => Return (Piecewise_e ops)
  | _ => Raise (AttributeError "object has no attribute 'pieces'")
  end.

Section Predicates.

Variable host : Host.

(** [key in self]: the operands are compared with [==] (an operand that is
    the very object [key] is equal to it, [==] being reflexive). *)
Definition __contains__ (self key : Expression) : bool :=
  existsb (fun op => __eq__ host op key) (_operands self).

(** [op == other], where [op] is an argument that may be [None]. *)
Definition opt___eq__ (op : option Expression) (other : Expression) : bool :=
  match op with
  | Some op => __eq__ host op other
  | None => false
  end.

(** [op in self._operands], where [op] may be [None]. *)
Definition opt_in (op : option Expression) (self : Expression) : bool :=
  match op with
  | Some op => __contains__ self op
  | None => false
  end.

(** [bracket(op)] of each class. *)
Definition bracket (self : Expression) (op : option Expression)
  : result bool :=
  let unused : result bool :=
    Raise (ValueError "Given operand is not used in this expression.") in
  match self with
  | Number _ _ | Name _ =>
      match op with
      | Some _ => unused
      | None => Return false
      end
  | Derivative _op =>
      if negb (opt___eq__ op _op) then unused else Return false
  | PartialDerivative _ _ | InitialValue _ | Function _ _ =>
      if negb (opt_in op self) then unused else Return false
  | PrefixExpression _ _op =>
      if negb (opt___eq__ op _op) then unused
      else Return ((LITERAL <? _rbp _op)%Z && (_rbp _op <? _rbp self)%Z)
  | InfixExpression _ _op1 _op2 =>
      match op with
      | Some op =>
          if __eq__ host op _op1 then
            Return ((LITERAL <? _rbp op)%Z && (_rbp op <? _rbp self)%Z)
          else if __eq__ host op _op2 then
            Return ((LITERAL <? _rbp op)%Z && (_rbp op <=? _rbp self)%Z)
          else unused
      | None => unused
      end
  end.

(** [is_literal()]: no references; [Number] and the left-hand-side classes
    answer without looking. *)
Definition is_literal (self : Expression) : bool :=
  match self with
  | Number _ _ => true
  | Name _ | Derivative _ | PartialDerivative _ _ | InitialValue _ => false
  | _ => Nat.eqb (length (_references host self)) 0
  end.

Variable m : Model.

(** [LhsExpression.is_constant()]: [self.var().is_constant()]. *)
Definition LhsExpression_is_constant (self : Expression) : result bool :=
  v <- var self ;;
  match v with
  | Var v => Return (Vars.is_constant m v)
  | Str _ =>
      Raise (AttributeError "'str' object has no attribute 'is_constant'")
  end.

(** [is_constant()].  The members of [_references] are objects of the
    left-hand-side classes (only their constructors put an object into the
    set), so the call [ref.is_constant()] in the loop is the method of
    [LhsExpression]. *)
Definition is_constant (self : Expression) : result bool :=
  match self with
  | Number _ _ => Return true
  | Name _ | Derivative _ | PartialDerivative _ _ | InitialValue _ =>
      LhsExpression_is_constant self
  | _ =>
      (fix loop (refs : list Expression) : result bool :=
         match refs with
         | [] => Return true
         | ref :: refs' =>
             c <- LhsExpression_is_constant ref ;;
             if negb c then Return false else loop refs'
         end) (_references host self)
  end.

(** [is_state_value()]. *)
Definition is_state_value (self : Expression) : result bool :=
  match self with
  | Name (Var v) => Return (Vars.is_state m v)
  | Name (Str _) =>
      Raise (AttributeError "'str' object has no attribute 'is_state'")
  | _ => Return false
  end.

End Predicates.

Section Validation.

Variable m : Model.

(** [repr(s)] of a string, as the interpreter writes it. *)
Variable repr_str : string -> string.

(** The double quote character. *)
Definition dquote : string := String (ascii_of_nat 34) "".

(** [_validate(trail)] of each class.  A tree of immutable objects has no
    node among its own ancestors, so the test for a cycle never fires; and
    [_cached_validation], which [Expression.__init__] sets to [None], only
    lets a validated node skip the loop over operands that it has passed
    before.  [InitialValue._validate] names a class [InitialCondition] that
    the module does not define. *)
Fixpoint _validate (self : Expression) : result unit :=
  match self with
  | Number _ _ => Return tt
  | Name (Var _) => Return tt
  | Name (Str s) =>
      Raise (IntegrityError
        ("Name value " ++ dquote ++ repr_str s ++ dquote
         ++ " is not an instance of class myokit.Variable"))
  | Derivative _op =>
      _ <- _validate _op ;;
      (* Check if value is the name of a state variable *)
      v <- var _op ;;
      match v with
      | Var v =>
          if Vars.is_state m v then Return tt
          else
            Raise (IntegrityError
              "Derivatives can only be defined for state variables.")
      | Str _ =>
          Raise (IntegrityError
            "Derivatives can only be defined for state variables.")
      end
  | PartialDerivative var1 var2 =>
      _ <- _validate var1 ;;
      _validate var2
  | InitialValue _ =>
      Raise (NameError "name 'InitialCondition' is not defined")
  | PrefixExpression _ op => _validate op
  | InfixExpression _ op1 op2 =>
      _ <- _validate op1 ;;
      _validate op2
  | Function _ ops =>
      (fix operands (ops : list Expression) : result unit :=
         match ops with
         | [] => Return tt
         | op :: ops' => _ <- _validate op ;; operands ops'
         end) ops
  end.

(** [validate()]. *)
Definition validate (self : Expression) : result unit := _validate self.

End Validation.

(* ===================================================================== *)
(** * A host and a model to run examples on *)
(* ===================================================================== *)

Module Sample.

(** [str(x)] for a float with an integral value: "3.0", "-7.0". *)
Definition str_of_float (x : Q) : string :=
  let n := Qfloor x in
  ((if (n <? 0)%Z then "-" else "") ++ Py.str_of_N (Z.abs_N n) ++ ".0").

Definition str_of_value (v : PyValue) : string :=
  match v with
  | VFloat x => str_of_float x
  | VBool true => "True"
  | VBool false => "False"
  end.

Definition host : Host :=
  mkHost str_of_float (fun _ => "[unit]") (fun _ => "[unit]")
    (fun s => Z.of_nat (String.length s)) str_of_value
    (fun x => x) (fun _ x => x) (fun x _ => Return x)
    "float floor division by zero" "float modulo".

(** Variable 1 is a state [x], every other variable an ordinary
    intermediate variable [y] of the same component. *)
Definition model : Model :=
  mkModel
    (fun v =>
       if N.eqb v 1 then
         mkVariable "x" "c" None true 0%Q (Number 0%Q None) false None false
       else
         mkVariable "y" "c" None false 0%Q (Number 2%Q None) false None false)
    None "unused".

Definition x : Expression := Name (Var 1).

Definition y : Expression := Name (Var 2).

End Sample.

(* ===================================================================== *)
(** * Notions used by the properties *)
(* ===================================================================== *)

(** ** Type search without the shortcuts *)

(** The search that the two shortcuts of [contains_type] stand for: the
    method with the lines that answer from [_has_partials] and
    [_has_initials] left out, so that every kind is looked for by
    descending into the operands. *)
Fixpoint operands_contain_type_by_search (self : Expression) (kind : Class)
  : bool :=
  let contains op :=
    if isinstance op kind then true
    else operands_contain_type_by_search op kind in
  match self with
  | Number _ _ => false
  | Name _ => false
  | Derivative op => contains op
  | PartialDerivative var1 var2 => contains var1 || contains var2
  | InitialValue var => operands_contain_type_by_search var kind
  | PrefixExpression _ op => contains op
  | InfixExpression _ op1 op2 => contains op1 || contains op2
  | Function _ ops => existsb contains ops
  end.

Definition contains_type_by_search (self : Expression) (kind : Class) : bool :=
  if isinstance self kind then true
  else operands_contain_type_by_search self kind.

(** ** Digits *)

Definition is_digit (c : ascii) : bool :=
  (48 <=? nat_of_ascii c)%nat && (nat_of_ascii c <=? 57)%nat.

Fixpoint all_digits (s : string) : bool :=
  match s with
  | EmptyString => true
  | String c s' => is_digit c && all_digits s'
  end.

(** The text goes on with something that is not a digit. *)
Definition no_digit_next (s : string) : bool :=
  match s with
  | EmptyString => false
  | String c _ => negb (is_digit c)
  end.

(** ** Constructible expressions *)

(** The depth of a tree: the number of nested calls [clone] needs below
    the first. *)
Fixpoint height (e : Expression) : nat :=
  match e with
  | Number _ _ => 0
  | Name _ => 0
  | Derivative op => S (height op)
  | PartialDerivative var1 var2 => S (Nat.max (height var1) (height var2))
  | InitialValue var => S (height var)
  | PrefixExpression _ op => S (height op)
  | InfixExpression _ op1 op2 => S (Nat.max (height op1) (height op2))
  | Function _ ops =>
      S (fold_right (fun op h => Nat.max (height op) h) 0%nat ops)
  end.

(** A float as the constructor of [Number] stores it. *)
Definition stored_float (x : Q) : bool :=
  match Number__init__ x None with
  | Number x' _ => Z.eqb (Qnum x') (Qnum x) && Pos.eqb (Qden x') (Qden x)
  | _ => false
  end.

Definition accepted {A : Type} (r : result A) : bool :=
  match r with Return _ => true | Raise _ => false end.

(** The expressions that exist in a running program: every node is what
    the constructor of its class returns for the node's own attributes. *)
Fixpoint constructible (e : Expression) : bool :=
  match e with
  | Number value _ => stored_float value
  | Name _ => true
  | Derivative op => accepted (Derivative__init__ op) && constructible op
  | PartialDerivative var1 var2 =>
      accepted (PartialDerivative__init__ var1 var2)
      && constructible var1 && constructible var2
  | InitialValue var => accepted (InitialValue__init__ var) && constructible var
  | PrefixExpression _ op => constructible op
  | InfixExpression _ op1 op2 => constructible op1 && constructible op2
  | Function k ops =>
      accepted (construct_Function k ops) && forallb constructible ops
  end.

(** A [PartialDerivative] whose first operand is the name of a variable,
    or an expression of any other class. *)
Definition names_a_variable (e : Expression) : bool :=
  match e with
  | PartialDerivative (Name (Var _)) _ => true
  | PartialDerivative _ _ => false
  | _ => true
  end.

(** ** Outcomes of an evaluation *)

(** An outcome the error report can show: a value, or the internal
    [EvalError], which the report replaces by a placeholder. *)
Definition benign (r : result PyValue) : Prop :=
  match r with
  | Return _ => True
  | Raise (EvalError _ _) => True
  | Raise _ => False
  end.

(** What the report shows for an outcome. *)
Definition shown (host : Host) (r : result PyValue) : string :=
  match r with
  | Return v => value_str host v
  | Raise _ => "another error"
  end.

(** The evaluation of [e] ends in [r]: it does so for every budget from
    some budget on. *)
Definition evaluates (host : Host) (m : Model) (subst : dict)
    (precision : Precision) (e : Expression) (r : result PyValue) : Prop :=
  exists fuel0 : nat,
    forall fuel, (fuel0 <= fuel)%nat ->
      _eval host m fuel subst precision e = r.

(** A referenced variable the report can show: it has a substitute or a
    right-hand side, whose evaluation ends in a benign outcome. *)
Definition reportable (host : Host) (m : Model) (subst : dict)
    (precision : Precision) (ref : Expression) : Prop :=
  exists (r : Expression) (res : result PyValue),
    substitute_or_rhs host m subst ref = Return (Some r) /\
    evaluates host m subst precision r res /\
    benign res.

(** ** Notions for the further properties *)

(** The list is empty. *)
Definition is_nil {A : Type} (l : list A) : bool :=
  match l with [] => true | _ :: _ => false end.

(** The object is an [If] or a [Piecewise]. *)
Definition If_or_Piecewise (e : Expression) : bool :=
  match e with
  | Function KIf _ | Function KPiecewise _ => true
  | _ => false
  end.

(** A node that passes the checks of its own class: a name wraps a
    variable, [dot()] is taken of a state, and there is no [init()]. *)
Definition valid_node (m : Model) (n : Expression) : bool :=
  match n with
  | Name (Str _) => false
  | Derivative op =>
      match var op with
      | Return (Var v) => Vars.is_state m v
      | _ => false
      end
  | InitialValue _ => false
  | _ => true
  end.

(** A variable that a left-hand side wraps is constant. *)
Definition refers_to_constant (m : Model) (ref : Expression) : bool :=
  match var ref with
  | Return (Var v) => Vars.is_constant m v
  | _ => false
  end.

(** A left-hand side that wraps a variable, not a string. *)
Definition wraps_variable (ref : Expression) : Prop :=
  exists v : N, var ref = Return (Var v).

(** Conditions and values taken in turn: [c1, v1, c2, v2, ...]. *)
Definition interleave (conds values : list Expression) : list Expression :=
  flat_map (fun cv => [fst cv; snd cv]) (combine conds values).

(** A condition that evaluates to a value that counts as false. *)
Definition evaluates_false (ev : Expression -> result PyValue)
    (cond : Expression) : Prop :=
  exists v : PyValue, ev cond = Return v /\ truthy v = false.

(** The two exceptions the module uses internally. *)
Definition is_internal_error (e : Exception) : bool :=
  match e with
  | EvalError _ _ | EvalUnitError _ _ => true
  | _ => false
  end.

(** An outcome that is not one of the internal exceptions. *)
Definition no_internal_error {A : Type} (r : result A) : Prop :=
  match r with
  | Raise e => is_internal_error e = false
  | Return _ => True
  end.

(** An outcome that is not the internal [EvalError]. *)
Definition no_EvalError {A : Type} (r : result A) : Prop :=
  match r with
  | Raise (EvalError _ _) => False
  | _ => True
  end.

(** An outcome that is not the internal [EvalUnitError]. *)
Definition no_EvalUnitError {A : Type} (r : result A) : Prop :=
  match r with
  | Raise (EvalUnitError _ _) => False
  | _ => True
  end.



(** Expressions made of numbers, names, the arithmetic operators and the
    elementary functions, each function with the operands its class
    accepts. *)
Fixpoint arithmetic (e : Expression) : bool :=
  match e with
  | Number _ _ => true
  | Name _ => true
  | PrefixExpression (KPrefixPlus | KPrefixMinus) op => arithmetic op
  | InfixExpression
      (KPlus | KMinus | KMultiply | KDivide | KQuotient | KPower) op1 op2 =>
      arithmetic op1 && arithmetic op2
  | Function
      (KSqrt | KSin | KCos | KTan | KASin | KACos | KATan | KExp | KFloor
       | KCeil) [op] => arithmetic op
  | Function KLog [op] => arithmetic op
  | Function KLog [op1; op2] => arithmetic op1 && arithmetic op2
  | _ => false
  end.

(** An expression with a node whose class has no derivative ([dot()],
    [partial()], [init()], [log10()], a condition) at a place the
    differentiation reaches: below the operators and functions that
    differentiate their operands, in a branch of [if] or [piecewise], but
    not in their tests and not below [//], [floor] and [ceil]. *)
Fixpoint has_no_derivative (e : Expression) : bool :=
  match e with
  | Number _ _ => false
  | Name _ => false
  | Derivative _ => true
  | PartialDerivative _ _ => true
  | InitialValue _ => true
  | PrefixExpression KNot _ => true
  | PrefixExpression _ op => has_no_derivative op
  | InfixExpression
      (KPlus | KMinus | KMultiply | KDivide | KRemainder | KPower) op1 op2 =>
      has_no_derivative op1 || has_no_derivative op2
  | InfixExpression KQuotient _ _ => false
  | InfixExpression _ _ _ => true
  | Function (KFloor | KCeil) _ => false
  | Function KLog10 (_ :: _) => true
  | Function KLog [op] => has_no_derivative op
  | Function KLog (op1 :: op2 :: _) =>
      has_no_derivative op1 || has_no_derivative op2
  | Function KIf [_; t; e] => has_no_derivative t || has_no_derivative e
  | Function KPiecewise ops =>
      (fix pieces (ops : list Expression) : bool :=
         match ops with
         | _ :: value :: rest => has_no_derivative value || pieces rest
         | [default] => has_no_derivative default
         | [] => false
         end) ops
  | Function KIf _ => false
  | Function _ (op :: _) => has_no_derivative op
  | Function _ [] => false
  end.

(** ** Proof steps *)

(** Case analysis on the outcome that the goal branches on. *)
Ltac case_outcome :=
  match goal with
  | |- context [bind ?c _] => destruct c; simpl
  | |- context [match ?c with Return _ => _ | Raise _ => _ end] =>
      destruct c; simpl
  end.

(** Moves the buffer out of every call of [_code] on [e], with the
    induction hypothesis [IH] for [e]. *)
Ltac push_buffer IH e :=
  repeat match goal with
         | |- context [_code _ _ e ?b _] =>
             lazymatch b with
             | EmptyString => fail
             | _ => rewrite (IH b)
             end
         end.

(** Case analysis on the derivative of an operand that cannot be an
    expression. *)
Ltac zero_derivative IH :=
  repeat match goal with
         | |- context [_partial_derivative ?h ?m ?f ?l ?x] =>
             let E := fresh "E" in
             destruct (_partial_derivative h m f l x) as [[?|]|?] eqn:E;
             [apply IH in E; [discriminate | auto; fail] | | ];
             simpl
         end.

(** Case analysis on the unit of an operand, which is a unit in strict
    mode. *)
Ltac strict_unit IH :=
  repeat match goal with
         | |- context [_eval_unit ?h ?m ?f UNIT_STRICT ?x] =>
             let E := fresh "E" in
             destruct (_eval_unit h m f UNIT_STRICT x) as [[?|]|?] eqn:E;
             [ | now apply IH in E | ]; simpl
         end.

(** Case analysis on the tests and the outcomes that are left in the goal. *)
Ltac split_tests :=
  repeat match goal with
         | |- context [if ?c then _ else _] => destruct c; simpl
         | |- context [bind ?c _] => destruct c; simpl
         end.

(** Rewrites the slices of [Number_str] with the three facts [H] about the
    slices of a text with a known ending. *)
Ltac slices H :=
  let Hs := fresh "Hs" in
  let He := fresh "He" in
  let Hp := fresh "Hp" in
  destruct H as (Hs & He & Hp);
  change (Some (-1)%Z) with (Some (- Z.of_nat 1)%Z);
  change (Some (-2)%Z) with (Some (- Z.of_nat 2)%Z);
  change (Some (-3)%Z) with (Some (- Z.of_nat 3)%Z);
  change (Some (-4)%Z) with (Some (- Z.of_nat 4)%Z);
  rewrite ?Hs by (simpl; lia);
  rewrite ?He by (simpl; lia);
  rewrite ?Hp by (simpl; lia).

(* ===================================================================== *)
(** * Properties *)
(* ===================================================================== *)

(** ** Strings and buffers *)

Lemma append_assoc (a b c : string) : (a ++ b) ++ c = a ++ (b ++ c).
Proof.
  induction a as [|ch a IH]; simpl; [reflexivity | now rewrite IH].
Qed.

Lemma append_nil_r (a : string) : a ++ "" = a.
Proof.
  induction a as [|ch a IH]; simpl; [reflexivity | now rewrite IH].
Qed.

Lemma append_inj_l (a b c : string) : a ++ b = a ++ c -> b = c.
Proof.
  induction a as [|ch a IH]; simpl; intros H; [exact H|].
  injection H as H. now apply IH.
Qed.

Lemma write_app (b s : string) : write b s = b ++ s.
Proof. reflexivity. Qed.

(** ** Equality, canonical form and hash *)

Section EqualityFacts.

Variable host : Host.

Lemma Handle_eqb_eq (a b : Handle) : Handle_eqb a b = true <-> a = b.
Proof.
  destruct a as [i|s], b as [j|t]; simpl; split; intros H;
    try discriminate.
  - apply N.eqb_eq in H. now subst.
  - injection H as ->. apply N.eqb_refl.
  - apply String.eqb_eq in H. now subst.
  - injection H as ->. apply String.eqb_refl.
Qed.

Lemma Class_eqb_eq (a b : Class) : Class_eqb a b = true <-> a = b.
Proof.
  unfold Class_eqb. destruct (Class_eq_dec a b); split; intros H;
    congruence.
Qed.

Lemma Class_eqb_refl (a : Class) : Class_eqb a a = true.
Proof. now apply Class_eqb_eq. Qed.

(** Every writer appends to the buffer it is given. *)
Lemma fold_polishb_app (ops : list Expression) :
  Forall (fun e => forall b, _polishb host e b = b ++ _polishb host e "") ops ->
  forall b,
    fold_left (fun b op => _polishb host op (b ++ " ")) ops b
    = b ++ fold_left (fun b op => _polishb host op (b ++ " ")) ops "".
Proof.
  induction 1 as [|x ops Hx _ IH]; intros b; simpl.
  - now rewrite append_nil_r.
  - rewrite IH. rewrite (IH (_polishb host x " ")).
    rewrite Hx. rewrite (Hx " ").
    now rewrite !append_assoc.
Qed.

Lemma _polishb_Function (c : FunctionClass) (ops : list Expression) b :
  _polishb host (Function c ops) b
  = fold_left (fun b op => _polishb host op (b ++ " ")) ops
      (((b ++ _fname c) ++ " ") ++ Py.str_of_nat (length ops)).
Proof. reflexivity. Qed.

Lemma _polishb_app (e : Expression) :
  forall b, _polishb host e b = b ++ _polish host e.
Proof.
  unfold _polish, getvalue.
  induction e as [v u | h | op IH | a b IHa IHb | v IH | c op IH
                 | c a b IHa IHb | c ops IH] using Expression_tree_ind;
    intros buf; [simpl; unfold write .. | rewrite !_polishb_Function].
  - reflexivity.
  - destruct h; simpl; now rewrite append_assoc.
  - rewrite IH, (IH "dot "). simpl. now rewrite append_assoc.
  - rewrite IHb, IHa. rewrite (IHb (_polishb host a "partial ")).
    rewrite (IHa "partial "). simpl. now rewrite !append_assoc.
  - rewrite IH, (IH "init "). simpl. now rewrite append_assoc.
  - destruct c; simpl; unfold write.
    + apply IH.
    + rewrite IH, (IH "~ "). now rewrite append_assoc.
    + rewrite IH, (IH "not "). now rewrite append_assoc.
  - rewrite IHb, IHa.
    rewrite (IHb (_polishb host a (InfixClass_rep c ++ " ") ++ " ")).
    rewrite (IHa (InfixClass_rep c ++ " ")).
    now rewrite !append_assoc.
  - rewrite (fold_polishb_app IH
               (((buf ++ _fname c) ++ " ") ++ Py.str_of_nat (length ops))).
    rewrite (fold_polishb_app IH
               ((("" ++ _fname c) ++ " ") ++ Py.str_of_nat (length ops))).
    simpl. now rewrite !append_assoc.
Qed.

(** Equality is reflexive on every class. *)
Lemma __eq___refl (e : Expression) : __eq__ host e e = true.
Proof.
  induction e as [v u | h | op IH | a b IHa IHb | v IH | c op IH
                 | c a b IHa IHb | c ops IH] using Expression_tree_ind;
    simpl; try assumption;
    try (rewrite ?Class_eqb_refl; simpl; apply String.eqb_refl).
  - now apply Handle_eqb_eq.
  - now rewrite IHa, IHb.
Qed.

(** Equal expressions have the same class and the same canonical form:
    the direction of the specification's equivalence that holds for every
    class, the four with their own [__eq__] included. *)
Lemma __eq___polish (e f : Expression) :
  __eq__ host e f = true -> type_ e = type_ f /\ _polish host e = _polish host f.
Proof.
  assert (generic : forall e f,
            (if negb (Class_eqb (type_ e) (type_ f)) then false
             else String.eqb (_polish host e) (_polish host f)) = true ->
            type_ e = type_ f /\ _polish host e = _polish host f).
  { intros e0 f0 H.
    destruct (Class_eqb (type_ e0) (type_ f0)) eqn:Hc; simpl in H;
      [|discriminate].
    split; [now apply Class_eqb_eq | now apply String.eqb_eq]. }
  revert f.
  induction e as [v u | h | op IH | a b IHa IHb | v IH | c op IH
                 | c a b IHa IHb | c ops IH] using Expression_tree_ind;
    intros f H.
  - now apply generic.
  - destruct f; try discriminate. simpl in H.
    apply Handle_eqb_eq in H. now subst.
  - destruct f; try discriminate. simpl in H.
    destruct (IH _ H) as [_ Hp]. split; [reflexivity|].
    unfold _polish, getvalue. simpl. unfold write.
    now rewrite !_polishb_app, Hp.
  - destruct f; try discriminate. simpl in H.
    apply andb_true_iff in H. destruct H as [H1 H2].
    destruct (IHa _ H1) as [_ Hp1]. destruct (IHb _ H2) as [_ Hp2].
    split; [reflexivity|].
    unfold _polish, getvalue. simpl. unfold write.
    rewrite !_polishb_app. now rewrite Hp1, Hp2.
  - destruct f; try discriminate. simpl in H.
    destruct (IH _ H) as [_ Hp]. split; [reflexivity|].
    unfold _polish, getvalue. simpl. unfold write.
    now rewrite !_polishb_app, Hp.
  - now apply generic.
  - now apply generic.
  - now apply generic.
Qed.

(** Equal expressions have equal hashes. *)
Lemma __eq___hash (e f : Expression) :
  __eq__ host e f = true -> __hash__ host e = __hash__ host f.
Proof.
  intros H. unfold __hash__. now rewrite (proj2 (__eq___polish _ _ H)).
Qed.

(** For the classes that inherit [Expression.__eq__], equality is, by
    definition, equality of class and canonical form. *)
Lemma __eq___inherited (e f : Expression) :
  isinstance e CLhsExpression = false ->
  __eq__ host e f
  = Class_eqb (type_ e) (type_ f)
    && String.eqb (_polish host e) (_polish host f).
Proof.
  destruct e; simpl; try discriminate; intros _;
    destruct (Class_eqb _ _); reflexivity.
Qed.

(** *** Where the canonical form does determine equality *)

Lemma str_of_N_inj (a b : N) : Py.str_of_N a = Py.str_of_N b -> a = b.
Proof.
  unfold Py.str_of_N. intros H.
  assert (nonnil : forall n, N.to_uint n <> Decimal.Nil).
  { intros [|q]; simpl; [discriminate | apply Unsigned.to_uint_nonnil]. }
  apply DecimalN.Unsigned.to_uint_inj.
  pose proof (NilZero.usu _ (nonnil a)) as Ha.
  pose proof (NilZero.usu _ (nonnil b)) as Hb.
  rewrite H in Ha. rewrite Ha in Hb. now injection Hb.
Qed.

Lemma string_of_uint_digits (d : Decimal.uint) :
  all_digits (NilEmpty.string_of_uint d) = true.
Proof. induction d; simpl; auto. Qed.

Lemma str_of_N_digits (n : N) : all_digits (Py.str_of_N n) = true.
Proof.
  unfold Py.str_of_N, NilZero.string_of_uint.
  destruct (N.to_uint n); try reflexivity; apply string_of_uint_digits.
Qed.

(** Digits followed by something else can be split in one way only. *)
Lemma split_digits (d1 d2 r1 r2 : string) :
  all_digits d1 = true -> all_digits d2 = true ->
  no_digit_next r1 = true -> no_digit_next r2 = true ->
  d1 ++ r1 = d2 ++ r2 -> d1 = d2 /\ r1 = r2.
Proof.
  revert d2. induction d1 as [|c d1 IH]; intros [|c2 d2] H1 H2 Hr1 Hr2 E;
    simpl in *.
  - now split.
  - subst r1. simpl in Hr1. apply andb_true_iff in H2.
    destruct H2 as [Hc _]. rewrite Hc in Hr1. discriminate.
  - subst r2. simpl in Hr2. apply andb_true_iff in H1.
    destruct H1 as [Hc _]. rewrite Hc in Hr2. discriminate.
  - injection E as -> E. apply andb_true_iff in H1, H2.
    destruct (IH d2) as [-> ->]; tauto.
Qed.

Lemma Name_polish_inj (h h' : Handle) :
  _polish host (Name h) = _polish host (Name h') -> h = h'.
Proof.
  destruct h as [i|s], h' as [i'|s']; unfold _polish, getvalue; simpl;
    unfold write; simpl; intros E; try discriminate.
  - injection E as E. now apply str_of_N_inj in E; subst.
  - now injection E as ->.
Qed.

(** The second operand of a constructible [PartialDerivative]: a name, or
    the initial value of a name. *)
Lemma second_operand_polish (b b' : Expression) :
  is_Name b || is_InitialValue b = true ->
  is_Name b' || is_InitialValue b' = true ->
  constructible b = true -> constructible b' = true ->
  _polish host b = _polish host b' ->
  __eq__ host b b' = true.
Proof.
  intros Hb Hb' Cb Cb' E.
  destruct b as [| h | | | v | | |]; try discriminate;
    destruct b' as [| h' | | | v' | | |]; try discriminate.
  - apply Name_polish_inj in E. subst. apply __eq___refl.
  - unfold _polish, getvalue in E. simpl in E. unfold write in E.
    rewrite _polishb_app in E. destruct h; discriminate.
  - unfold _polish, getvalue in E. simpl in E. unfold write in E.
    rewrite _polishb_app in E. destruct h'; discriminate.
  - simpl in Cb, Cb'.
    destruct v as [| h | | | | | |]; try discriminate.
    destruct v' as [| h' | | | | | |]; try discriminate.
    assert (E' : _polish host (Name h) = _polish host (Name h')).
    { unfold _polish, getvalue in *.
      destruct h, h'; simpl in *; unfold write in *; simpl in *;
        congruence. }
    apply Name_polish_inj in E'. subst. apply __eq___refl.
Qed.

Lemma second_operand_no_digit (b : Expression) :
  is_Name b || is_InitialValue b = true ->
  no_digit_next (_polish host b) = true.
Proof.
  destruct b as [| h | | | v | | |]; try discriminate; intros _.
  - now destruct h.
  - unfold _polish, getvalue. simpl. unfold write.
    now rewrite _polishb_app.
Qed.

(** For constructible expressions, the class and the canonical form
    determine equality, except for a [PartialDerivative] whose first name
    is a string. *)
Lemma polish___eq__ (e f : Expression) :
  constructible e = true -> constructible f = true ->
  names_a_variable e = true ->
  type_ e = type_ f -> _polish host e = _polish host f ->
  __eq__ host e f = true.
Proof.
  intros Ce Cf Hv Ht Hp.
  assert (generic : isinstance e CLhsExpression = false ->
                    __eq__ host e f = true).
  { intros H. rewrite __eq___inherited by assumption.
    rewrite Ht, Class_eqb_refl, Hp. apply String.eqb_refl. }
  destruct e as [v u | h | op | a b | v | c op | c a b | c ops];
    try (apply generic; destruct c; reflexivity);
    try (now apply generic).
  - destruct f; try discriminate.
    apply Name_polish_inj in Hp. subst. apply __eq___refl.
  - destruct f as [| | op' | | | | |]; try discriminate.
    simpl in Ce, Cf.
    destruct op as [| h | | | | | |]; try discriminate.
    destruct op' as [| h' | | | | | |]; try discriminate.
    assert (E : _polish host (Name h) = _polish host (Name h')).
    { unfold _polish, getvalue in *.
      destruct h, h'; simpl in *; unfold write in *; simpl in *;
        congruence. }
    apply Name_polish_inj in E. subst. apply __eq___refl.
  - destruct f as [| | | a' b' | | | |]; try discriminate.
    simpl in Ce, Cf.
    apply andb_true_iff in Ce. destruct Ce as [Ce Cb].
    apply andb_true_iff in Ce. destruct Ce as [Ci Ca].
    apply andb_true_iff in Cf. destruct Cf as [Cf Cb'].
    apply andb_true_iff in Cf. destruct Cf as [Ci' Ca'].
    unfold PartialDerivative__init__ in Ci, Ci'.
    destruct a as [| [i|s] | | | | | |]; try discriminate.
    destruct a' as [| [i'|s'] | | | | | |]; try discriminate.
    + simpl in Ci, Ci'.
      destruct (is_Name b || is_InitialValue b) eqn:Hb; [|discriminate].
      destruct (is_Name b' || is_InitialValue b') eqn:Hb'; [|discriminate].
      unfold _polish, getvalue in Hp. simpl in Hp. unfold write in Hp.
      rewrite !_polishb_app in Hp. simpl in Hp.
      change ("partial var:" ++ (Py.str_of_N i ++ _polish host b)
              = "partial var:" ++ (Py.str_of_N i' ++ _polish host b')) in Hp.
      apply append_inj_l in Hp.
      destruct (split_digits (Py.str_of_N i) (Py.str_of_N i')
                  (_polish host b) (_polish host b')) as [Hi Hb2];
        try apply str_of_N_digits;
        try (now apply second_operand_no_digit);
        [exact Hp|].
      apply str_of_N_inj in Hi. subst. simpl. rewrite N.eqb_refl. simpl.
      now apply second_operand_polish.
    + unfold _polish, getvalue in Hp. simpl in Hp. unfold write in Hp.
      rewrite !_polishb_app in Hp. simpl in Hp. discriminate.
  - destruct f as [| | | | v' | | |]; try discriminate.
    simpl in Ce, Cf.
    destruct v as [| h | | | | | |]; try discriminate.
    destruct v' as [| h' | | | | | |]; try discriminate.
    assert (E : _polish host (Name h) = _polish host (Name h')).
    { unfold _polish, getvalue in *.
      destruct h, h'; simpl in *; unfold write in *; simpl in *;
        congruence. }
    apply Name_polish_inj in E. subst. apply __eq___refl.
Qed.

End EqualityFacts.

(** C1.  The specification asks that [e == f] holds exactly when [e] and
    [f] have the same class and the same canonical form, for every class.
    [PartialDerivative] compares its two names one by one, while its
    canonical form writes them without a separator: the two objects below
    are accepted by the constructor, have the same class, the same
    canonical form ("partial str:astr:bstr:c") and the same hash, and are
    not equal. *)
Theorem C1_partial_derivative_equality_differs_from_polish :
  forall host : Host,
    let e := PartialDerivative (Name (Str "a")) (Name (Str "bstr:c")) in
    let f := PartialDerivative (Name (Str "astr:b")) (Name (Str "c")) in
    PartialDerivative__init__ (Name (Str "a")) (Name (Str "bstr:c"))
      = Return e /\
    PartialDerivative__init__ (Name (Str "astr:b")) (Name (Str "c"))
      = Return f /\
    type_ e = type_ f /\
    _polish host e = "partial str:astr:bstr:c" /\
    _polish host f = "partial str:astr:bstr:c" /\
    __hash__ host e = __hash__ host f /\
    __eq__ host e f = false.
Proof.
  intros host e f. repeat split; reflexivity.
Qed.

(** ** The public differentiator *)

(** C2.  The specification asks that [partial_derivative(e, lhs)] returns
    a zero [Number] when [e] does not depend on [lhs].  The entry point
    starts with [isinstance(myokit.Name, lhs)], its two arguments swapped:
    for every [Name] given as [lhs] the call raises [TypeError] before
    anything is differentiated, whatever [e] is, and leaves the model as it
    was. *)
Theorem C2_partial_derivative_raises_for_every_name :
  forall (host : Host) (m : Model) (fuel : nat) (self : Expression)
         (value : Handle),
    partial_derivative host m fuel self (PyExpression (Name value))
    = (Raise (TypeError
         "isinstance() arg 2 must be a type, a tuple of types, or a union"),
       m).
Proof.
  intros. reflexivity.
Qed.

(** The step that follows the check is broken as well: whenever the unit
    of the expression can be evaluated, asking for the unit of the
    derivative fails on [lhs.var.unit()]. *)
Lemma _partial_derivative_unit_never_a_unit :
  forall host m fuel self lhs u,
    _partial_derivative_unit host m fuel self lhs = Return u -> u = None.
Proof.
  intros host m fuel self lhs u. unfold _partial_derivative_unit.
  destruct (call_eval_unit host m fuel UNIT_TOLERANT self) as [u1|e]; simpl.
  - discriminate.
  - destruct e; try discriminate. now intros [= <-].
Qed.

(** ** The internal differentiator *)

(** By design a name of another variable is not differentiated to zero:
    unless the variable of [lhs] is bound or constant, the result is the
    symbol [partial(y, x)]. *)
Lemma Name__partial_derivative_of_other_variable :
  forall host m fuel (v w : N),
    v <> w ->
    Vars.is_bound m v = false ->
    Vars.is_constant m v = false ->
    _partial_derivative host m (S fuel) (Name (Var v)) (Name (Var w))
    = Return (Some (PartialDerivative (Name (Var w)) (Name (Var v)))).
Proof.
  intros host m fuel v w Hvw Hb Hc. simpl.
  destruct (N.eqb v w) eqn:E; [apply N.eqb_eq in E; contradiction|].
  now rewrite Hb, Hc.
Qed.

(** C3.  The specification asks that the derivative of [a % b] is
    [a' - b' * floor(a / b)].  The code builds the floor as
    [Floor(a, b)], two operands for a function of one: as soon as the
    derivative of [b] is not [None], the constructor raises
    [IntegrityError].  Here [5 % x] is differentiated to [x]. *)
Theorem C3_remainder_derivative_fails_to_construct :
  forall (host : Host) (m : Model) (fuel : nat) (v : N),
    let x := Name (Var v) in
    _partial_derivative host m (S (S fuel)) x (Number 5%Q None)
      = Return None /\
    _partial_derivative host m (S (S fuel)) x x
      = Return (Some (Number 1%Q (Some Units.dimensionless))) /\
    _partial_derivative host m (S (S fuel)) x
      (Remainder (Number 5%Q None) x)
    = Raise (IntegrityError
        ("Function (floor) created with wrong number of arguments"
         ++ " (2, expecting 1).")).
Proof.
  intros host m fuel v x. unfold x. simpl.
  rewrite N.eqb_refl. repeat split; reflexivity.
Qed.

(** The four cases of [Remainder._partial_derivative]: both operand
    derivatives [None] gives [None], only the second [None] gives the
    first, and a second that is not [None] ends in the constructor
    error. *)
Lemma Remainder__partial_derivative_cases :
  forall host m fuel lhs a b da db,
    _partial_derivative host m fuel lhs a = Return da ->
    _partial_derivative host m fuel lhs b = Return db ->
    _partial_derivative host m (S fuel) lhs (Remainder a b)
    = match da, db with
      | None, None => Return None
      | Some a', None => Return (Some a')
      | _, Some _ =>
          Raise (IntegrityError
            ("Function (floor) created with wrong number of arguments"
             ++ " (2, expecting 1)."))
      end.
Proof.
  intros host m fuel lhs a b da db Ha Hb. simpl. rewrite Ha, Hb. simpl.
  destruct da, db; reflexivity.
Qed.

(** C4.  The specification asks that the derivative of a [Piecewise] is
    the [Piecewise] of the branch derivatives.  The method builds the
    operand list and ends without returning it.  Below both value branches
    of [piecewise(x < 1, x, x)] have the derivative 1, and the result is
    [None]. *)
Theorem C4_piecewise_derivative_returns_None :
  forall (host : Host) (m : Model) (fuel : nat) (v : N),
    let x := Name (Var v) in
    let one := Number 1%Q (Some Units.dimensionless) in
    Piecewise [Less x (Number 1%Q None); x; x]
      = Return (Function KPiecewise [Less x (Number 1%Q None); x; x]) /\
    _partial_derivative host m (S (S (S fuel))) x x = Return (Some one) /\
    _partial_derivative host m (S (S (S fuel))) x
      (Function KPiecewise [Less x (Number 1%Q None); x; x])
    = Return None.
Proof.
  intros host m fuel v x one. unfold x, one. simpl.
  rewrite N.eqb_refl. repeat split; reflexivity.
Qed.

(** Whatever the operands, a [Piecewise] is never differentiated to an
    expression: the method returns [None] or raises. *)
Lemma Piecewise__partial_derivative_never_an_expression :
  forall host m fuel lhs ops r,
    _partial_derivative host m fuel lhs (Function KPiecewise ops) = Return r ->
    r = None.
Proof.
  intros host m [|fuel] lhs ops r; simpl; [discriminate|].
  destruct (for_each _ (Piecewise_e ops)) as [ds|e]; simpl; [|discriminate].
  destruct (Nat.eqb _ _); [now intros [= <-]|].
  destruct (if Nat.ltb 0 _ then _ else _) as [zero|e]; simpl;
    [|discriminate].
  destruct (Piecewise_i ops); simpl; [discriminate|].
  destruct (getitem ds _); simpl; [now intros [= <-] | discriminate].
Qed.

(** ** The unit cache *)

(** [eval_unit] never writes the slots it reads: whatever the outcome, the
    two [_cached_unit_*] slots are after the call what they were before. *)
Lemma eval_unit_leaves_cache :
  forall host m fuel mode self attrs,
    let attrs' := snd (eval_unit host m fuel mode self attrs) in
    _cached_unit_tolerant attrs' = _cached_unit_tolerant attrs /\
    _cached_unit_strict attrs' = _cached_unit_strict attrs.
Proof.
  intros host m fuel mode self attrs. unfold eval_unit.
  destruct mode;
    [destruct (_cached_unit_tolerant attrs) eqn:Hc
    | destruct (_cached_unit_strict attrs) eqn:Hc];
    simpl; try (split; congruence);
    destruct (_eval_unit host m fuel _ self) as [[u|]|e]; simpl;
    try (split; congruence);
    destruct e; simpl; try (split; congruence);
    case_outcome; split; congruence.
Qed.

(** The outcome of a second call is the outcome of the first (the model
    being the same): the first half of the specification's sentence. *)
Lemma eval_unit_twice :
  forall host m fuel mode self attrs,
    fst (eval_unit host m fuel mode self
           (snd (eval_unit host m fuel mode self attrs)))
    = fst (eval_unit host m fuel mode self attrs).
Proof.
  intros host m fuel mode self attrs.
  destruct (eval_unit_leaves_cache host m fuel mode self attrs) as [Ht Hs].
  unfold eval_unit at 1.
  rewrite Ht, Hs. unfold eval_unit.
  destruct mode;
    [destruct (_cached_unit_tolerant attrs)
    | destruct (_cached_unit_strict attrs)];
    simpl; try reflexivity;
    destruct (_eval_unit host m fuel _ self) as [[u|]|e]; simpl;
    try reflexivity;
    destruct e; simpl; try reflexivity;
    case_outcome; reflexivity.
Qed.

(** C5.  The specification asks that after the first call the result sits
    in the cache slot of the mode, so that the second call reads it.  The
    method reads [_cached_unit_strict] and [_cached_unit_tolerant] but
    stores its result under [_unit_strict] and [_unit_tolerant]: after
    [Number(1).eval_unit(UNIT_STRICT)] has returned the dimensionless
    unit, the cache slot is still [None], the unit sits in an attribute
    nothing reads, and a second call goes through the same steps again. *)
Theorem C5_eval_unit_result_is_not_cached :
  forall (host : Host) (m : Model) (fuel : nat),
    let self := Number 1%Q None in
    let first := eval_unit host m (S fuel) UNIT_STRICT self
                   Attributes__init__ in
    fst first = Return (Some Units.dimensionless) /\
    _cached_unit_strict (snd first) = None /\
    _cached_unit_tolerant (snd first) = None /\
    _unit_strict (snd first) = Some (Some (UnitValue Units.dimensionless)) /\
    eval_unit host m (S fuel) UNIT_STRICT self (snd first) = first.
Proof.
  intros host m fuel self first. repeat split; reflexivity.
Qed.

(** ** Derived bits and type search *)

Lemma isinstance_PartialDerivative (e : Expression) :
  isinstance e CPartialDerivative = is_PartialDerivative e.
Proof.
  destruct e as [| | | | |c ?|c ? ?|c ?]; try reflexivity;
    destruct c; reflexivity.
Qed.

Lemma isinstance_InitialValue (e : Expression) :
  isinstance e CInitialValue = is_InitialValue e.
Proof.
  destruct e as [| | | | |c ?|c ? ?|c ?]; try reflexivity;
    destruct c; reflexivity.
Qed.

Lemma existsb_ext_Forall {A : Type} (f g : A -> bool) (l : list A) :
  Forall (fun x => f x = g x) l -> existsb f l = existsb g l.
Proof.
  induction 1 as [|x l Hx _ IH]; simpl; [reflexivity | now rewrite Hx, IH].
Qed.

(** The flag set by the constructors is the answer of the search. *)
Lemma operands_have_partials_search (e : Expression) :
  operands_have_partials e
  = operands_contain_type_by_search e CPartialDerivative.
Proof.
  induction e as [v u | h | op IH | a b IHa IHb | v IH | c op IH
                 | c a b IHa IHb | c ops IH] using Expression_tree_ind;
    simpl; rewrite ?isinstance_PartialDerivative;
    try reflexivity; try assumption.
  - rewrite IH. now destruct (is_PartialDerivative op).
  - rewrite IHa, IHb.
    now destruct (is_PartialDerivative a), (is_PartialDerivative b).
  - rewrite IH. now destruct (is_PartialDerivative op).
  - rewrite IHa, IHb.
    now destruct (is_PartialDerivative a), (is_PartialDerivative b).
  - apply existsb_ext_Forall.
    eapply Forall_impl; [|exact IH]. intros x Hx. simpl in Hx.
    rewrite Hx, isinstance_PartialDerivative.
    now destruct (is_PartialDerivative x).
Qed.

Lemma operands_have_initials_search (e : Expression) :
  operands_have_initials e
  = operands_contain_type_by_search e CInitialValue.
Proof.
  induction e as [v u | h | op IH | a b IHa IHb | v IH | c op IH
                 | c a b IHa IHb | c ops IH] using Expression_tree_ind;
    simpl; rewrite ?isinstance_InitialValue;
    try reflexivity; try assumption.
  - rewrite IH. now destruct (is_InitialValue op).
  - rewrite IHa, IHb.
    now destruct (is_InitialValue a), (is_InitialValue b).
  - rewrite IH. now destruct (is_InitialValue op).
  - rewrite IHa, IHb.
    now destruct (is_InitialValue a), (is_InitialValue b).
  - apply existsb_ext_Forall.
    eapply Forall_impl; [|exact IH]. intros x Hx. simpl in Hx.
    rewrite Hx, isinstance_InitialValue.
    now destruct (is_InitialValue x).
Qed.

(** The search finds a kind exactly when [walk] meets an instance of
    it. *)
Lemma operands_search_walk (kind : Class) (e : Expression) :
  operands_contain_type_by_search e kind
  = existsb (fun n => isinstance n kind) (walk_operands e).
Proof.
  induction e as [v u | h | op IH | a b IHa IHb | v IH | c op IH
                 | c a b IHa IHb | c ops IH] using Expression_tree_ind;
    simpl; try reflexivity; try assumption.
  - rewrite IH. now destruct (isinstance op kind).
  - rewrite existsb_app. simpl. rewrite IHa, IHb.
    now destruct (isinstance a kind), (isinstance b kind).
  - rewrite IH. now destruct (isinstance op kind).
  - rewrite existsb_app. simpl. rewrite IHa, IHb.
    now destruct (isinstance a kind), (isinstance b kind).
  - induction IH as [|x ops Hx _ IHops]; simpl; [reflexivity|].
    rewrite existsb_app. simpl. rewrite Hx, IHops.
    now destruct (isinstance x kind).
Qed.

(** C10.  The answers that [contains_type] reads from the flags
    [_has_partials] and [_has_initials], which the constructors pass
    upward, are the answers of the depth-first search they replace: for
    both kinds the method agrees with the search through the operands, and
    it returns [True] exactly when [walk] meets a node of that kind. *)
Theorem C10_flags_agree_with_search :
  forall e : Expression,
    contains_type e CPartialDerivative
      = contains_type_by_search e CPartialDerivative /\
    contains_type e CInitialValue
      = contains_type_by_search e CInitialValue /\
    contains_type e CPartialDerivative
      = existsb (fun n => isinstance n CPartialDerivative) (walk e) /\
    contains_type e CInitialValue
      = existsb (fun n => isinstance n CInitialValue) (walk e).
Proof.
  intros e.
  assert (Hp : contains_type e CPartialDerivative
               = contains_type_by_search e CPartialDerivative).
  { unfold contains_type, contains_type_by_search, _has_partials.
    rewrite isinstance_PartialDerivative.
    destruct (is_PartialDerivative e); [reflexivity|]. simpl.
    apply operands_have_partials_search. }
  assert (Hi : contains_type e CInitialValue
               = contains_type_by_search e CInitialValue).
  { unfold contains_type, contains_type_by_search, _has_initials.
    rewrite isinstance_InitialValue.
    destruct (is_InitialValue e); [reflexivity|]. simpl.
    apply operands_have_initials_search. }
  repeat split; try assumption.
  - rewrite Hp. unfold contains_type_by_search, walk. simpl.
    rewrite operands_search_walk.
    now destruct (isinstance e CPartialDerivative).
  - rewrite Hi. unfold contains_type_by_search, walk. simpl.
    rewrite operands_search_walk.
    now destruct (isinstance e CInitialValue).
Qed.

(** ** Floor division and remainder *)





























(** ** Rendering *)

Section RenderingFacts.

Variable host : Host.
Variable m : Model.

Lemma fold__code_app (c : option Component) (ops : list Expression) :
  Forall (fun e => forall b, _code host m e b c = b ++ _code host m e "" c)
    ops ->
  forall b,
    fold_left (fun b op => _code host m op (b ++ ", ") c) ops b
    = b ++ fold_left (fun b op => _code host m op (b ++ ", ") c) ops "".
Proof.
  induction 1 as [|x ops Hx _ IH]; intros b; simpl.
  - now rewrite append_nil_r.
  - rewrite IH. rewrite (IH (_code host m x ", " c)).
    rewrite Hx. rewrite (Hx ", ").
    now rewrite !append_assoc.
Qed.

Lemma _code_Function (k : FunctionClass) (ops : list Expression) b c :
  _code host m (Function k ops) b c
  = (match ops with
     | [] => (b ++ _fname k) ++ "("
     | op0 :: rest =>
         fold_left (fun b op => _code host m op (b ++ ", ") c) rest
           (_code host m op0 ((b ++ _fname k) ++ "(") c)
     end) ++ ")".
Proof. destruct ops; reflexivity. Qed.

(** Rendering appends to the buffer. *)
Lemma _code_app (c : option Component) (e : Expression) :
  forall b, _code host m e b c = b ++ code host m e c.
Proof.
  unfold code, getvalue.
  induction e as [v u | h | op IH | x y IHx IHy | v IH | k op IH
                 | k x y IHx IHy | k ops IH] using Expression_tree_ind;
    intros buf; [simpl; unfold write .. | rewrite !_code_Function].
  - reflexivity.
  - destruct h; simpl; [|reflexivity].
    destruct (Vars.is_nested m id); [reflexivity|].
    destruct c as [comp|]; [|reflexivity].
    destruct (Component_bool comp); [|reflexivity].
    destruct (alias_for comp id); reflexivity.
  - push_buffer IH op. simpl. now rewrite !append_assoc.
  - push_buffer IHy y. push_buffer IHx x. simpl. now rewrite !append_assoc.
  - push_buffer IH v. simpl. now rewrite !append_assoc.
  - destruct k; simpl;
      destruct ((LITERAL <? _rbp op)%Z && (_rbp op <? PREFIX)%Z);
      push_buffer IH op; simpl; now rewrite !append_assoc.
  - destruct ((LITERAL <? _rbp x)%Z && (_rbp x <? InfixClass_rbp k)%Z),
      ((LITERAL <? _rbp y)%Z && (_rbp y <=? InfixClass_rbp k)%Z);
      push_buffer IHy y; push_buffer IHx x; simpl;
      now rewrite !append_assoc.
  - destruct ops as [|op0 rest]; [simpl; now rewrite !append_assoc|].
    inversion IH as [|? ? H0 Hrest]; subst.
    rewrite (fold__code_app c Hrest
               (_code host m op0 ((buf ++ _fname k) ++ "(") c)).
    rewrite (fold__code_app c Hrest
               (_code host m op0 (("" ++ _fname k) ++ "(") c)).
    rewrite (H0 ((buf ++ _fname k) ++ "(")).
    rewrite (H0 (("" ++ _fname k) ++ "(")).
    simpl. now rewrite !append_assoc.
Qed.

End RenderingFacts.

(** C8.  An infix expression puts its left operand in parentheses exactly
    when [LITERAL < rbp(left) < rbp(self)] and its right operand exactly
    when [LITERAL < rbp(right) <= rbp(self)].  With numbers that print as
    "1", "2" and "3", [1 - (2 - 3)] keeps its parentheses and
    [(1 - 2) - 3] is written "1 - 2 - 3". *)
Theorem C8_infix_parentheses :
  forall (host : Host) (m : Model),
    (forall (k : InfixClass) (op1 op2 : Expression) (c : option Component),
       let self := InfixExpression k op1 op2 in
       code host m self c
       = (if (LITERAL <? _rbp op1)%Z && (_rbp op1 <? _rbp self)%Z
          then "(" ++ code host m op1 c ++ ")"
          else code host m op1 c)
         ++ " " ++ InfixClass_rep k ++ " "
         ++ (if (LITERAL <? _rbp op2)%Z && (_rbp op2 <=? _rbp self)%Z
             then "(" ++ code host m op2 c ++ ")"
             else code host m op2 c))
    /\
    (strfloat host 1 = "1.0" ->
     strfloat host 2 = "2.0" ->
     strfloat host 3 = "3.0" ->
     code host m
       (Minus (Number 1 None) (Minus (Number 2 None) (Number 3 None))) None
     = "1 - (2 - 3)" /\
     code host m
       (Minus (Minus (Number 1 None) (Number 2 None)) (Number 3 None)) None
     = "1 - 2 - 3").
Proof.
  intros host m. split.
  - intros k op1 op2 c self. unfold self, code, getvalue. simpl.
    unfold write.
    destruct ((LITERAL <? _rbp op1)%Z && (_rbp op1 <? InfixClass_rbp k)%Z),
      ((LITERAL <? _rbp op2)%Z && (_rbp op2 <=? InfixClass_rbp k)%Z);
      repeat match goal with
             | |- context [_code host m ?e ?b c] =>
                 lazymatch b with
                 | EmptyString => fail
                 | _ => rewrite (_code_app host m c e b)
                 end
             end;
      unfold code, getvalue; simpl; now rewrite !append_assoc.
  - intros H1 H2 H3. unfold code, getvalue. simpl. unfold Number_str.
    rewrite H1, H2, H3. split; reflexivity.
Qed.

(** The sample host prints 1.0, 2.0 and 3.0 as Python does, and the two
    expressions come out as the specification has them. *)
Lemma C8_witness :
  code Sample.host Sample.model
    (Minus (Number 1 None) (Minus (Number 2 None) (Number 3 None))) None
  = "1 - (2 - 3)" /\
  code Sample.host Sample.model
    (Minus (Minus (Number 1 None) (Number 2 None)) (Number 3 None)) None
  = "1 - 2 - 3".
Proof.
  apply (proj2 (C8_infix_parentheses Sample.host Sample.model));
    reflexivity.
Defined.

(** ** Cloning *)

Lemma stored_float_init (x : Q) (u : option Unit) :
  stored_float x = true -> Number__init__ x u = Number x u.
Proof.
  unfold stored_float, Number__init__.
  destruct (Py.eqb x 0); [|destruct (Qred x) as [n' d']];
    intros H; apply andb_true_iff in H; destruct H as [Hn Hd];
    apply Z.eqb_eq in Hn; apply Pos.eqb_eq in Hd;
    destruct x as [n d]; simpl in *; now subst.
Qed.

Lemma accepted_Derivative (op : Expression) :
  accepted (Derivative__init__ op) = true ->
  Derivative__init__ op = Return (Derivative op).
Proof.
  unfold Derivative__init__. now destruct (negb (is_Name op)).
Qed.

Lemma accepted_PartialDerivative (var1 var2 : Expression) :
  accepted (PartialDerivative__init__ var1 var2) = true ->
  PartialDerivative__init__ var1 var2 = Return (PartialDerivative var1 var2).
Proof.
  unfold PartialDerivative__init__.
  destruct (negb (is_Name var1)); [discriminate|].
  now destruct (negb (is_Name var2 || is_InitialValue var2)).
Qed.

Lemma accepted_InitialValue (var : Expression) :
  accepted (InitialValue__init__ var) = true ->
  InitialValue__init__ var = Return (InitialValue var).
Proof.
  unfold InitialValue__init__. now destruct (negb (is_Name var)).
Qed.

Lemma Function__init___returns k ops r :
  Function__init__ k ops = Return r -> r = Function k ops.
Proof.
  unfold Function__init__. destruct (_nargs k) as [nargs|].
  - destruct (negb _); [discriminate | now intros [= <-]].
  - now intros [= <-].
Qed.

Lemma accepted_Function (k : FunctionClass) (ops : list Expression) :
  accepted (construct_Function k ops) = true ->
  construct_Function k ops = Return (Function k ops).
Proof.
  intros H. destruct (construct_Function k ops) as [r|] eqn:E;
    [|discriminate]. f_equal.
  destruct k; simpl in E;
    try (now apply Function__init___returns in E).
  - destruct ops as [|i [|t [|e [|]]]]; try discriminate.
    now apply Function__init___returns in E.
  - unfold Piecewise__init__ in E. simpl in E.
    destruct (Nat.eqb _ 0); [discriminate|].
    destruct (Nat.ltb _ 3); [discriminate | now injection E].
Qed.

Lemma for_each_same {A : Type} (f : A -> result A) (xs : list A) :
  Forall (fun x => f x = Return x) xs -> for_each f xs = Return xs.
Proof.
  induction 1 as [|x xs Hx _ IH]; simpl; [reflexivity|].
  now rewrite Hx, IH.
Qed.

Lemma height_operand_le (x : Expression) (ops : list Expression) :
  In x ops ->
  (height x <= fold_right (fun op h => Nat.max (height op) h) 0 ops)%nat.
Proof.
  induction ops as [|y ops IH]; simpl; [contradiction|].
  intros [->|H]; [lia | specialize (IH H); lia].
Qed.

(** With enough budget for the depth of the tree, a bare [clone()] of a
    constructible expression returns the same tree. *)
Lemma clone_returns_same (host : Host) (m : Model) (e : Expression) :
  forall fuel,
    constructible e = true -> (height e < fuel)%nat ->
    clone host m fuel [] false None e = Return e.
Proof.
  induction e as [v u | h | op IH | a b IHa IHb | v IH | c op IH
                 | c a b IHa IHb | c ops IH] using Expression_tree_ind;
    intros [|fuel] Hc Hh; try (simpl in Hh; lia); simpl in Hc, Hh |- *.
  - now rewrite stored_float_init.
  - now destruct h.
  - apply andb_true_iff in Hc. destruct Hc as [Hi Hop].
    rewrite IH by (assumption || lia). simpl.
    now apply accepted_Derivative.
  - apply andb_true_iff in Hc. destruct Hc as [Hc Hb].
    apply andb_true_iff in Hc. destruct Hc as [Hi Ha].
    rewrite IHa by (assumption || lia). simpl.
    rewrite IHb by (assumption || lia). simpl.
    now apply accepted_PartialDerivative.
  - apply andb_true_iff in Hc. destruct Hc as [Hi Hv].
    rewrite IH by (assumption || lia). simpl.
    now apply accepted_InitialValue.
  - now rewrite IH by (assumption || lia).
  - apply andb_true_iff in Hc. destruct Hc as [Ha Hb].
    rewrite IHa by (assumption || lia). simpl.
    now rewrite IHb by (assumption || lia).
  - apply andb_true_iff in Hc. destruct Hc as [Hk Hops].
    rewrite for_each_same.
    + simpl. now apply accepted_Function.
    + rewrite forallb_forall in Hops. rewrite Forall_forall in IH |- *.
      intros x Hx. apply IH; [assumption | now apply Hops |].
      pose proof (height_operand_le x ops Hx). lia.
Qed.

(** C9.  A [clone()] without substitution, expansion or retained names
    returns, for every expression of every class, a tree that is
    structurally the same, equal under [==] and of the same hash. *)
Theorem C9_clone_is_equal :
  forall (host : Host) (m : Model) (fuel : nat) (e : Expression),
    constructible e = true ->
    (height e < fuel)%nat ->
    exists e' : Expression,
      clone host m fuel [] false None e = Return e' /\
      e' = e /\
      __eq__ host e' e = true /\
      __hash__ host e' = __hash__ host e.
Proof.
  intros host m fuel e Hc Hh. exists e.
  split; [now apply clone_returns_same|].
  split; [reflexivity|].
  split; [apply __eq___refl | reflexivity].
Qed.

(** A clone of [piecewise(dot(x) < 1, partial(y, init(x)), sqrt(2) + -y)]. *)
Lemma C9_witness :
  let e := Function KPiecewise
             [Less (Derivative Sample.x) (Number 1 None);
              PartialDerivative Sample.y (InitialValue Sample.x);
              Plus (Function KSqrt [Number 2 None]) (PrefixMinus Sample.y)] in
  exists e' : Expression,
    clone Sample.host Sample.model 5 [] false None e = Return e' /\
    e' = e /\
    __eq__ Sample.host e' e = true /\
    __hash__ Sample.host e' = __hash__ Sample.host e.
Proof.
  intros e. apply C9_clone_is_equal.
  - reflexivity.
  - unfold e. simpl. lia.
Defined.

(** ** Division by zero *)

Section DivisionByZero.

Variable host : Host.
Variable m : Model.

Lemma try_line_benign (pre : string) (r : result PyValue) :
  benign r -> try_line host pre r = Return (pre ++ shown host r).
Proof.
  destruct r as [v|e]; simpl; [reflexivity|].
  destruct e; simpl; intros H; try contradiction. reflexivity.
Qed.

(** The path from an expression to itself is empty. *)
Lemma path_to_self (fuel : nat) (e : Expression) :
  path host m (S fuel) e e [] = Return (Some []).
Proof. simpl. now rewrite __eq___refl. Qed.

(** The head of the message when the failing expression is the one
    [eval] was called on: it contains the code of the expression. *)
Lemma _expr_error_message_self (e : Expression) :
  exists post : string,
    forall fuel,
      _expr_error_message host m (S fuel) e false e ""
      = Return ((nl ++ "Encountered when evaluating" ++ nl ++ "  ")
                ++ code host m e None ++ post).
Proof.
  exists (match Py.find ("  " ++ code host m e None) (code host m e None)
          with
          | Some start =>
              nl ++ Py.repeat " " start
              ++ Py.repeat "~" (String.length (code host m e None))
          | None => ""
          end).
  intros fuel. unfold _expr_error_message.
  rewrite path_to_self. unfold bind. cbv beta iota zeta.
  destruct (Py.find ("  " ++ code host m e None) (code host m e None))
    as [start|];
    unfold Py.join; simpl; f_equal;
    rewrite ?append_assoc, ?append_nil_r; reflexivity.
Qed.

(** The variables part of the report can be written when every referenced
    variable is reportable. *)
Lemma reference_lines_return (subst : dict) (precision : Precision)
    (refs : list Expression) :
  Forall (reportable host m subst precision) refs ->
  exists (fuel0 : nat) (lines : list string),
    forall fuel, (fuel0 <= fuel)%nat ->
      reference_lines host m (_eval host m fuel subst precision) subst refs
      = Return lines.
Proof.
  induction 1 as [|ref refs Href _ IH].
  - exists 0%nat, []. reflexivity.
  - destruct Href as (r & res & Hsub & [f1 Hev] & Hben).
    destruct IH as (f0 & lines & IH).
    exists (Nat.max f0 f1).
    exists (fst (reference_heading host m (__str__ host m ref) r)
            ++ (snd (reference_heading host m (__str__ host m ref) r)
                ++ shown host res)%string :: lines)%list.
    intros fuel Hf. simpl. rewrite Hsub. simpl.
    destruct (reference_heading host m (__str__ host m ref) r)
      as [first pre].
    rewrite (Hev fuel) by lia. rewrite try_line_benign by assumption.
    simpl. rewrite (IH fuel) by lia. reflexivity.
Qed.

(** The amended statement: see C6 below. *)
Lemma Divide_by_zero_report (subst : dict) (precision : Precision)
    (a b : Expression) (vb : PyValue) (ra : result PyValue) :
  evaluates host m subst precision b (Return vb) ->
  Py.eqb (to_float vb) 0 = true ->
  evaluates host m subst precision a ra ->
  benign ra ->
  Forall (reportable host m subst precision)
    (references host (Divide a b)) ->
  exists (fuel0 : nat) (pre post : string) (variables : list string),
    forall fuel, (fuel0 <= fuel)%nat ->
      eval_checked host m fuel subst precision (Divide a b)
      = Raise (NumericalError
          (Py.join nl
             ((pre ++ code host m (Divide a b) None ++ post)
              :: "With the following operands:"
              :: ("  (1) " ++ shown host ra)
              :: ("  (2) " ++ value_str host vb)
              :: variables))).
Proof.
  intros [fb Hb] Hzero [fa Ha] Hben Hrefs.
  destruct (reference_lines_return Hrefs) as (fr & lines & Hlines).
  set (f0 := Nat.max fb (Nat.max fa fr)).
  assert (Hfail : forall fuel, (f0 <= fuel)%nat ->
            _eval host m (S fuel) subst precision (Divide a b)
            = Raise (EvalError (Divide a b) (ZeroDivisionError ""))).
  { intros fuel Hf. simpl. rewrite (Hb fuel) by (unfold f0 in Hf; lia).
    simpl. now rewrite Hzero. }
  set (vars := match references host (Divide a b) with
               | [] => []
               | _ => "And the following variables:" :: lines
               end).
  exists (S (S f0)), (nl ++ "Encountered when evaluating" ++ nl ++ "  ").
  destruct (_expr_error_message_self (Divide a b)) as [post Hpost].
  exists post, vars.
  intros [|[|fuel]] Hf; try lia.
  assert (Hf' : (f0 <= fuel)%nat) by lia.
  change (eval_checked host m (S (S fuel)) subst precision (Divide a b))
    with (match _eval host m (S fuel) subst precision (Divide a b) with
          | Raise (EvalError e_expr e_err) =>
              msg <- _expr_error_message host m (S fuel) (Divide a b) false
                       e_expr (Exception_str e_err) ;;
              let out := [msg] in
              let ops := _operands e_expr in
              out <-
                match ops with
                | [] => Return out
                | _ =>
                    lines <- operand_lines host
                               (_eval host m (S fuel) subst precision)
                               0 ops ;;
                    Return
                      (out ++ "With the following operands:" :: lines)%list
                end ;;
              let refs := references host e_expr in
              out <-
                match refs with
                | [] => Return out
                | _ =>
                    lines <- reference_lines host m
                               (_eval host m (S fuel) subst precision)
                               subst refs ;;
                    Return
                      (out ++ "And the following variables:" :: lines)%list
                end ;;
              Raise (NumericalError (Py.join nl out))
          | r => r
          end).
  rewrite (Hfail fuel Hf').
  assert (Hea : _eval host m (S fuel) subst precision a = ra)
    by (apply Ha; unfold f0 in Hf'; lia).
  assert (Heb : _eval host m (S fuel) subst precision b = Return vb)
    by (apply Hb; unfold f0 in Hf'; lia).
  assert (Hel : reference_lines host m
                  (_eval host m (S fuel) subst precision) subst
                  (references host (Divide a b)) = Return lines)
    by (apply Hlines; unfold f0 in Hf'; lia).
  cbv beta match.
  change (Exception_str (ZeroDivisionError "")) with "".
  unfold vars. clear vars Hrefs Hlines.
  revert Hea Heb Hel.
  generalize (_eval host m (S fuel) subst precision) as ev.
  generalize (references host (Divide a b)) as refs.
  intros refs ev Hea Heb Hel.
  rewrite Hpost. simpl. rewrite Hea, Heb.
  rewrite try_line_benign by assumption.
  rewrite try_line_benign by exact I.
  simpl.
  destruct refs as [|ref refs].
  - reflexivity.
  - rewrite Hel. reflexivity.
Qed.

End DivisionByZero.

(** C6, as amended.  The claim as written, for every [Divide] whose
    denominator evaluates to zero, fails where the report itself cannot be
    written (see the counterexample below).  What holds: when the
    denominator of a [Divide] evaluates to zero, and the numerator and the
    right-hand sides of the referenced variables each evaluate to a value
    or fail with the internal [EvalError], [eval()] raises
    [NumericalError]; its message contains the code of the expression,
    then the line "With the following operands:" and one line per operand
    with its value, "another error" standing for an operand that fails. *)
Theorem C6_divide_by_zero_raises_NumericalError :
  forall (host : Host) (m : Model)
         (raw : option (list (Expression * Substitute))) (subst : dict)
         (precision : Precision) (a b : Expression)
         (vb : PyValue) (ra : result PyValue),
    checked_subst raw = Return subst ->
    evaluates host m subst precision b (Return vb) ->
    Py.eqb (to_float vb) 0 = true ->
    evaluates host m subst precision a ra ->
    benign ra ->
    Forall (reportable host m subst precision)
      (references host (Divide a b)) ->
    exists (fuel0 : nat) (pre post : string) (variables : list string),
      forall fuel, (fuel0 <= fuel)%nat ->
        eval host m fuel raw precision (Divide a b)
        = Raise (NumericalError
            (Py.join nl
               ((pre ++ code host m (Divide a b) None ++ post)
                :: "With the following operands:"
                :: ("  (1) " ++ shown host ra)
                :: ("  (2) " ++ value_str host vb)
                :: variables))).
Proof.
  intros host m raw subst precision a b vb ra Hraw Hb Hzero Ha Hben Hrefs.
  destruct (Divide_by_zero_report Hb Hzero Ha Hben Hrefs)
    as (fuel0 & pre & post & variables & H).
  exists fuel0, pre, post, variables. intros fuel Hf.
  unfold eval. rewrite Hraw. simpl. now apply H.
Qed.

(** The report for [(x / 0) / (2 - 2)], where [x] is a state with value
    zero: the first operand fails on its own and is shown as "another
    error", the second is shown as "0.0". *)
Lemma C6_witness :
  exists (fuel0 : nat) (pre post : string) (variables : list string),
    forall fuel, (fuel0 <= fuel)%nat ->
      eval Sample.host Sample.model fuel None DOUBLE_PRECISION
        (Divide (Divide Sample.x (Number 0 None))
                (Minus (Number 2 None) (Number 2 None)))
      = Raise (NumericalError
          (Py.join nl
             ((pre ++ "c.x / 0 / (2 - 2)" ++ post)
              :: "With the following operands:"
              :: "  (1) another error"
              :: "  (2) 0.0"
              :: variables))).
Proof.
  apply (@C6_divide_by_zero_raises_NumericalError
           Sample.host Sample.model None [] DOUBLE_PRECISION
           (Divide Sample.x (Number 0 None))
           (Minus (Number 2 None) (Number 2 None))
           (VFloat 0)
           (Raise (EvalError (Divide Sample.x (Number 0 None))
                     (ZeroDivisionError "")))).
  - reflexivity.
  - exists 2%nat. intros [|[|fuel]] H; [lia | lia | reflexivity].
  - reflexivity.
  - exists 2%nat. intros [|[|fuel]] H; [lia | lia | reflexivity].
  - exact I.
  - repeat constructor.
    exists (Number 0 None), (Return (VFloat 0)).
    split; [reflexivity|]. split; [|exact I].
    exists 1%nat. intros [|fuel] H; [lia | reflexivity].
Defined.

(** The claim of C6 as written fails.  The variable [y] is substituted
    by [1 / 0], as the argument [subst] of [eval] allows.  The denominator
    of [c.y / 0] evaluates to zero and [eval] starts on the report; to show
    the first operand it evaluates [y], which calls [eval()] on the
    substitute, and that call raises a [NumericalError] of its own, which
    [except EvalError] lets pass.  So what [eval] raises is the report on
    [1 / 0]: it shows neither the expression [c.y / 0] nor a placeholder
    for the operand that failed. *)
Lemma C6_counterexample :
  let e := Divide Sample.y (Number 0 None) in
  let substitute := Divide (Number 1 None) (Number 0 None) in
  let msg :=
    Py.join nl
      [""; "Encountered when evaluating"; "  1 / 0"; "  ~~~~~";
       "With the following operands:"; "  (1) 1.0"; "  (2) 0.0"] in
  checked_subst (Some [(Sample.y, SubstExpression substitute)])
  = Return [(Sample.y, substitute)] /\
  evaluates Sample.host Sample.model [(Sample.y, substitute)]
    DOUBLE_PRECISION (Number 0 None) (Return (VFloat 0)) /\
  (forall fuel : nat, (5 <= fuel)%nat ->
     eval Sample.host Sample.model fuel
       (Some [(Sample.y, SubstExpression substitute)]) DOUBLE_PRECISION e
     = Raise (NumericalError msg)) /\
  code Sample.host Sample.model e None = "c.y / 0" /\
  Py.find msg "c.y / 0" = None /\
  Py.find msg "another error" = None.
Proof.
  intros e substitute msg.
  split; [reflexivity|]. split.
  - exists 1%nat. intros [|fuel] H; [lia | reflexivity].
  - split; [|repeat split; reflexivity].
    intros [|[|[|[|[|fuel]]]]] H; try lia. reflexivity.
Qed.

(* ===================================================================== *)
(** * Further properties of the module *)
(* ===================================================================== *)

(** ** Equality as a relation *)

Section EqualityRelation.

Variable host : Host.

Lemma Handle_eqb_sym (a b : Handle) : Handle_eqb a b = Handle_eqb b a.
Proof.
  destruct a, b; simpl; try reflexivity.
  - apply N.eqb_sym.
  - apply String.eqb_sym.
Qed.

Lemma Class_eqb_sym (a b : Class) : Class_eqb a b = Class_eqb b a.
Proof.
  unfold Class_eqb.
  destruct (Class_eq_dec a b) as [H|H], (Class_eq_dec b a) as [H'|H'];
    try reflexivity; congruence.
Qed.

Lemma __eq___sym (e : Expression) :
  forall f, __eq__ host e f = __eq__ host f e.
Proof.
  induction e as [v u | h | op IH | a b IHa IHb | v IH | c op IH
                 | c a b IHa IHb | c ops IH] using Expression_tree_ind;
    intros f; destruct f; simpl; try reflexivity;
    try apply Handle_eqb_sym; try apply IH;
    try (rewrite IHa, IHb; reflexivity);
    try (rewrite (Class_eqb_sym (CPrefix _)), String.eqb_sym; reflexivity);
    try (rewrite (Class_eqb_sym (CInfix _)), String.eqb_sym; reflexivity);
    try (rewrite (Class_eqb_sym (CFunc _)), String.eqb_sym; reflexivity).
  - unfold Class_eqb. simpl. now rewrite String.eqb_sym.
Qed.

Lemma __eq___trans (e : Expression) :
  forall f g,
    __eq__ host e f = true -> __eq__ host f g = true -> __eq__ host e g = true.
Proof.
  assert (generic : forall e f g,
    isinstance e CLhsExpression = false ->
    __eq__ host e f = true -> __eq__ host f g = true ->
    __eq__ host e g = true).
  { intros e0 f g Hl Hef Hfg.
    apply __eq___polish in Hef as [Ht Hp].
    apply __eq___polish in Hfg as [Ht' Hp'].
    rewrite __eq___inherited by assumption.
    rewrite Ht, Ht', Hp, Hp', Class_eqb_refl, String.eqb_refl.
    reflexivity. }
  induction e as [v u | h | op IH | a b IHa IHb | v IH | c op IH
                 | c a b IHa IHb | c ops IH] using Expression_tree_ind;
    intros f g Hef Hfg;
    try (apply (generic _ f g);
         [try destruct c; reflexivity | assumption | assumption]).
  - destruct f; try discriminate. destruct g; try discriminate.
    simpl in *. apply Handle_eqb_eq in Hef, Hfg. subst.
    now apply Handle_eqb_eq.
  - destruct f; try discriminate. destruct g; try discriminate.
    simpl in *. now apply (IH f).
  - destruct f; try discriminate. destruct g; try discriminate.
    simpl in *. apply andb_true_iff in Hef as [H1 H2].
    apply andb_true_iff in Hfg as [H3 H4].
    rewrite (IHa f1), (IHb f2); auto.
  - destruct f; try discriminate. destruct g; try discriminate.
    simpl in *. now apply (IH f).
Qed.

End EqualityRelation.

(** ** Brackets *)

Section BracketFacts.

Variable host : Host.
Variable m : Model.

(** The text of a prefix expression. *)
Lemma code_PrefixExpression (k : PrefixClass) (op : Expression)
    (c : option Component) :
  code host m (PrefixExpression k op) c
  = (match k with KNot => "not " | _ => PrefixClass_rep k end)
    ++ (if (LITERAL <? _rbp op)%Z && (_rbp op <? PREFIX)%Z
        then "(" ++ code host m op c ++ ")"
        else code host m op c).
Proof.
  unfold code, getvalue. simpl. unfold write.
  destruct k; simpl;
    destruct ((LITERAL <? _rbp op)%Z && (_rbp op <? PREFIX)%Z);
    rewrite ?(_code_app host m c op); unfold code, getvalue; simpl;
    rewrite ?append_assoc; reflexivity.
Qed.

(** The text of an infix expression. *)
Lemma code_InfixExpression (k : InfixClass) (op1 op2 : Expression)
    (c : option Component) :
  code host m (InfixExpression k op1 op2) c
  = (if (LITERAL <? _rbp op1)%Z && (_rbp op1 <? InfixClass_rbp k)%Z
     then "(" ++ code host m op1 c ++ ")"
     else code host m op1 c)
    ++ " " ++ InfixClass_rep k ++ " "
    ++ (if (LITERAL <? _rbp op2)%Z && (_rbp op2 <=? InfixClass_rbp k)%Z
        then "(" ++ code host m op2 c ++ ")"
        else code host m op2 c).
Proof.
  unfold code, getvalue. simpl. unfold write.
  destruct ((LITERAL <? _rbp op1)%Z && (_rbp op1 <? InfixClass_rbp k)%Z),
    ((LITERAL <? _rbp op2)%Z && (_rbp op2 <=? InfixClass_rbp k)%Z);
    repeat match goal with
           | |- context [_code host m ?e ?b c] =>
               lazymatch b with
               | EmptyString => fail
               | _ => rewrite (_code_app host m c e b)
               end
           end;
    unfold code, getvalue; simpl; now rewrite !append_assoc.
Qed.

(** The binding power is an attribute of the class. *)
Lemma _rbp_of_type (e f : Expression) : type_ e = type_ f -> _rbp e = _rbp f.
Proof.
  destruct e, f; simpl; intros H; try discriminate; try reflexivity.
  now injection H as ->.
Qed.

Lemma __eq____rbp (e f : Expression) :
  __eq__ host e f = true -> _rbp e = _rbp f.
Proof.
  intros H. apply _rbp_of_type. now apply (__eq___polish host e f).
Qed.

End BracketFacts.

(** X1.  [bracket] and [_code] agree.  A prefix expression writes
    parentheses around its operand exactly when [bracket(operand)] answers
    [True]; an infix expression whose operands are not equal does so for
    each of its two operands. *)
Theorem bracket_agrees_with_code :
  forall (host : Host) (m : Model) (c : option Component),
    (forall (k : PrefixClass) (op : Expression),
       exists b : bool,
         bracket host (PrefixExpression k op) (Some op) = Return b /\
         code host m (PrefixExpression k op) c
         = (match k with KNot => "not " | _ => PrefixClass_rep k end)
           ++ (if b then "(" ++ code host m op c ++ ")"
               else code host m op c))
    /\
    (forall (k : InfixClass) (op1 op2 : Expression),
       __eq__ host op2 op1 = false ->
       exists b1 b2 : bool,
         bracket host (InfixExpression k op1 op2) (Some op1) = Return b1 /\
         bracket host (InfixExpression k op1 op2) (Some op2) = Return b2 /\
         code host m (InfixExpression k op1 op2) c
         = (if b1 then "(" ++ code host m op1 c ++ ")"
            else code host m op1 c)
           ++ " " ++ InfixClass_rep k ++ " "
           ++ (if b2 then "(" ++ code host m op2 c ++ ")"
               else code host m op2 c)).
Proof.
  intros host m c. split.
  - intros k op. eexists. split.
    + simpl. rewrite __eq___refl. simpl. reflexivity.
    + apply code_PrefixExpression.
  - intros k op1 op2 Hne. eexists. eexists. split; [|split].
    + simpl. rewrite __eq___refl. reflexivity.
    + simpl. rewrite Hne, __eq___refl. reflexivity.
    + apply code_InfixExpression.
Qed.

Lemma bracket_agrees_with_code_witness :
  exists b1 b2 : bool,
    bracket Sample.host (Minus (Number 1 None) (Minus (Number 2 None) (Number 3 None)))
      (Some (Number 1 None)) = Return b1 /\
    bracket Sample.host (Minus (Number 1 None) (Minus (Number 2 None) (Number 3 None)))
      (Some (Minus (Number 2 None) (Number 3 None))) = Return b2 /\
    code Sample.host Sample.model
      (Minus (Number 1 None) (Minus (Number 2 None) (Number 3 None))) None
    = (if b1 then "(" ++ code Sample.host Sample.model (Number 1 None) None ++ ")"
       else code Sample.host Sample.model (Number 1 None) None)
      ++ " " ++ InfixClass_rep KMinus ++ " "
      ++ (if b2
          then "(" ++ code Sample.host Sample.model
                        (Minus (Number 2 None) (Number 3 None)) None ++ ")"
          else code Sample.host Sample.model
                 (Minus (Number 2 None) (Number 3 None)) None).
Proof.
  apply (proj2 (bracket_agrees_with_code Sample.host Sample.model None)).
  reflexivity.
Defined.

(** X2.  Where the two operands of an infix expression are equal,
    [bracket] finds the given operand in first place and answers with the
    rule of the left operand.  For an operand that binds as its parent
    does, [bracket(right)] is [False] while [_code] writes the right
    operand in parentheses. *)
Theorem bracket_of_equal_operands :
  forall (host : Host) (m : Model) (c : option Component) (k : InfixClass)
         (op1 op2 : Expression),
    __eq__ host op2 op1 = true ->
    _rbp op2 = InfixClass_rbp k ->
    bracket host (InfixExpression k op1 op2) (Some op2) = Return false /\
    code host m (InfixExpression k op1 op2) c
    = code host m op1 c ++ " " ++ InfixClass_rep k ++ " "
      ++ "(" ++ code host m op2 c ++ ")".
Proof.
  intros host m c k op1 op2 Heq Hrbp.
  pose proof (__eq____rbp host _ _ Heq) as H12.
  assert (Hlit : (LITERAL <? InfixClass_rbp k)%Z = true)
    by (destruct k; reflexivity).
  split.
  - simpl. rewrite Heq, Hrbp, Z.ltb_irrefl, andb_false_r. reflexivity.
  - rewrite code_InfixExpression.
    rewrite <- H12, Hrbp, Hlit, Z.ltb_irrefl, Z.leb_refl. reflexivity.
Qed.

Lemma bracket_of_equal_operands_witness :
  let e := Plus (Number 1 None) (Number 2 None) in
  bracket Sample.host (Minus e e) (Some e) = Return false /\
  code Sample.host Sample.model (Minus e e) None
  = code Sample.host Sample.model e None ++ " " ++ InfixClass_rep KMinus
    ++ " " ++ "(" ++ code Sample.host Sample.model e None ++ ")".
Proof.
  intros e.
  apply (bracket_of_equal_operands Sample.host Sample.model None KMinus e e);
    reflexivity.
Defined.

(** X3.  [bracket] raises [ValueError] for an expression that is equal
    to none of the operands, in every class; and [InitialValue.bracket]
    raises it for every argument, its own operand included, because
    [InitialValue.__init__] stores the operand itself where a tuple is
    expected. *)
Theorem bracket_refuses_other_expressions :
  forall host : Host,
    (forall self op : Expression,
       Forall (fun x => __eq__ host x op = false) (_operands self) ->
       bracket host self (Some op)
       = Raise (ValueError "Given operand is not used in this expression."))
    /\
    (forall (value : Handle) (op : option Expression),
       bracket host (InitialValue (Name value)) op
       = Raise (ValueError "Given operand is not used in this expression.")).
Proof.
  intros host. split; [|intros value [op|]; reflexivity].
  intros self op H.
  assert (Hin : __contains__ host self op = false).
  { unfold __contains__. induction H as [|x l Hx _ IH]; simpl;
      [reflexivity | now rewrite Hx]. }
  destruct self; simpl in *; try reflexivity;
    try (rewrite Hin; reflexivity).
  - inversion H as [|? ? Hx _]; subst.
    rewrite (__eq___sym host op self), Hx. reflexivity.
  - inversion H as [|? ? Hx _]; subst.
    rewrite (__eq___sym host op self), Hx. reflexivity.
  - inversion H as [|? ? H1 H']; subst. inversion H' as [|? ? H2 _]; subst.
    rewrite (__eq___sym host op self1), H1.
    rewrite (__eq___sym host op self2), H2. reflexivity.
Qed.

Lemma bracket_refuses_other_expressions_witness :
  bracket Sample.host (Plus Sample.x (Number 1 None)) (Some Sample.y)
  = Raise (ValueError "Given operand is not used in this expression.").
Proof.
  apply (proj1 (bracket_refuses_other_expressions Sample.host)).
  repeat constructor.
Defined.

(** ** Searching the tree *)

Lemma existsb_orb {A : Type} (f g : A -> bool) (l : list A) :
  existsb (fun x => f x || g x) l = existsb f l || existsb g l.
Proof.
  induction l as [|x l IH]; simpl; [reflexivity|].
  rewrite IH. destruct (f x), (g x), (existsb f l); reflexivity.
Qed.

Lemma existsb_flat_map {A B : Type} (p : B -> bool) (f : A -> list B)
    (l : list A) :
  existsb p (flat_map f l) = existsb (fun x => existsb p (f x)) l.
Proof.
  induction l as [|x l IH]; simpl; [reflexivity|].
  now rewrite existsb_app, IH.
Qed.

Lemma filter_flat_map {A B : Type} (p : B -> bool) (f : A -> list B)
    (l : list A) :
  filter p (flat_map f l) = flat_map (fun x => filter p (f x)) l.
Proof.
  induction l as [|x l IH]; simpl; [reflexivity|].
  now rewrite filter_app, IH.
Qed.

Lemma flat_map_ext_Forall {A B : Type} (f g : A -> list B) (l : list A) :
  Forall (fun x => f x = g x) l -> flat_map f l = flat_map g l.
Proof.
  induction 1 as [|x l Hx _ IH]; simpl; [reflexivity | now rewrite Hx, IH].
Qed.

(** What [contains_type] asks of one operand. *)
Lemma contains_type_operand (kind : Class) (op : Expression) :
  operands_contain_type op kind
  = existsb (fun n => isinstance n kind) (walk_operands op) ->
  (if isinstance op kind then true
   else if Class_eqb kind CPartialDerivative then _has_partials op
   else if Class_eqb kind CInitialValue then _has_initials op
   else operands_contain_type op kind)
  = isinstance op kind
    || existsb (fun n => isinstance n kind) (walk_operands op).
Proof.
  intros IH. destruct (isinstance op kind) eqn:Hi; [reflexivity|]. simpl.
  unfold Class_eqb.
  destruct (Class_eq_dec kind CPartialDerivative) as [->|_].
  { unfold _has_partials.
    rewrite <- isinstance_PartialDerivative, Hi. simpl.
    now rewrite operands_have_partials_search, operands_search_walk. }
  destruct (Class_eq_dec kind CInitialValue) as [->|_].
  { unfold _has_initials.
    rewrite <- isinstance_InitialValue, Hi. simpl.
    now rewrite operands_have_initials_search, operands_search_walk. }
  exact IH.
Qed.

Lemma operands_contain_type_walk (kind : Class) (e : Expression) :
  operands_contain_type e kind
  = existsb (fun n => isinstance n kind) (walk_operands e).
Proof.
  induction e as [v u | h | op IH | a b IHa IHb | v IH | c op IH
                 | c a b IHa IHb | c ops IH] using Expression_tree_ind;
    simpl; try reflexivity; try assumption.
  - now apply contains_type_operand.
  - rewrite existsb_app. simpl.
    rewrite (contains_type_operand kind a IHa).
    rewrite (contains_type_operand kind b IHb).
    now rewrite <- !orb_assoc.
  - now apply contains_type_operand.
  - rewrite existsb_app. simpl.
    rewrite (contains_type_operand kind a IHa).
    rewrite (contains_type_operand kind b IHb).
    now rewrite <- !orb_assoc.
  - rewrite existsb_flat_map. apply existsb_ext_Forall.
    eapply Forall_impl; [|exact IH]. intros x Hx.
    now apply contains_type_operand.
Qed.

Lemma contains_type_walk (kind : Class) (e : Expression) :
  contains_type e kind = existsb (fun n => isinstance n kind) (walk e).
Proof.
  unfold contains_type, walk. simpl.
  apply contains_type_operand, operands_contain_type_walk.
Qed.

(** The classes objects are made of have no subclasses. *)
Lemma isinstance_type_ (n x : Expression) :
  isinstance n (type_ x) = Class_eqb (type_ n) (type_ x).
Proof.
  destruct n as [| | | | |c ?|c ? ?|c ?], x as [| | | | |d ?|d ? ?|d ?];
    simpl; try reflexivity;
    try (destruct c; reflexivity); try (destruct d; reflexivity);
    destruct c, d; reflexivity.
Qed.

Lemma If_or_Piecewise_isinstance (e : Expression) :
  If_or_Piecewise e
  = isinstance e (CFunc KIf) || isinstance e (CFunc KPiecewise).
Proof.
  destruct e as [| | | | |c ?|c ? ?|c ?]; try reflexivity;
    destruct c; reflexivity.
Qed.

Lemma is_conditional_operand (op : Expression) :
  match op with
  | Function KIf _ | Function KPiecewise _ => true
  | _ => operands_are_conditional op
  end = If_or_Piecewise op || operands_are_conditional op.
Proof.
  destruct op as [| | | | |c ?|c ? ?|c ?]; try reflexivity.
  destruct c; reflexivity.
Qed.

Lemma operands_are_conditional_walk (e : Expression) :
  operands_are_conditional e = existsb If_or_Piecewise (walk_operands e).
Proof.
  induction e as [v u | h | op IH | a b IHa IHb | v IH | c op IH
                 | c a b IHa IHb | c ops IH] using Expression_tree_ind;
    simpl operands_are_conditional; simpl walk_operands;
    rewrite ?is_conditional_operand;
    try reflexivity; try assumption.
  - simpl. now rewrite IH.
  - simpl. rewrite existsb_app. simpl. rewrite IHa, IHb.
    now rewrite <- !orb_assoc.
  - simpl. now rewrite IH.
  - simpl. rewrite existsb_app. simpl. rewrite IHa, IHb.
    now rewrite <- !orb_assoc.
  - rewrite existsb_flat_map. apply existsb_ext_Forall.
    eapply Forall_impl; [|exact IH]. intros x Hx. simpl.
    now rewrite is_conditional_operand, Hx.
Qed.

(** X4.  [is_conditional()] is [True] exactly when the tree contains
    an [If] or a [Piecewise], as [contains_type] finds them. *)
Theorem is_conditional_contains_If_or_Piecewise :
  forall e : Expression,
    is_conditional e
    = contains_type e (CFunc KIf) || contains_type e (CFunc KPiecewise).
Proof.
  intros e. rewrite !contains_type_walk, <- existsb_orb.
  unfold is_conditional. rewrite is_conditional_operand.
  rewrite operands_are_conditional_walk. unfold walk. simpl.
  rewrite If_or_Piecewise_isinstance. f_equal.
  apply existsb_ext_Forall, Forall_forall. intros x _.
  apply If_or_Piecewise_isinstance.
Qed.

Lemma walk_operands_of_types_filter (allowed_types : list Class)
    (e : Expression) :
  walk_operands_of_types allowed_types e
  = filter (fun n => existsb (Class_eqb (type_ n)) allowed_types)
      (walk_operands e).
Proof.
  induction e as [v u | h | op IH | a b IHa IHb | v IH | c op IH
                 | c a b IHa IHb | c ops IH] using Expression_tree_ind;
    simpl; try reflexivity; try assumption.
  - rewrite IH.
    now destruct (existsb (Class_eqb (type_ op)) allowed_types).
  - rewrite filter_app. simpl. rewrite IHa, IHb.
    now destruct (existsb (Class_eqb (type_ a)) allowed_types),
      (existsb (Class_eqb (type_ b)) allowed_types).
  - rewrite IH.
    now destruct (existsb (Class_eqb (CPrefix c)) allowed_types),
      (existsb (Class_eqb (type_ op)) allowed_types).
  - rewrite filter_app. simpl. rewrite IHa, IHb.
    now destruct (existsb (Class_eqb (type_ a)) allowed_types),
      (existsb (Class_eqb (type_ b)) allowed_types).
  - rewrite filter_flat_map. apply flat_map_ext_Forall.
    eapply Forall_impl; [|exact IH]. intros x Hx. simpl. rewrite Hx.
    now destruct (existsb (Class_eqb (type_ x)) allowed_types).
Qed.

(** X5.  [walk(allowed_types)] yields the nodes of the plain [walk()]
    whose own class is one of the allowed types, in the same order. *)
Theorem walk_types_filters_walk :
  forall (allowed_types : list Class) (e : Expression),
    walk_types (Some allowed_types) e
    = filter (fun n => existsb (Class_eqb (type_ n)) allowed_types)
        (walk_types None e).
Proof.
  intros ts e. unfold walk_types, walk. simpl.
  rewrite walk_operands_of_types_filter.
  now destruct (existsb (Class_eqb (type_ e)) ts).
Qed.

Lemma existsb_filter_nonempty {A : Type} (p : A -> bool) (l : list A) :
  existsb p l = match filter p l with [] => false | _ => true end.
Proof.
  induction l as [|x l IH]; simpl; [reflexivity|].
  destruct (p x); [reflexivity | exact IH].
Qed.

(** X6.  [contains_type(kind)] is [True] exactly when [walk()] meets an
    instance of [kind], for every class [kind]; and for the class of an
    object, exactly when [walk] with that class as the only allowed type
    yields something. *)
Theorem contains_type_walk_agree :
  forall e : Expression,
    (forall kind : Class,
       contains_type e kind
       = existsb (fun n => isinstance n kind) (walk_types None e))
    /\
    (forall x : Expression,
       contains_type e (type_ x)
       = match walk_types (Some [type_ x]) e with
         | [] => false
         | _ :: _ => true
         end).
Proof.
  intros e. split.
  - intros kind. apply contains_type_walk.
  - intros x. rewrite contains_type_walk.
    replace (walk_types (Some [type_ x]) e)
      with (filter (fun n => existsb (Class_eqb (type_ n)) [type_ x])
              (walk e)).
    + rewrite <- existsb_filter_nonempty.
      apply existsb_ext_Forall, Forall_forall. intros n _. simpl.
      now rewrite orb_false_r, isinstance_type_.
    + unfold walk_types, walk. simpl.
      rewrite walk_operands_of_types_filter.
      now destruct (Class_eqb (type_ e) (type_ x) || false).
Qed.

(** ** References *)

Section ReferenceFacts.

Variable host : Host.

Lemma set_add_In (s : list Expression) (x y : Expression) :
  In y (set_add host s x) -> In y s \/ y = x.
Proof.
  unfold set_add. destruct (set_mem host x s); [now left|].
  intros H. apply in_app_or in H as [H|[H|[]]]; [now left | now right].
Qed.

Lemma set_union_In (t s : list Expression) (y : Expression) :
  In y (set_union host s t) -> In y s \/ In y t.
Proof.
  unfold set_union. revert s.
  induction t as [|x t IH]; simpl; intros s H; [now left|].
  apply IH in H as [H|H]; [|now right; right].
  apply set_add_In in H as [H|H]; [now left | right; left; now symmetry].
Qed.

Lemma set_add_nonempty (s : list Expression) (x : Expression) :
  is_nil (set_add host s x) = false.
Proof.
  unfold set_add. destruct s as [|y s]; [reflexivity|].
  destruct (set_mem host x (y :: s)); reflexivity.
Qed.

Lemma fold_set_add_nonempty (t s : list Expression) :
  is_nil s = false -> is_nil (fold_left (set_add host) t s) = false.
Proof.
  revert s. induction t as [|x t IH]; simpl; intros s H; [exact H|].
  apply IH, set_add_nonempty.
Qed.

Lemma set_union_nil (s t : list Expression) :
  is_nil (set_union host s t) = is_nil s && is_nil t.
Proof.
  unfold set_union. destruct t as [|x t]; simpl.
  - now rewrite andb_true_r.
  - rewrite andb_false_r. apply fold_set_add_nonempty, set_add_nonempty.
Qed.

Lemma fold_set_union_nil (ops : list Expression) (s : list Expression) :
  is_nil (fold_left (fun refs op => set_union host refs (_references host op))
            ops s)
  = is_nil s && forallb (fun op => is_nil (_references host op)) ops.
Proof.
  revert s. induction ops as [|op ops IH]; simpl; intros s.
  - now rewrite andb_true_r.
  - rewrite IH, set_union_nil. now rewrite andb_assoc.
Qed.

Lemma fold_set_union_In (ops : list Expression) (s : list Expression)
    (y : Expression) :
  In y (fold_left (fun refs op => set_union host refs (_references host op))
          ops s) ->
  In y s \/ exists op, In op ops /\ In y (_references host op).
Proof.
  revert s. induction ops as [|op ops IH]; simpl; intros s H; [now left|].
  apply IH in H as [H|(op' & Hop & Hy)].
  - apply set_union_In in H as [H|H]; [now left|].
    right. exists op. split; [now left | exact H].
  - right. exists op'. split; [now right | exact Hy].
Qed.

Lemma walk_self (e : Expression) : In e (walk e).
Proof. now left. Qed.

Lemma walk_operand (e op x : Expression) :
  In op (_operands e) -> is_InitialValue e = false ->
  In x (walk op) -> In x (walk e).
Proof.
  intros Hop Hiv Hx. right. unfold walk in Hx.
  destruct e as [| | o | a b | v | c o | c a b | c ops];
    simpl in Hop, Hiv; try contradiction; try discriminate.
  - destruct Hop as [<-|[]]. exact Hx.
  - change (In x ((a :: walk_operands a) ++ (b :: walk_operands b))%list).
    apply in_or_app.
    destruct Hop as [<-|[<-|[]]]; [left | right]; exact Hx.
  - destruct Hop as [<-|[]]. exact Hx.
  - change (In x ((a :: walk_operands a) ++ (b :: walk_operands b))%list).
    apply in_or_app.
    destruct Hop as [<-|[<-|[]]]; [left | right]; exact Hx.
  - change (In x (flat_map (fun op => op :: walk_operands op) ops)).
    apply in_flat_map. exists op. split; [exact Hop | exact Hx].
Qed.

(** Every reference is a node of the tree, of a left-hand-side class. *)
Lemma references_walk (e : Expression) :
  forall r, In r (_references host e) ->
    In r (walk e) /\ isinstance r CLhsExpression = true.
Proof.
  induction e as [v u | h | op IH | a b IHa IHb | v IH | c op IH
                 | c a b IHa IHb | c ops IH] using Expression_tree_ind;
    intros r Hr; simpl in Hr.
  - contradiction.
  - destruct Hr as [<-|[]]. split; [apply walk_self | reflexivity].
  - destruct Hr as [<-|[]]. split; [apply walk_self | reflexivity].
  - destruct Hr as [<-|[]]. split; [apply walk_self | reflexivity].
  - destruct Hr as [<-|[]]. split; [apply walk_self | reflexivity].
  - apply set_union_In in Hr as [[]|Hr].
    destruct (IH r Hr) as [Hw Hl]. split; [|exact Hl].
    apply (@walk_operand (PrefixExpression c op) op); simpl; auto.
  - apply set_union_In in Hr as [Hr|Hr].
    + apply set_union_In in Hr as [[]|Hr].
      destruct (IHa r Hr) as [Hw Hl]. split; [|exact Hl].
      apply (@walk_operand (InfixExpression c a b) a); simpl; auto.
    + destruct (IHb r Hr) as [Hw Hl]. split; [|exact Hl].
      apply (@walk_operand (InfixExpression c a b) b); simpl; auto.
  - apply fold_set_union_In in Hr as [[]|(op & Hop & Hr)].
    rewrite Forall_forall in IH.
    destruct (IH op Hop r Hr) as [Hw Hl]. split; [|exact Hl].
    apply (@walk_operand (Function c ops) op); simpl; auto.
Qed.

(** No reference at all: the walk meets no left-hand side. *)
Lemma references_nil (e : Expression) :
  is_nil (_references host e)
  = negb (existsb (fun n => isinstance n CLhsExpression) (walk e)).
Proof.
  unfold walk.
  induction e as [v u | h | op IH | a b IHa IHb | v IH | c op IH
                 | c a b IHa IHb | c ops IH] using Expression_tree_ind;
    try reflexivity.
  - simpl _references. rewrite set_union_nil, IH. simpl.
    now destruct c.
  - simpl _references. rewrite !set_union_nil, IHa, IHb. simpl.
    rewrite existsb_app. simpl.
    replace (isinstance (InfixExpression c a b) CLhsExpression) with false
      by (destruct c; reflexivity).
    simpl. rewrite !negb_orb. now rewrite <- !andb_assoc.
  - simpl _references. rewrite fold_set_union_nil. simpl is_nil.
    simpl walk_operands.
    replace (existsb (fun n => isinstance n CLhsExpression)
               (Function c ops :: flat_map (fun op => op :: walk_operands op) ops))
      with (existsb (fun n => isinstance n CLhsExpression)
              (flat_map (fun op => op :: walk_operands op) ops))
      by (simpl; destruct c; reflexivity).
    rewrite existsb_flat_map. simpl.
    induction IH as [|x l Hx _ IHl]; simpl; [reflexivity|].
    rewrite Hx, IHl. simpl. now rewrite !negb_orb.
Qed.

Lemma is_literal_nil (e : Expression) :
  is_literal host e = is_nil (_references host e).
Proof.
  destruct e; try reflexivity; simpl;
    match goal with |- context [length ?l] => now destruct l end.
Qed.

End ReferenceFacts.

(** X7.  [is_literal()] is [True] exactly when the tree contains no
    object of a left-hand-side class. *)
Theorem is_literal_no_left_hand_side :
  forall (host : Host) (e : Expression),
    is_literal host e = negb (contains_type e CLhsExpression).
Proof.
  intros host e.
  now rewrite is_literal_nil, references_nil, contains_type_walk.
Qed.

(** X8.  Every member of [references()] is a node of the tree and an
    instance of [LhsExpression]; and [depends_on(lhs)] is [True] only if
    the tree has a left-hand-side node equal to [lhs]. *)
Theorem references_are_left_hand_sides_of_the_tree :
  forall (host : Host) (e : Expression),
    Forall (fun r => In r (walk_types None e)
                     /\ isinstance r CLhsExpression = true)
      (references host e)
    /\
    (forall lhs : Expression,
       depends_on host e lhs = true ->
       exists r : Expression,
         In r (walk_types None e) /\
         isinstance r CLhsExpression = true /\
         __eq__ host r lhs = true).
Proof.
  intros host e. split.
  - apply Forall_forall. intros r Hr. now apply (references_walk host).
  - intros lhs H. unfold depends_on, set_mem in H.
    apply existsb_exists in H as (r & Hr & Hk).
    apply andb_true_iff in Hk as [_ Heq].
    destruct (references_walk host e r Hr) as [Hw Hl].
    exists r. repeat split; assumption.
Qed.

Lemma references_are_left_hand_sides_of_the_tree_witness :
  exists r : Expression,
    In r (walk_types None
            (Multiply (Number 2 None) (Plus Sample.x (Derivative Sample.x))))
    /\
    isinstance r CLhsExpression = true /\
    __eq__ Sample.host r (Derivative Sample.x) = true.
Proof.
  apply (proj2 (references_are_left_hand_sides_of_the_tree Sample.host
                  (Multiply (Number 2 None)
                     (Plus Sample.x (Derivative Sample.x))))).
  reflexivity.
Defined.

(** ** Expressions without references *)

Lemma list_pair_ind {A : Type} (P : list A -> Prop) :
  P [] -> (forall x, P [x]) ->
  (forall x y l, P l -> P (x :: y :: l)) ->
  forall l, P l.
Proof.
  intros H0 H1 H2.
  assert (H : forall l, P l /\ forall x, P (x :: l)).
  { induction l as [|y l [IH IH']]; split; auto. }
  intros l. apply H.
Qed.

Lemma Piecewise_split_In (ops : list Expression) :
  (forall x, In x (Piecewise_i ops) -> In x ops) /\
  (forall x, In x (Piecewise_e ops) -> In x ops).
Proof.
  unfold Piecewise_i, Piecewise_e.
  induction ops as [|d|c v rest [IHi IHe]] using list_pair_ind; simpl.
  - split; intros x [].
  - split; [intros x [] | intros x H; exact H].
  - destruct (Piecewise_split rest) as [i e]. simpl in *.
    split; intros x [<-|H]; auto.
Qed.

Lemma getitem_In {A : Type} (l : list A) (i : Z) (x : A) :
  getitem l i = Return x -> In x l.
Proof.
  unfold getitem.
  destruct ((if (i <? 0)%Z then (i + Z.of_nat (length l))%Z else i) <? 0)%Z;
    [discriminate|].
  destruct (nth_error l _) eqn:H; [|discriminate].
  intros [= <-]. eapply nth_error_In, H.
Qed.

Lemma tuple_getitem_In {A : Type} (t : list A) (i : Z) (x : A) :
  tuple_getitem t i = Return x -> In x t.
Proof.
  unfold tuple_getitem.
  destruct ((if (i <? 0)%Z then (i + Z.of_nat (length t))%Z else i) <? 0)%Z;
    [discriminate|].
  destruct (nth_error t _) eqn:H; [|discriminate].
  intros [= <-]. eapply nth_error_In, H.
Qed.

Section LiteralFacts.

Variable host : Host.

Lemma is_literal_operands (e : Expression) :
  is_literal host e = true ->
  forall op, In op (_operands e) -> is_literal host op = true.
Proof.
  rewrite is_literal_nil. intros H op Hop. rewrite is_literal_nil.
  destruct e as [| | o | a b | v | c o | c a b | c ops];
    simpl in H, Hop; try contradiction; try discriminate.
  - destruct Hop as [<-|[]]. now rewrite set_union_nil in H.
  - rewrite !set_union_nil in H. simpl in H.
    apply andb_true_iff in H as [Ha Hb].
    destruct Hop as [<-|[<-|[]]]; assumption.
  - rewrite fold_set_union_nil in H. simpl in H.
    rewrite forallb_forall in H. now apply H.
Qed.

Lemma is_literal_not_lhs (e : Expression) :
  is_literal host e = true -> isinstance e CLhsExpression = false.
Proof.
  destruct e as [| | | | |c ?|c ? ?|c ?]; simpl; intros H;
    try discriminate; try reflexivity; destruct c; reflexivity.
Qed.

(** The value of an expression without references is computed from the
    tree alone. *)
Lemma _eval_literal (m m' : Model) (subst subst' : dict)
    (precision : Precision) (fuel : nat) :
  forall e, is_literal host e = true ->
    _eval host m fuel subst precision e
    = _eval host m' fuel subst' precision e.
Proof.
  induction fuel as [|fuel IH]; intros e H; [reflexivity|].
  pose proof (is_literal_operands e H) as Hops.
  destruct e as [v u | h | o | a b | v | c o | c a b | c ops];
    try discriminate.
  - reflexivity.
  - simpl. rewrite (IH o) by (apply Hops; now left). reflexivity.
  - simpl. rewrite (IH a) by (apply Hops; now left).
    rewrite (IH b) by (apply Hops; right; now left). reflexivity.
  - simpl in Hops.
    assert (Hget : forall l i x, (forall y, In y l -> In y ops) ->
              getitem l i = Return x ->
              _eval host m fuel subst precision x
              = _eval host m' fuel subst' precision x).
    { intros l i x Hl Hx. apply IH, Hops, Hl. eapply getitem_In, Hx. }
    assert (Hoperand : forall i x,
              tuple_getitem ops i = Return x ->
              _eval host m fuel subst precision x
              = _eval host m' fuel subst' precision x).
    { intros i x Hx. apply IH, Hops. eapply tuple_getitem_In, Hx. }
    assert (Hfirst : forall (f : PyValue -> result PyValue) i,
              (op <- tuple_getitem ops i ;;
               x <- _eval host m fuel subst precision op ;; f x)
              = (op <- tuple_getitem ops i ;;
                 x <- _eval host m' fuel subst' precision op ;; f x)).
    { intros f i. destruct (tuple_getitem ops i) as [op|err] eqn:Hg; simpl;
        [|reflexivity].
      now rewrite (Hoperand i op) by auto. }
    destruct c; simpl; try (now rewrite Hfirst).
    + (* Log *)
      destruct (length ops =? 1)%nat; [now rewrite Hfirst|].
      destruct (tuple_getitem ops 0) as [op0|err] eqn:Hg0; simpl;
        [|reflexivity].
      rewrite (Hoperand 0%Z op0) by auto.
      destruct (_eval host m' fuel subst' precision op0); simpl;
        [|reflexivity].
      now rewrite Hfirst.
    + (* If *)
      destruct ops as [|i [|t [|e [|]]]]; try reflexivity.
      rewrite (IH i), (IH t), (IH e) by (apply Hops; simpl; auto).
      reflexivity.
    + (* Piecewise *)
      pose proof (Piecewise_split_In ops) as [Hi He].
      assert (Hpiece : forall k,
                (e <- getitem (Piecewise_e ops) k ;;
                 _eval host m fuel subst precision e)
                = (e <- getitem (Piecewise_e ops) k ;;
                   _eval host m' fuel subst' precision e)).
      { intros k. destruct (getitem (Piecewise_e ops) k) as [e|err] eqn:Hg;
          simpl; [|reflexivity].
        now apply (Hget (Piecewise_e ops) k). }
      generalize 0%Z as k.
      induction (Piecewise_i ops) as [|cond conds IHc]; intros k.
      * apply Hpiece.
      * rewrite (IH cond) by (apply Hops, Hi; now left).
        destruct (_eval host m' fuel subst' precision cond) as [c|err];
          simpl; [|reflexivity].
        destruct (truthy c); [apply Hpiece|].
        apply IHc. intros x Hx. apply Hi. now right.
Qed.

End LiteralFacts.

Section LiteralDerivative.

Variable host : Host.
Variable m : Model.
Variable lhs : Expression.

Lemma _partial_derivative_literal (fuel : nat) :
  forall e r,
    is_literal host e = true ->
    _partial_derivative host m fuel lhs e = Return r -> r = None.
Proof.
  induction fuel as [|fuel IH]; intros e r H; [discriminate|].
  pose proof (is_literal_operands host e H) as Hops.
  assert (IH' : forall x r, In x (_operands e) ->
            _partial_derivative host m fuel lhs x = Return r -> r = None).
  { intros x r' Hx. apply IH, Hops, Hx. }
  destruct e as [v u | h | o | a b | v | c o | c a b | c ops];
    try discriminate.
  - simpl. now intros [= <-].
  - destruct c; simpl; simpl in IH'; zero_derivative IH';
      try discriminate; now intros [= <-].
  - destruct c; simpl; simpl in IH'; zero_derivative IH';
      try discriminate; now intros [= <-].
  - destruct c; try apply Piecewise__partial_derivative_never_an_expression;
      simpl; simpl in IH';
      try (destruct (length ops =? 1)%nat);
      repeat match goal with
             | |- context [tuple_getitem ops ?i] =>
                 let G := fresh "G" in
                 destruct (tuple_getitem ops i) eqn:G;
                 [apply tuple_getitem_In in G | ]; simpl
             end;
      try (destruct ops as [|i [|t [|e [|]]]]; simpl in IH');
      zero_derivative IH'; try discriminate; now intros [= <-].
Qed.

End LiteralDerivative.

(** ** Constants and literal values *)

Lemma eval_checked_returns (host : Host) (m : Model) (fuel : nat)
    (subst : dict) (precision : Precision) (e : Expression) (v : PyValue) :
  eval_checked host m (S fuel) subst precision e = Return v <->
  _eval host m fuel subst precision e = Return v.
Proof.
  simpl. destruct (_eval host m fuel subst precision e) as [x|err].
  - reflexivity.
  - destruct err; try reflexivity. split; [|discriminate].
    repeat case_outcome; try discriminate.
    all: repeat match goal with
           | |- context [match ?l with [] => _ | _ :: _ => _ end] =>
               destruct l; simpl
           end; repeat case_outcome; discriminate.
Qed.

(** X9.  The value of an expression without references does not depend
    on the model or on the substitutions: [_eval] gives the same outcome in
    any two models, and a value returned by [eval] in one model is returned
    in every other. *)
Theorem literal_value_is_independent_of_the_model :
  forall (host : Host) (m m' : Model) (fuel : nat) (e : Expression)
         (precision : Precision),
    is_literal host e = true ->
    (forall subst subst' : dict,
       _eval host m fuel subst precision e
       = _eval host m' fuel subst' precision e)
    /\
    (forall (raw raw' : option (list (Expression * Substitute)))
            (subst' : dict) (v : PyValue),
       checked_subst raw' = Return subst' ->
       eval host m fuel raw precision e = Return v ->
       eval host m' fuel raw' precision e = Return v).
Proof.
  intros host m m' fuel e precision H. split.
  - intros subst subst'. now apply _eval_literal.
  - intros raw raw' subst' v Hraw'. unfold eval. rewrite Hraw'. simpl.
    destruct (checked_subst raw) as [subst|err]; [simpl | discriminate].
    destruct fuel as [|fuel]; [discriminate|].
    rewrite !eval_checked_returns.
    now rewrite (_eval_literal host m m' subst subst' precision fuel e H).
Qed.

Lemma literal_value_is_independent_of_the_model_witness :
  let e := Plus (Number 1 None) (Number 2 None) in
  let m' := Vars.set_binding Sample.model 2 (Some "time") in
  _eval Sample.host Sample.model 3 [] SINGLE_PRECISION e
  = _eval Sample.host m' 3 [(Sample.y, Number 5 None)] SINGLE_PRECISION e
  /\
  eval Sample.host m' 3 (Some [(Sample.y, SubstNumber 5)]) SINGLE_PRECISION e
  = Return (VFloat 3).
Proof.
  intros e m'.
  pose proof (literal_value_is_independent_of_the_model Sample.host
                Sample.model m' 3 e SINGLE_PRECISION eq_refl) as [H1 H2].
  split.
  - apply H1.
  - apply (H2 None (Some [(Sample.y, SubstNumber 5)])
              [(Sample.y, Number 5 None)] (VFloat 3)); reflexivity.
Defined.

(** X10.  The derivative of an expression without references is never
    an expression: [_partial_derivative] returns [None] (zero) whenever it
    returns. *)
Theorem literal_has_no_derivative :
  forall (host : Host) (m : Model) (fuel : nat) (lhs e : Expression)
         (r : option Expression),
    is_literal host e = true ->
    _partial_derivative host m fuel lhs e = Return r ->
    r = None.
Proof.
  intros host m fuel lhs e r. apply _partial_derivative_literal.
Qed.

Lemma literal_has_no_derivative_witness :
  let e := Multiply (Function KSqrt [Number 2 None])
             (Function KIf [Less (Number 1 None) (Number 2 None);
                            Number 3 None;
                            Function KAbs [Number 4 None]]) in
  is_literal Sample.host e = true /\
  _partial_derivative Sample.host Sample.model 4 Sample.x e = Return None /\
  @None Expression = None.
Proof.
  intros e. split; [reflexivity|]. split; [reflexivity|].
  apply (@literal_has_no_derivative Sample.host Sample.model 4 Sample.x e
           None); reflexivity.
Defined.

Section ConstantFacts.

Variable host : Host.
Variable m : Model.

Lemma LhsExpression_is_constant_wraps (ref : Expression) :
  wraps_variable ref ->
  LhsExpression_is_constant m ref = Return (refers_to_constant m ref).
Proof.
  intros [v Hv]. unfold LhsExpression_is_constant, refers_to_constant.
  now rewrite Hv.
Qed.

Lemma is_constant_loop (refs : list Expression) :
  Forall wraps_variable refs ->
  (fix loop (refs : list Expression) : result bool :=
     match refs with
     | [] => Return true
     | ref :: refs' =>
         c <- LhsExpression_is_constant m ref ;;
         if negb c then Return false else loop refs'
     end) refs
  = Return (forallb (refers_to_constant m) refs).
Proof.
  induction 1 as [|ref refs Href _ IH]; [reflexivity|].
  rewrite (LhsExpression_is_constant_wraps Href). simpl.
  destruct (refers_to_constant m ref); [exact IH | reflexivity].
Qed.

End ConstantFacts.

(** X11.  Where every reference wraps a variable, [is_constant()]
    returns, and it is [True] exactly when all the referenced variables are
    constant; the three implementations ([Expression], [Number],
    [LhsExpression]) agree on this. *)
Theorem is_constant_all_references_constant :
  forall (host : Host) (m : Model) (e : Expression),
    Forall wraps_variable (references host e) ->
    is_constant host m e
    = Return (forallb (refers_to_constant m) (references host e)).
Proof.
  intros host m e H. unfold references in *.
  destruct e; try reflexivity; try (now apply is_constant_loop);
    simpl in H; inversion H as [|? ? Hw _]; subst;
    simpl _references; cbn [is_constant forallb];
    rewrite (LhsExpression_is_constant_wraps m Hw);
    now rewrite andb_true_r.
Qed.

Lemma is_constant_all_references_constant_witness :
  is_constant Sample.host Sample.model
    (Plus Sample.y (Multiply (Number 2 None) (Derivative Sample.x)))
  = Return false.
Proof.
  apply (is_constant_all_references_constant Sample.host Sample.model
           (Plus Sample.y (Multiply (Number 2 None) (Derivative Sample.x)))).
  repeat constructor; eexists; reflexivity.
Defined.

(** ** Validation *)

(** The walk, class by class. *)
Lemma walk_equations :
  (forall op, walk (Derivative op) = Derivative op :: walk op) /\
  (forall a b,
     walk (PartialDerivative a b)
     = PartialDerivative a b :: (walk a ++ walk b)%list) /\
  (forall c op, walk (PrefixExpression c op) = PrefixExpression c op :: walk op) /\
  (forall c a b,
     walk (InfixExpression c a b)
     = InfixExpression c a b :: (walk a ++ walk b)%list) /\
  (forall c ops, walk (Function c ops) = Function c ops :: flat_map walk ops).
Proof. repeat split. Qed.

Section ValidationFacts.

Variable m : Model.
Variable repr_str : string -> string.

Lemma _validate_walk (e : Expression) :
  accepted (_validate m repr_str e) = forallb (valid_node m) (walk e).
Proof.
  destruct walk_equations as (WD & WP & WPre & WI & WF).
  induction e as [v u | h | op IH | a b IHa IHb | v IH | c op IH
                 | c a b IHa IHb | c ops IH] using Expression_tree_ind.
  - reflexivity.
  - now destruct h.
  - rewrite WD. cbn [forallb _validate]. rewrite <- IH.
    destruct (_validate m repr_str op) as [[]|err]; simpl.
    + destruct (var op) as [[v|s]|err]; simpl; try reflexivity.
      now destruct (Vars.is_state m v).
    + now rewrite andb_false_r.
  - rewrite WP. cbn [forallb _validate]. rewrite forallb_app.
    rewrite <- IHa, <- IHb.
    destruct (_validate m repr_str a) as [[]|err]; reflexivity.
  - reflexivity.
  - rewrite WPre. cbn [forallb _validate]. exact IH.
  - rewrite WI. cbn [forallb _validate]. rewrite forallb_app.
    rewrite <- IHa, <- IHb.
    destruct (_validate m repr_str a) as [[]|err]; reflexivity.
  - rewrite WF. cbn [forallb _validate valid_node andb].
    induction IH as [|x l Hx _ IHl]; [reflexivity|].
    cbn [flat_map]. rewrite forallb_app, <- Hx, <- IHl.
    destruct (_validate m repr_str x) as [[]|err]; reflexivity.
Qed.

End ValidationFacts.

Lemma _has_initials_walk (e : Expression) :
  _has_initials e = existsb is_InitialValue (walk e).
Proof.
  unfold _has_initials, walk. simpl.
  rewrite operands_have_initials_search, operands_search_walk. f_equal.
  apply existsb_ext_Forall, Forall_forall. intros n _.
  apply isinstance_InitialValue.
Qed.

Lemma forallb_existsb_disjoint {A : Type} (p q : A -> bool) (l : list A) :
  (forall x, q x = true -> p x = false) ->
  forallb p l && existsb q l = false.
Proof.
  intros H. induction l as [|x l IH]; [reflexivity|]. simpl.
  destruct (q x) eqn:Hq.
  - now rewrite (H x Hq).
  - simpl. destruct (p x); [exact IH | reflexivity].
Qed.

(** X12.  [validate()] returns normally exactly when every node that
    [walk()] meets passes the check of its own class: each name wraps a
    variable, each [dot()] is taken of a state variable, and no node is an
    [InitialValue].  So no expression that has an initial value
    validates. *)
Theorem validate_accepts_valid_nodes :
  forall (m : Model) (repr_str : string -> string) (e : Expression),
    accepted (validate m repr_str e)
    = forallb (valid_node m) (walk_types None e)
    /\
    accepted (validate m repr_str e) && _has_initials e = false.
Proof.
  intros m repr_str e. unfold validate. rewrite _validate_walk.
  split; [reflexivity|].
  rewrite _has_initials_walk. apply forallb_existsb_disjoint.
  intros x Hx. now destruct x.
Qed.

(** ** If and Piecewise *)

Lemma mod2_SS (n : nat) : (S (S n) mod 2 = n mod 2)%nat.
Proof.
  replace (S (S n)) with (n + 1 * 2)%nat by lia.
  apply Nat.Div0.mod_add.
Qed.

Lemma Piecewise_split_odd (ops : list Expression) :
  (length ops mod 2 =? 0)%nat = false ->
  exists (conds values : list Expression) (default : Expression),
    Piecewise_split ops = (conds, (values ++ [default])%list) /\
    length values = length conds /\
    ops = (interleave conds values ++ [default])%list.
Proof.
  induction ops as [|d|c v rest IH] using list_pair_ind; intros H.
  - discriminate.
  - exists [], [], d. repeat split.
  - cbn [length] in H. rewrite mod2_SS in H.
    destruct (IH H) as (conds & values & default & Hs & Hl & Ho).
    exists (c :: conds), (v :: values), default.
    simpl. rewrite Hs. repeat split.
    + simpl. now rewrite Hl.
    + unfold interleave in *. simpl. now rewrite Ho at 1.
Qed.

Lemma getitem_minus_one {A : Type} (l : list A) (d : A) :
  l <> [] -> getitem l (-1) = Return (last l d).
Proof.
  intros H. unfold getitem.
  replace (-1 <? 0)%Z with true by reflexivity.
  destruct l as [|x l]; [contradiction|]. clear H.
  set (n := length (x :: l)).
  assert (Hpos : (-1 + Z.of_nat n <? 0)%Z = false)
    by (apply Z.ltb_ge; subst n; simpl length; lia).
  rewrite Hpos.
  replace (Z.to_nat (-1 + Z.of_nat n)) with (length l)
    by (subst n; simpl length; lia).
  clear n Hpos. revert x.
  induction l as [|y l IH]; intros x; [reflexivity|].
  simpl length. cbn [nth_error]. rewrite (IH y). reflexivity.
Qed.

(** X13.  What [Piecewise.__init__] accepts and how it splits it: the
    operands are refused only when their number is even or below three;
    when they are accepted there is at least one condition, one more piece
    than there are conditions, and the operands are the conditions and
    pieces taken in turn, followed by the last piece. *)
Theorem Piecewise_conditions_and_pieces :
  forall ops : list Expression,
    match Piecewise ops with
    | Return self =>
        exists (conds values : list Expression) (default : Expression),
          Piecewise_conditions self = Return conds /\
          Piecewise_pieces self = Return (values ++ [default])%list /\
          conds <> [] /\
          length values = length conds /\
          ops = (interleave conds values ++ [default])%list
    | Raise _ =>
        (length ops mod 2 = 0)%nat \/ (length ops < 3)%nat
    end.
Proof.
  intros ops. unfold Piecewise, Piecewise__init__, Function__init__.
  cbn [_nargs bind].
  destruct (length ops mod 2 =? 0)%nat eqn:Hodd.
  { left. now apply Nat.eqb_eq. }
  destruct (length ops <? 3)%nat eqn:Hlen.
  { right. now apply Nat.ltb_lt. }
  destruct (Piecewise_split_odd ops Hodd)
    as (conds & values & default & Hs & Hl & Ho).
  exists conds, values, default. simpl.
  unfold Piecewise_i, Piecewise_e. rewrite Hs. simpl.
  repeat split; try assumption.
  intros ->. destruct values; [|discriminate].
  subst ops. discriminate.
Qed.

Section ConditionalFacts.

Variable host : Host.
Variable m : Model.
Variable subst : dict.
Variable precision : Precision.

(** The loop of [Piecewise._eval] from the condition with index [k] on. *)
Lemma Piecewise__eval_loop (fuel : nat) (pieces : list Expression) :
  let ev := _eval host m fuel subst precision in
  forall (before : list Expression) (k : Z) (rest : list Expression),
    Forall (evaluates_false ev) before ->
    (fix conditions (k : Z) (conds : list Expression) : result PyValue :=
       match conds with
       | [] => e <- getitem pieces (-1) ;; ev e
       | cond :: conds' =>
           c <- ev cond ;;
           if truthy c then e <- getitem pieces k ;; ev e
           else conditions (k + 1)%Z conds'
       end) k (before ++ rest)%list
    = (fix conditions (k : Z) (conds : list Expression) : result PyValue :=
         match conds with
         | [] => e <- getitem pieces (-1) ;; ev e
         | cond :: conds' =>
             c <- ev cond ;;
             if truthy c then e <- getitem pieces k ;; ev e
             else conditions (k + 1)%Z conds'
         end) (k + Z.of_nat (length before))%Z rest.
Proof.
  intros ev before. induction before as [|cond before IH]; intros k rest H.
  - simpl. now rewrite Z.add_0_r.
  - inversion H as [|? ? (v & Hv & Hf) H']; subst.
    cbn [app]. rewrite Hv. simpl. rewrite Hf.
    rewrite (IH (k + 1)%Z rest H'). f_equal.
    cbn [length]. lia.
Qed.

End ConditionalFacts.

(** X14.  [Piecewise._eval] takes the first condition that holds.
    Where the conditions before the one with index [k] evaluate to false
    values and that one to a true value, the result is the evaluation of
    piece [k]; where all conditions evaluate to false values, it is the
    evaluation of the last piece. *)
Theorem Piecewise_takes_the_first_condition_that_holds :
  forall (host : Host) (m : Model) (subst : dict) (precision : Precision)
         (fuel : nat) (ops : list Expression),
    let ev := _eval host m fuel subst precision in
    let self := Function KPiecewise ops in
    (forall (before after : list Expression) (cond piece : Expression)
            (v : PyValue),
       Piecewise_i ops = (before ++ cond :: after)%list ->
       Forall (evaluates_false ev) before ->
       ev cond = Return v -> truthy v = true ->
       nth_error (Piecewise_e ops) (length before) = Some piece ->
       _eval host m (S fuel) subst precision self = ev piece)
    /\
    (forall (values : list Expression) (default : Expression),
       Piecewise_e ops = (values ++ [default])%list ->
       Forall (evaluates_false ev) (Piecewise_i ops) ->
       _eval host m (S fuel) subst precision self = ev default).
Proof.
  intros host m subst precision fuel ops ev self. split.
  - intros before after cond piece v Hi Hbefore Hv Ht Hpiece.
    unfold self. simpl. rewrite Hi.
    rewrite (@Piecewise__eval_loop host m subst precision fuel
               (Piecewise_e ops) before 0 (cond :: after) Hbefore).
    fold ev. rewrite Hv. simpl. rewrite Ht.
    unfold getitem. simpl.
    destruct (Z.of_nat (length before) <? 0)%Z eqn:Hneg;
      [apply Z.ltb_lt in Hneg; lia|].
    rewrite Hneg, Nat2Z.id, Hpiece. reflexivity.
  - intros values default He Hall.
    unfold self. simpl.
    rewrite <- (app_nil_r (Piecewise_i ops)).
    rewrite (@Piecewise__eval_loop host m subst precision fuel
               (Piecewise_e ops) (Piecewise_i ops) 0 [] Hall).
    fold ev.
    assert (Hget : getitem (Piecewise_e ops) (-1) = Return default).
    { rewrite <- (last_last values default default), <- He.
      apply getitem_minus_one. rewrite He. now destruct values. }
    rewrite Hget. reflexivity.
Qed.

Lemma Piecewise_takes_the_first_condition_that_holds_witness :
  let ops := [Less (Number 2 None) (Number 1 None); Number 10 None;
              Less (Number 1 None) (Number 2 None); Number 20 None;
              Less (Number 1 None) (Number 3 None); Number 30 None;
              Number 40 None] in
  _eval Sample.host Sample.model 3 [] DOUBLE_PRECISION
    (Function KPiecewise ops)
  = _eval Sample.host Sample.model 2 [] DOUBLE_PRECISION (Number 20 None)
  /\
  _eval Sample.host Sample.model 3 [] DOUBLE_PRECISION
    (Function KPiecewise
       [Less (Number 2 None) (Number 1 None); Number 10 None; Number 40 None])
  = _eval Sample.host Sample.model 2 [] DOUBLE_PRECISION (Number 40 None).
Proof.
  intros ops. split.
  - apply (proj1 (Piecewise_takes_the_first_condition_that_holds
                    Sample.host Sample.model [] DOUBLE_PRECISION 2 ops)
             [Less (Number 2 None) (Number 1 None)]
             [Less (Number 1 None) (Number 3 None)]
             (Less (Number 1 None) (Number 2 None)) (Number 20 None)
             (VBool true)); try reflexivity.
    repeat constructor. exists (VBool false). split; reflexivity.
  - apply (proj2 (Piecewise_takes_the_first_condition_that_holds
                    Sample.host Sample.model [] DOUBLE_PRECISION 2
                    [Less (Number 2 None) (Number 1 None); Number 10 None;
                     Number 40 None])
             [Number 10 None] (Number 40 None)); try reflexivity.
    repeat constructor. exists (VBool false). split; reflexivity.
Defined.

(** X15.  [If.piecewise()] returns a [Piecewise] with the one condition
    and the two values of the [If], and the two expressions evaluate to the
    same outcome with any model, substitution, precision and budget. *)
Theorem If_piecewise_evaluates_alike :
  forall (host : Host) (m : Model) (subst : dict) (precision : Precision)
         (fuel : nat) (i t e : Expression),
    let self := Function KIf [i; t; e] in
    If i t e = Return self /\
    If_condition self = Return i /\
    If_value self true = Return t /\
    If_value self false = Return e /\
    exists p : Expression,
      If_piecewise self = Return p /\
      Piecewise_conditions p = Return [i] /\
      Piecewise_pieces p = Return [t; e] /\
      is_conditional p = is_conditional self /\
      _eval host m fuel subst precision p
      = _eval host m fuel subst precision self.
Proof.
  intros host m subst precision fuel i t e self.
  repeat (split; [reflexivity|]).
  exists (Function KPiecewise [i; t; e]).
  repeat (split; [reflexivity|]).
  destruct fuel as [|fuel]; [reflexivity|]. simpl.
  destruct (_eval host m fuel subst precision i) as [c|err]; [|reflexivity].
  simpl. destruct (truthy c); reflexivity.
Qed.

(** ** Logical operators and internal errors *)

(** X16.  [Not], [And] and [Or] on evaluated operands.  [Not] negates
    the truth value.  [And] returns its first operand when that is false,
    [Or] when it is true, whatever the second operand is (it is not
    evaluated, so it may fail); and where both operands have values, the
    truth value of the result is the conjunction, for [Or] the disjunction,
    of the two truth values. *)
Theorem logical_operators_short_circuit :
  forall (host : Host) (m : Model) (subst : dict) (precision : Precision)
         (fuel : nat) (a b : Expression) (va : PyValue),
    let ev := _eval host m fuel subst precision in
    let run := _eval host m (S fuel) subst precision in
    ev a = Return va ->
    run (Not a) = Return (VBool (negb (truthy va))) /\
    (truthy va = false -> run (And a b) = Return va) /\
    (truthy va = true -> run (Or a b) = Return va) /\
    (forall vb : PyValue,
       ev b = Return vb ->
       exists v w : PyValue,
         run (And a b) = Return v /\
         truthy v = truthy va && truthy vb /\
         run (Or a b) = Return w /\
         truthy w = truthy va || truthy vb).
Proof.
  intros host m subst precision fuel a b va ev run Ha.
  unfold run, ev in *. simpl. rewrite Ha. simpl.
  split; [reflexivity|]. split; [|split].
  - intros ->. reflexivity.
  - intros ->. reflexivity.
  - intros vb Hb. rewrite Hb.
    destruct (truthy va) eqn:Ht; simpl.
    + exists vb, va. now rewrite Ht.
    + exists va, vb. now rewrite Ht.
Qed.

Lemma logical_operators_short_circuit_witness :
  let a := Equal (Number 1 None) (Number 2 None) in
  let a' := Equal (Number 1 None) (Number 1 None) in
  let b := Divide (Number 1 None) (Number 0 None) in
  _eval Sample.host Sample.model 3 [] DOUBLE_PRECISION (Not a)
  = Return (VBool true) /\
  _eval Sample.host Sample.model 3 [] DOUBLE_PRECISION (And a b)
  = Return (VBool false) /\
  _eval Sample.host Sample.model 3 [] DOUBLE_PRECISION (Or a' b)
  = Return (VBool true) /\
  (exists e err,
     _eval Sample.host Sample.model 2 [] DOUBLE_PRECISION b
     = Raise (EvalError e err)).
Proof.
  intros a a' b.
  pose proof (@logical_operators_short_circuit Sample.host Sample.model []
                DOUBLE_PRECISION 2 a b (VBool false) eq_refl)
    as (Hnot & Hand & _ & _).
  pose proof (@logical_operators_short_circuit Sample.host Sample.model []
                DOUBLE_PRECISION 2 a' b (VBool true) eq_refl)
    as (_ & _ & Hor & _).
  split; [exact Hnot|]. split; [exact (Hand eq_refl)|].
  split; [exact (Hor eq_refl)|].
  eexists. eexists. reflexivity.
Defined.

Section ErrorFacts.

Variable host : Host.
Variable m : Model.

Lemma rhs_no_internal_error (e : Expression) :
  no_internal_error (rhs host m e).
Proof.
  destruct e as [| [v|s] | [| [v|s] | | | | | |] | | | | |]; simpl;
    try reflexivity; try exact I.
  destruct (Vars.is_state m v); [exact I|].
  destruct (__eq__ host (Vars.lhs m v) (Name (Var v))); exact I.
Qed.

Lemma bind_no_internal_error {A B : Type} (c : result A)
    (k : A -> result B) :
  no_internal_error c -> (forall a, no_internal_error (k a)) ->
  no_internal_error (bind c k).
Proof.
  destruct c as [a|err]; simpl; intros Hc Hk; [apply Hk | exact Hc].
Qed.

Lemma path_no_internal_error (fuel : nat) :
  forall root target trail,
    no_internal_error (path host m fuel root target trail).
Proof.
  induction fuel as [|fuel IH]; intros root target trail; [reflexivity|].
  simpl. destruct (__eq__ host root target); [exact I|].
  destruct (isinstance root CName).
  - apply bind_no_internal_error; [apply rhs_no_internal_error|].
    intros [r|]; [apply IH | reflexivity].
  - induction (_operands root) as [|child ops IHops]; [exact I|].
    apply bind_no_internal_error; [apply IH|].
    intros [t|]; [exact I | exact IHops].
Qed.

Lemma _expr_error_message_no_internal_error (fuel : nat)
    (owner : Expression) (unit_error : bool) (e_expr : Expression)
    (e_err : string) :
  no_internal_error
    (_expr_error_message host m fuel owner unit_error e_expr e_err).
Proof.
  unfold _expr_error_message.
  apply bind_no_internal_error; [apply path_no_internal_error|].
  intros trail. apply bind_no_internal_error.
  - destruct trail as [[|v trail']|]; try exact I.
    apply bind_no_internal_error; [apply rhs_no_internal_error|].
    intros [r|]; [exact I | reflexivity].
  - intros [out par_str]. exact I.
Qed.

Lemma no_internal_error_no_EvalError {A : Type} (r : result A) :
  no_internal_error r -> no_EvalError r.
Proof. destruct r as [a|[]]; simpl; try discriminate; auto. Qed.

Lemma bind_no_EvalError {A B : Type} (c : result A) (k : A -> result B) :
  no_EvalError c -> (forall a, no_EvalError (k a)) ->
  no_EvalError (bind c k).
Proof.
  destruct c as [a|err]; simpl; intros Hc Hk; [apply Hk | exact Hc].
Qed.

Lemma try_line_no_EvalError (pre : string) (r : result PyValue) :
  no_EvalError (try_line host pre r).
Proof. destruct r as [v|[]]; exact I. Qed.

Lemma operand_lines_no_EvalError (ev : Expression -> result PyValue)
    (ops : list Expression) :
  forall i, no_EvalError (operand_lines host ev i ops).
Proof.
  induction ops as [|op ops IH]; intros i; [exact I|]. simpl.
  apply bind_no_EvalError; [apply try_line_no_EvalError|]. intros line.
  apply bind_no_EvalError; [apply IH|]. intros rest. exact I.
Qed.

Lemma substitute_or_rhs_no_EvalError (subst : dict) (ref : Expression) :
  no_EvalError (substitute_or_rhs host m subst ref).
Proof.
  unfold substitute_or_rhs. destruct (in_subst host subst ref).
  - destruct (dict_get host subst ref); exact I.
  - apply no_internal_error_no_EvalError, rhs_no_internal_error.
Qed.

Lemma reference_lines_no_EvalError (ev : Expression -> result PyValue)
    (subst : dict) (refs : list Expression) :
  no_EvalError (reference_lines host m ev subst refs).
Proof.
  induction refs as [|ref refs IH]; [exact I|]. simpl.
  apply bind_no_EvalError; [apply substitute_or_rhs_no_EvalError|].
  intros [r|]; [|exact I].
  destruct (reference_heading host m (__str__ host m ref) r) as [first pre].
  apply bind_no_EvalError; [apply try_line_no_EvalError|]. intros line.
  apply bind_no_EvalError; [apply IH|]. intros rest. exact I.
Qed.

Lemma eval_checked_no_EvalError (fuel : nat) (subst : dict)
    (precision : Precision) (e : Expression) :
  no_EvalError (eval_checked host m fuel subst precision e).
Proof.
  destruct fuel as [|fuel]; [exact I|]. simpl.
  destruct (_eval host m fuel subst precision e) as [v|err]; [exact I|].
  destruct err; try exact I.
  apply bind_no_EvalError.
  { apply no_internal_error_no_EvalError,
      _expr_error_message_no_internal_error. }
  intros msg. apply bind_no_EvalError.
  { destruct (_operands expr); [exact I|].
    apply bind_no_EvalError; [apply operand_lines_no_EvalError|].
    intros lines. exact I. }
  intros out. apply bind_no_EvalError.
  { destruct (references host expr); [exact I|].
    apply bind_no_EvalError; [apply reference_lines_no_EvalError|].
    intros lines. exact I. }
  intros out'. exact I.
Qed.

Lemma check_subst_no_EvalError (subst : list (Expression * Substitute)) :
  no_EvalError (check_subst subst).
Proof.
  induction subst as [|[k v] subst IH]; [exact I|]. simpl.
  destruct (negb (isinstance k CLhsExpression)); [exact I|].
  apply bind_no_EvalError; [exact IH|]. intros rest. exact I.
Qed.

End ErrorFacts.

(** X17.  [eval] never raises the internal [EvalError], whatever the
    expression, the substitutions, the precision and the model. *)
Theorem eval_never_raises_EvalError :
  forall (host : Host) (m : Model) (fuel : nat)
         (subst : option (list (Expression * Substitute)))
         (precision : Precision) (self : Expression),
    no_EvalError (eval host m fuel subst precision self).
Proof.
  intros host m fuel subst precision self.
  unfold eval. apply bind_no_EvalError.
  - destruct subst as [[|kv rest]|]; try exact I.
    apply check_subst_no_EvalError.
  - intros s. apply eval_checked_no_EvalError.
Qed.

(** X18.  [eval_unit] never raises the internal [EvalUnitError],
    whatever the mode and the slots of the object. *)
Theorem eval_unit_never_raises_EvalUnitError :
  forall (host : Host) (m : Model) (fuel : nat) (mode : UnitMode)
         (self : Expression) (attrs : Attributes),
    no_EvalUnitError (fst (eval_unit host m fuel mode self attrs)).
Proof.
  intros host m fuel mode self attrs.
  unfold eval_unit.
  destruct (match mode with
            | UNIT_STRICT => _cached_unit_strict attrs
            | UNIT_TOLERANT => _cached_unit_tolerant attrs
            end) as [[u|msg]|]; try (simpl; exact I || reflexivity).
  destruct (_eval_unit host m fuel mode self) as [[u|]|e];
    try (destruct mode; simpl; exact I || reflexivity).
  destruct e as [msg|msg|msg|msg|msg| |msg|msg|msg|msg|msg|msg|expr err|expr err];
    try (destruct mode; simpl; exact I || reflexivity).
  pose proof (_expr_error_message_no_internal_error host m fuel self true
                expr err) as Hno.
  destruct (_expr_error_message host m fuel self true expr err)
    as [msg|e]; [destruct mode; simpl; exact I || reflexivity|].
  destruct mode; simpl in *; destruct e; solve [exact I | discriminate].
Qed.

(** ** Units in strict mode and of conditions *)

Lemma for_each_no_None {A : Type} (f : A -> result (option Unit))
    (xs : list A) :
  (forall x, f x <> Return None) ->
  forall ys, for_each f xs = Return ys -> has_None ys = false.
Proof.
  intros Hf. induction xs as [|x xs IH]; simpl; intros ys H.
  - now injection H as <-.
  - destruct (f x) as [[u|]|err] eqn:Hx; simpl in H;
      [|now apply Hf in Hx | discriminate].
    destruct (for_each f xs) as [us|err]; simpl in H; [|discriminate].
    injection H as <-. simpl. now apply IH.
Qed.

Section StrictUnits.

Variable host : Host.
Variable m : Model.

Lemma _eval_unit_strict (fuel : nat) :
  forall e, _eval_unit host m fuel UNIT_STRICT e <> Return None.
Proof.
  induction fuel as [|fuel IH]; intros e; [discriminate|].
  destruct e as [v [u|] | [v|s] | o | a b | v | c o | c a b | c ops];
    simpl; try discriminate.
  - unfold Vars.unit. destruct (var_unit (variables m v)); discriminate.
  - strict_unit IH; try discriminate.
    destruct o as [| [v|s] | | | | | |]; simpl; try discriminate.
    unfold time_unit. destruct (model_time_unit m); discriminate.
  - strict_unit IH; discriminate.
  - apply IH.
  - destruct c; strict_unit IH; split_tests; try discriminate;
      now apply IH.
  - destruct c; strict_unit IH; split_tests; discriminate.
  - destruct c;
      [ simpl;
        try (destruct (length ops =? 1)%nat);
        repeat match goal with
               | |- context [tuple_getitem ops ?i] =>
                   destruct (tuple_getitem ops i); simpl
               end;
        try (destruct ops as [|i [|t [|e [|]]]]; simpl);
        strict_unit IH; split_tests; try discriminate; now apply IH ..
      | ].
    simpl.
    destruct (for_each (_eval_unit host m fuel UNIT_STRICT)
                (Piecewise_i ops)); simpl; [|discriminate].
    destruct (for_each (_eval_unit host m fuel UNIT_STRICT)
                (Piecewise_e ops)) as [units|err] eqn:Hu; simpl;
      [|discriminate].
    apply (for_each_no_None _ _ IH) in Hu. rewrite Hu.
    destruct (unit_set units) as [|u [|]]; discriminate.
Qed.

End StrictUnits.

(** X19.  In strict mode the unit is never [None]: neither
    [_eval_unit] nor [eval_unit] returns [None] with [UNIT_STRICT]. *)
Theorem strict_mode_never_returns_None :
  forall (host : Host) (m : Model) (fuel : nat) (self : Expression)
         (attrs : Attributes),
    _eval_unit host m fuel UNIT_STRICT self <> Return None /\
    fst (eval_unit host m fuel UNIT_STRICT self attrs) <> Return None.
Proof.
  intros host m fuel self attrs. split; [apply _eval_unit_strict|].
  unfold eval_unit.
  destruct (_cached_unit_strict attrs) as [[u|msg]|]; try discriminate.
  pose proof (_eval_unit_strict host m fuel self) as H.
  destruct (_eval_unit host m fuel UNIT_STRICT self) as [[u|]|e];
    [discriminate | contradiction |].
  destruct e; try discriminate.
  destruct (_expr_error_message host m fuel self true expr err);
    discriminate.
Qed.

Lemma all_eq_trans (a : list Q) :
  forall b c, Units.all_eq a b = true -> Units.all_eq b c = true ->
    Units.all_eq a c = true.
Proof.
  induction a as [|x a IH]; intros [|y b] [|z c]; simpl; try discriminate;
    try reflexivity.
  intros H1 H2.
  apply andb_true_iff in H1 as [Hxy Hab].
  apply andb_true_iff in H2 as [Hyz Hbc].
  apply andb_true_iff. split; [|now apply (IH b)].
  apply Qeq_bool_iff in Hxy, Hyz. apply Qeq_bool_iff.
  now rewrite Hxy.
Qed.

Lemma Units_eqb_trans (u v w : Unit) :
  Units.eqb u v = true -> Units.eqb v w = true -> Units.eqb u w = true.
Proof.
  unfold Units.eqb. intros H1 H2.
  apply andb_true_iff in H1 as [He1 Hs1].
  apply andb_true_iff in H2 as [He2 Hs2].
  apply andb_true_iff. split; [now apply (all_eq_trans _ (exponents v))|].
  apply Qeq_bool_iff in Hs1, Hs2. apply Qeq_bool_iff. now rewrite Hs1.
Qed.

(** X20.  The unit of a condition ([Not], a comparison, [And], [Or]),
    when it is a unit, is equal to dimensionless; for a comparison it is
    the dimensionless unit itself. *)
Theorem conditions_are_dimensionless :
  forall (host : Host) (m : Model) (fuel : nat) (mode : UnitMode)
         (e : Expression) (u : Unit),
    isinstance e CCondition = true ->
    _eval_unit host m fuel mode e = Return (Some u) ->
    Units.eqb u Units.dimensionless = true /\
    (isinstance e CBinaryComparison = true -> u = Units.dimensionless).
Proof.
  intros host m [|fuel] mode e u Hc; [discriminate|].
  destruct e as [| | | | | c o | c a b | c ops];
    try discriminate; try (destruct c; discriminate).
  - destruct c; try discriminate. simpl.
    destruct (_eval_unit host m fuel mode o) as [[v|]|err]; simpl;
      try discriminate.
    destruct (Units.eqb v Units.dimensionless) eqn:Hv; [|discriminate].
    intros [= <-]. split; [exact Hv | discriminate].
  - destruct c; try discriminate; simpl;
      destruct (_eval_unit host m fuel mode a) as [[u1|]|err1]; simpl;
      try discriminate;
      destruct (_eval_unit host m fuel mode b) as [[u2|]|err2]; simpl;
      try discriminate;
      unfold is_dimensionless; simpl;
      repeat match goal with
             | |- context [if ?c then _ else _] =>
                 let E := fresh "E" in destruct c eqn:E; simpl
             end;
      try discriminate;
      intros [= <-]; (split; [|try discriminate; try reflexivity]);
      try reflexivity;
      repeat match goal with
             | H : _ && _ = true |- _ =>
                 apply andb_true_iff in H; destruct H
             end;
      try assumption;
      eapply Units_eqb_trans; eassumption.
Qed.

Lemma conditions_are_dimensionless_witness :
  let e := And (Less (Number 1 None) (Number 2 None))
               (Not (Equal Sample.x Sample.y)) in
  isinstance e CCondition = true /\
  _eval_unit Sample.host Sample.model 4 UNIT_STRICT e
  = Return (Some Units.dimensionless) /\
  Units.eqb Units.dimensionless Units.dimensionless = true.
Proof.
  intros e. split; [reflexivity|]. split; [reflexivity|].
  apply (@conditions_are_dimensionless Sample.host Sample.model 4
           UNIT_STRICT e Units.dimensionless); reflexivity.
Defined.

(** ** Substitution keys, states and expansion *)

Lemma check_subst_bad_key (subst : list (Expression * Substitute))
    (k : Expression) (v : Substitute) :
  In (k, v) subst -> isinstance k CLhsExpression = false ->
  check_subst subst
  = Raise (ValueError "All keys in `subst` must LhsExpression objects.").
Proof.
  intros Hin Hk. induction subst as [|[k' v'] subst IH]; [contradiction|].
  simpl. destruct (isinstance k' CLhsExpression) eqn:Hk'; [|reflexivity].
  simpl. destruct Hin as [[= -> ->]|Hin]; [congruence|].
  now rewrite (IH Hin).
Qed.

Lemma check_subst_good_keys (subst : list (Expression * Substitute)) :
  Forall (fun kv => isinstance (fst kv) CLhsExpression = true) subst ->
  exists d : dict,
    check_subst subst = Return d /\ map fst d = map fst subst.
Proof.
  induction 1 as [|[k v] subst Hk _ (d & Hd & Hm)]; simpl in *.
  - now exists [].
  - rewrite Hk, Hd. simpl. eexists. split; [reflexivity|].
    simpl. now rewrite Hm.
Qed.

(** X21.  [eval] checks the keys of [subst] before it evaluates
    anything.  With a key that is not an instance of [LhsExpression] it
    raises [ValueError], whatever the expression; with keys that all are,
    the evaluation runs with a dictionary of the same keys. *)
Theorem eval_checks_the_keys_of_subst :
  forall (host : Host) (m : Model) (fuel : nat)
         (subst : list (Expression * Substitute)) (precision : Precision)
         (e : Expression),
    ((exists k v, In (k, v) subst /\ isinstance k CLhsExpression = false) ->
     eval host m fuel (Some subst) precision e
     = Raise (ValueError "All keys in `subst` must LhsExpression objects."))
    /\
    (Forall (fun kv => isinstance (fst kv) CLhsExpression = true) subst ->
     exists d : dict,
       map fst d = map fst subst /\
       eval host m fuel (Some subst) precision e
       = eval_checked host m fuel d precision e).
Proof.
  intros host m fuel subst precision e. split.
  - intros (k & v & Hin & Hk). unfold eval, checked_subst.
    destruct subst as [|kv rest]; [contradiction|].
    now rewrite (check_subst_bad_key _ _ _ Hin Hk).
  - intros H. unfold eval, checked_subst.
    destruct subst as [|kv rest]; [now exists []|].
    destruct (check_subst_good_keys H) as (d & Hd & Hm).
    exists d. split; [exact Hm|]. now rewrite Hd.
Qed.

Lemma eval_checks_the_keys_of_subst_witness :
  eval Sample.host Sample.model 5
    (Some [(Sample.x, SubstNumber 1);
           (Plus Sample.x Sample.y, SubstNumber 2)])
    DOUBLE_PRECISION (Number 3 None)
  = Raise (ValueError "All keys in `subst` must LhsExpression objects.")
  /\
  exists d : dict,
    map fst d = [Sample.x; Derivative Sample.x] /\
    eval Sample.host Sample.model 5
      (Some [(Sample.x, SubstNumber 1);
             (Derivative Sample.x, SubstExpression Sample.y)])
      DOUBLE_PRECISION (Number 3 None)
    = eval_checked Sample.host Sample.model 5 d DOUBLE_PRECISION
        (Number 3 None).
Proof.
  split.
  - apply (proj1 (eval_checks_the_keys_of_subst Sample.host Sample.model 5
                    [(Sample.x, SubstNumber 1);
                     (Plus Sample.x Sample.y, SubstNumber 2)]
                    DOUBLE_PRECISION (Number 3 None))).
    exists (Plus Sample.x Sample.y), (SubstNumber 2).
    split; [right; now left | reflexivity].
  - apply (proj2 (eval_checks_the_keys_of_subst Sample.host Sample.model 5
                    [(Sample.x, SubstNumber 1);
                     (Derivative Sample.x, SubstExpression Sample.y)]
                    DOUBLE_PRECISION (Number 3 None))).
    repeat constructor.
Defined.

(** X22.  An expression for which [is_state_value()] is [True] is the
    name of a state variable; its right-hand side is the number holding the
    current value of the state, and it evaluates as that number does. *)
Theorem state_value_evaluates_to_the_state :
  forall (host : Host) (m : Model) (fuel : nat) (precision : Precision)
         (e : Expression),
    is_state_value m e = Return true ->
    exists v : N,
      e = Name (Var v) /\
      rhs host m e
      = Return (Some (Number__init__ (Vars.state_value m v) None)) /\
      _eval host m (S fuel) [] precision e
      = _eval host m fuel [] precision
          (Number__init__ (Vars.state_value m v) None).
Proof.
  intros host m fuel precision e H.
  destruct e as [| [v|s] | | | | | |]; try discriminate.
  simpl in H. injection H as H. exists v.
  split; [reflexivity|]. simpl. rewrite H. split; [reflexivity|].
  simpl.
  destruct (_eval host m fuel [] precision
              (Number__init__ (Vars.state_value m v) None)) as [x|err] eqn:E;
    [reflexivity|].
  destruct fuel as [|fuel]; [now injection E as <-|].
  simpl in E. destruct precision; discriminate.
Qed.

Lemma state_value_evaluates_to_the_state_witness :
  exists v : N,
    Sample.x = Name (Var v) /\
    rhs Sample.host Sample.model Sample.x
    = Return (Some (Number__init__ (Vars.state_value Sample.model v) None)) /\
    _eval Sample.host Sample.model 2 [] DOUBLE_PRECISION Sample.x
    = _eval Sample.host Sample.model 1 [] DOUBLE_PRECISION
        (Number__init__ (Vars.state_value Sample.model v) None).
Proof.
  apply (@state_value_evaluates_to_the_state Sample.host Sample.model 1
           DOUBLE_PRECISION Sample.x).
  reflexivity.
Defined.



Section ExpansionFacts.

Variable host : Host.
Variable m : Model.



End ExpansionFacts.



(** ** Where derivatives exist *)

Section ArithmeticDerivative.

Variable host : Host.
Variable m : Model.
Variable x : N.

Lemma _partial_derivative_arithmetic (fuel : nat) :
  forall e,
    arithmetic e = true -> (height e < fuel)%nat ->
    exists r : option Expression,
      _partial_derivative host m fuel (Name (Var x)) e = Return r.
Proof.
  induction fuel as [|fuel IH]; intros e Ha Hh; [lia|].
  destruct e as [v u | h | o | a b | v | c o | c a b | c ops];
    try discriminate.
  - now exists None.
  - simpl. destruct h as [j|s]; [destruct (x =? j)%N|];
      try (eexists; reflexivity);
      destruct (Vars.is_bound m x); try (eexists; reflexivity);
      destruct (Vars.is_constant m x); eexists; reflexivity.
  - simpl in Ha, Hh.
    destruct c; try discriminate;
      destruct (IH o Ha ltac:(lia)) as [[d|] Hd]; simpl; rewrite Hd;
      eexists; reflexivity.
  - simpl in Ha, Hh.
    destruct c; try discriminate;
      apply andb_true_iff in Ha as [Ha Hb];
      try (now exists None);
      destruct (IH a Ha ltac:(lia)) as [[da|] Hda];
      destruct (IH b Hb ltac:(lia)) as [[db|] Hdb];
      simpl; rewrite Hda, Hdb; eexists; reflexivity.
  - destruct c; try discriminate;
      destruct ops as [|a [|b [|]]]; try discriminate;
      simpl in Ha, Hh;
      try (now exists None);
      try (destruct (IH a Ha ltac:(lia)) as [[da|] Hda];
           simpl; rewrite Hda; eexists; reflexivity).
    apply andb_true_iff in Ha as [Ha Hb].
    destruct (IH a Ha ltac:(lia)) as [[da|] Hda];
      destruct (IH b Hb ltac:(lia)) as [[db|] Hdb];
      simpl; rewrite Hda, Hdb; eexists; reflexivity.
Qed.

End ArithmeticDerivative.

(** X24.  On expressions made of numbers, names, [+ - * / // ^],
    prefix signs and the elementary functions, [_partial_derivative] with
    respect to the name of a variable always returns (a derivative, or
    [None] for zero), given a budget above the depth of the tree. *)
Theorem arithmetic_expressions_have_a_derivative :
  forall (host : Host) (m : Model) (x : N) (fuel : nat) (e : Expression),
    arithmetic e = true ->
    (height e < fuel)%nat ->
    exists r : option Expression,
      _partial_derivative host m fuel (Name (Var x)) e = Return r.
Proof.
  intros host m x fuel e. apply _partial_derivative_arithmetic.
Qed.

(** The derivative of [x^2 / sin(y + 1)] with respect to [x] exists. *)
Lemma arithmetic_expressions_have_a_derivative_witness :
  exists r : option Expression,
    _partial_derivative Sample.host Sample.model 4 (Name (Var 1))
      (Divide (Power Sample.x (Number 2 None))
              (Function KSin [Plus Sample.y (Number 1 None)]))
    = Return r.
Proof.
  apply arithmetic_expressions_have_a_derivative.
  - reflexivity.
  - simpl. lia.
Defined.

(** ** Slices of a text with a known ending *)

Lemma string_length_app (s t : string) :
  String.length (s ++ t) = (String.length s + String.length t)%nat.
Proof. induction s as [|c s IH]; simpl; [reflexivity | now rewrite IH]. Qed.

Lemma substring_app_skip (s t : string) (k n : nat) :
  substring (String.length s + k) n (s ++ t) = substring k n t.
Proof. induction s as [|c s IH]; simpl; [reflexivity | exact IH]. Qed.

Lemma substring_app_take (s t : string) (k : nat) :
  substring 0 (String.length s + k) (s ++ t) = s ++ substring 0 k t.
Proof. induction s as [|c s IH]; simpl; [reflexivity | now rewrite IH]. Qed.

(** [(s ++ t)[-i:-j]] lies in [t] when [t] has at least [i] characters. *)
Lemma slice_suffix (s t : string) (i j : nat) :
  (0 < j)%nat -> (j <= i)%nat -> (i <= String.length t)%nat ->
  Py.slice (s ++ t) (Some (- Z.of_nat i)%Z) (Some (- Z.of_nat j)%Z)
  = substring (String.length t - i) (i - j) t.
Proof.
  intros Hj Hji Hi. unfold Py.slice, Py.clamp. rewrite string_length_app.
  destruct (- Z.of_nat i <? 0)%Z eqn:Hni; [|apply Z.ltb_ge in Hni; lia].
  destruct (- Z.of_nat j <? 0)%Z eqn:Hnj; [|apply Z.ltb_ge in Hnj; lia].
  replace (Z.to_nat _)
    with (String.length s + (String.length t - i))%nat by lia.
  rewrite substring_app_skip. f_equal. lia.
Qed.

(** [(s ++ t)[-i:]]. *)
Lemma slice_suffix_end (s t : string) (i : nat) :
  (0 < i)%nat -> (i <= String.length t)%nat ->
  Py.slice (s ++ t) (Some (- Z.of_nat i)%Z) None
  = substring (String.length t - i) i t.
Proof.
  intros H0 Hi. unfold Py.slice, Py.clamp. rewrite string_length_app.
  destruct (- Z.of_nat i <? 0)%Z eqn:Hni; [|apply Z.ltb_ge in Hni; lia].
  replace (Z.to_nat _)
    with (String.length s + (String.length t - i))%nat at 1 by lia.
  rewrite substring_app_skip. f_equal. lia.
Qed.

(** [(s ++ t)[:-j]]. *)
Lemma slice_prefix (s t : string) (j : nat) :
  (0 < j)%nat -> (j <= String.length t)%nat ->
  Py.slice (s ++ t) None (Some (- Z.of_nat j)%Z)
  = s ++ substring 0 (String.length t - j) t.
Proof.
  intros H0 Hj. unfold Py.slice, Py.clamp. rewrite string_length_app.
  destruct (- Z.of_nat j <? 0)%Z eqn:Hnj; [|apply Z.ltb_ge in Hnj; lia].
  replace (Z.to_nat 0) with 0%nat by reflexivity.
  replace (Z.to_nat _)
    with (String.length s + (String.length t - j))%nat by lia.
  apply substring_app_take.
Qed.

(** The three slices of a text that ends in [t]. *)
Lemma slices_of_ending (s t : string) :
  (forall i j : nat,
     (0 < j)%nat -> (j <= i)%nat -> (i <= String.length t)%nat ->
     Py.slice (s ++ t) (Some (- Z.of_nat i)%Z) (Some (- Z.of_nat j)%Z)
     = substring (String.length t - i) (i - j) t)
  /\
  (forall i : nat,
     (0 < i)%nat -> (i <= String.length t)%nat ->
     Py.slice (s ++ t) (Some (- Z.of_nat i)%Z) None
     = substring (String.length t - i) i t)
  /\
  (forall j : nat,
     (0 < j)%nat -> (j <= String.length t)%nat ->
     Py.slice (s ++ t) None (Some (- Z.of_nat j)%Z)
     = s ++ substring 0 (String.length t - j) t).
Proof.
  split; [|split]; intros.
  - now apply slice_suffix.
  - now apply slice_suffix_end.
  - now apply slice_prefix.
Qed.

(** X25.  The text that [Number.__init__] keeps for a number without
    unit: a float text ending in ".0" loses that ending, "e-0d" becomes
    "e-d", "e+00" is dropped, "e+0d" becomes "ed" and "e+dd" becomes
    "edd". *)
Theorem Number_str_shortens_the_float_text :
  forall (host : Host) (value : Q) (s : string),
    (strfloat host value = s ++ ".0" ->
     Number_str host value None = s)
    /\
    (forall d : ascii,
       strfloat host value = s ++ String "e" (String "-" (String "0" (String d ""))) ->
       Number_str host value None = s ++ String "e" (String "-" (String d "")))
    /\
    (strfloat host value = s ++ "e+00" ->
     Number_str host value None = s)
    /\
    (forall d : ascii,
       Ascii.eqb d "0" = false ->
       strfloat host value = s ++ String "e" (String "+" (String "0" (String d ""))) ->
       Number_str host value None = s ++ String "e" (String d ""))
    /\
    (forall d1 d2 : ascii,
       Ascii.eqb d1 "0" = false -> Ascii.eqb d1 "." = false ->
       strfloat host value = s ++ String "e" (String "+" (String d1 (String d2 ""))) ->
       Number_str host value None = s ++ String "e" (String d1 (String d2 ""))).
Proof.
  intros host value s. unfold Number_str.
  split; [|split; [|split; [|split]]].
  - intros ->. slices (slices_of_ending s ".0"). simpl. now rewrite append_nil_r.
  - intros d ->.
    slices (slices_of_ending s (String "e" (String "-" (String "0" (String d ""))))).
    simpl. now rewrite append_assoc.
  - intros ->. slices (slices_of_ending s "e+00"). simpl. now rewrite append_nil_r.
  - intros d Hd ->.
    slices (slices_of_ending s (String "e" (String "+" (String "0" (String d ""))))).
    simpl. rewrite Hd. simpl. now rewrite append_assoc.
  - intros d1 d2 H0 Hdot ->.
    slices (slices_of_ending s (String "e" (String "+" (String d1 (String d2 ""))))).
    simpl. rewrite ?H0, ?Hdot. simpl. rewrite ?H0. simpl.
    now rewrite append_assoc.
Qed.

(** The number 5, which the sample host prints as [5.0]. *)
Lemma Number_str_shortens_the_float_text_witness :
  Number_str Sample.host 5 None = "5".
Proof.
  apply (proj1 (Number_str_shortens_the_float_text Sample.host 5 "5")).
  reflexivity.
Defined.

(** ** Where derivatives do not exist *)

Lemma for_each_refused {A B : Type} (f : A -> result B) (xs : list A) :
  existsb (fun x => negb (accepted (f x))) xs = true ->
  accepted (for_each f xs) = false.
Proof.
  induction xs as [|x xs IH]; simpl; [discriminate|].
  destruct (f x) as [y|err]; simpl; [|reflexivity].
  intros H. apply IH in H. now destruct (for_each f xs).
Qed.

Section RefusedDerivatives.

Variable host : Host.
Variable m : Model.
Variable lhs : Expression.

Lemma _partial_derivative_refused (fuel : nat) :
  forall e,
    has_no_derivative e = true ->
    accepted (_partial_derivative host m fuel lhs e) = false.
Proof.
  induction fuel as [|fuel IH]; intros e H; [reflexivity|].
  destruct e as [v u | h | o | a b | v | c o | c a b | c ops];
    try discriminate; try reflexivity.
  - destruct c; simpl in H |- *; try reflexivity;
      apply IH in H;
      destruct (_partial_derivative host m fuel lhs o) as [[d|]|err];
      try discriminate; reflexivity.
  - destruct c; simpl in H |- *; try discriminate; try reflexivity;
      apply orb_true_iff in H as [H|H]; apply IH in H;
      destruct (_partial_derivative host m fuel lhs a) as [[da|]|erra];
      try discriminate; try reflexivity; simpl;
      destruct (_partial_derivative host m fuel lhs b) as [[db|]|errb];
      try discriminate; reflexivity.
  - destruct c; try discriminate;
      try (destruct ops as [|op1 [|op2 rest]]; try discriminate;
           simpl in H |- *; try reflexivity;
           try (apply orb_true_iff in H as [H|H]); apply IH in H;
           destruct (_partial_derivative host m fuel lhs op1)
             as [[d1|]|err1];
           try discriminate; try reflexivity; simpl;
           destruct (_partial_derivative host m fuel lhs op2)
             as [[d2|]|err2];
           try discriminate; reflexivity).
    + (* If *)
      destruct ops as [|i [|t [|e [|]]]]; try discriminate.
      simpl in H |- *.
      apply orb_true_iff in H as [H|H]; apply IH in H;
        destruct (_partial_derivative host m fuel lhs t) as [[dt|]|errt];
        try discriminate; try reflexivity; simpl;
        destruct (_partial_derivative host m fuel lhs e) as [[de|]|erre];
        try discriminate; reflexivity.
    + (* Piecewise *)
      assert (Hp : existsb has_no_derivative (Piecewise_e ops) = true).
      { simpl in H. revert H. unfold Piecewise_e.
        induction ops as [|d|c v rest IHr] using list_pair_ind; simpl.
        - discriminate.
        - intros ->. reflexivity.
        - destruct (Piecewise_split rest) as [i e]. simpl in *.
          destruct (has_no_derivative v); [reflexivity | exact IHr]. }
      assert (Hf : accepted (for_each (_partial_derivative host m fuel lhs)
                               (Piecewise_e ops)) = false).
      { apply for_each_refused. clear H.
        induction (Piecewise_e ops) as [|x xs IHx]; [discriminate|].
        simpl in Hp |- *. apply orb_true_iff in Hp as [Hx|Hxs].
        - now rewrite (IH x Hx).
        - rewrite (IHx Hxs). apply orb_true_r. }
      simpl.
      destruct (for_each (_partial_derivative host m fuel lhs)
                  (Piecewise_e ops)); [discriminate | reflexivity].
Qed.

End RefusedDerivatives.

(** X26.  [_partial_derivative] never returns for an expression that
    has a [dot()], a [partial()], an [init()], a [log10()] or a condition
    at a place the differentiation reaches: the failure of the operand
    comes out of every operator and function above it. *)
Theorem derivative_fails_where_a_class_has_none :
  forall (host : Host) (m : Model) (fuel : nat) (lhs e : Expression),
    has_no_derivative e = true ->
    accepted (_partial_derivative host m fuel lhs e) = false.
Proof.
  intros host m fuel lhs e. apply _partial_derivative_refused.
Qed.

(** [1 + y * log10(y)] has no derivative with respect to [y]. *)
Lemma derivative_fails_where_a_class_has_none_witness :
  accepted
    (_partial_derivative Sample.host Sample.model 9 Sample.y
       (Plus (Number 1 None)
          (Multiply Sample.y (Function KLog10 [Sample.y]))))
  = false.
Proof.
  apply derivative_fails_where_a_class_has_none. reflexivity.
Defined.

(** ** Indexing *)

Lemma tuple_getitem_nat {A : Type} (t : list A) (i : nat) :
  tuple_getitem t (Z.of_nat i)
  = match nth_error t i with
    | Some x => Return x
    | None => Raise (IndexError "tuple index out of range")
    end.
Proof.
  unfold tuple_getitem.
  destruct (Z.of_nat i <? 0)%Z eqn:H; [apply Z.ltb_lt in H; lia|].
  rewrite H, Nat2Z.id. reflexivity.
Qed.

Lemma tuple_getitem_seq {A : Type} (t : list A) :
  map (fun i => tuple_getitem t (Z.of_nat i)) (seq 0 (length t))
  = map Return t.
Proof.
  assert (H : forall (pre : list A),
            map (fun i => tuple_getitem (pre ++ t) (Z.of_nat i))
              (seq (length pre) (length t)) = map Return t).
  { induction t as [|x t IH]; intros pre; [reflexivity|].
    simpl. rewrite tuple_getitem_nat.
    rewrite nth_error_app2, Nat.sub_diag by lia. simpl. f_equal.
    specialize (IH (pre ++ [x])%list).
    rewrite <- app_assoc, List.length_app in IH. simpl in IH.
    now rewrite Nat.add_1_r in IH. }
  apply (H []).
Qed.

Lemma tuple_getitem_negative {A : Type} (t : list A) (i : nat) :
  (0 < i <= length t)%nat ->
  tuple_getitem t (- Z.of_nat i)
  = tuple_getitem t (Z.of_nat (length t - i)).
Proof.
  intros H. unfold tuple_getitem.
  destruct (- Z.of_nat i <? 0)%Z eqn:Hn; [|apply Z.ltb_ge in Hn; lia].
  destruct (Z.of_nat (length t - i) <? 0)%Z eqn:Hp;
    [apply Z.ltb_lt in Hp; lia|].
  replace (- Z.of_nat i + Z.of_nat (length t))%Z
    with (Z.of_nat (length t - i)) by lia.
  now rewrite Hp.
Qed.

Lemma tuple_getitem_out_of_range {A : Type} (t : list A) (k : Z) :
  (Z.of_nat (length t) <= k)%Z \/ (k < - Z.of_nat (length t))%Z ->
  tuple_getitem t k = Raise (IndexError "tuple index out of range").
Proof.
  intros H. unfold tuple_getitem.
  destruct (k <? 0)%Z eqn:Hk.
  - apply Z.ltb_lt in Hk. destruct H as [H|H]; [lia|].
    destruct (k + Z.of_nat (length t) <? 0)%Z eqn:Hs; [reflexivity|].
    apply Z.ltb_ge in Hs. lia.
  - cbv iota. rewrite Hk.
    apply Z.ltb_ge in Hk. destruct H as [H|H]; [|lia].
    destruct (nth_error t (Z.to_nat k)) eqn:Hn; [|reflexivity].
    assert (Z.to_nat k < length t)%nat
      by (apply nth_error_Some; congruence).
    lia.
Qed.

(** X27.  Indexing agrees with iteration: [self[i]] for [i] from 0 to
    [len(self) - 1] gives the operands in the order of [iter(self)], a
    negative index counts from the end, and an index outside
    [-len(self) .. len(self) - 1] raises the [IndexError] of a tuple,
    "tuple index out of range". *)
Theorem operands_by_index :
  forall self : Expression,
    map (fun i => __getitem__ self (Z.of_nat i)) (seq 0 (__len__ self))
    = map Return (__iter__ self)
    /\
    (forall i : nat,
       (0 < i <= __len__ self)%nat ->
       __getitem__ self (- Z.of_nat i)
       = __getitem__ self (Z.of_nat (__len__ self - i)))
    /\
    (forall k : Z,
       (Z.of_nat (__len__ self) <= k)%Z \/ (k < - Z.of_nat (__len__ self))%Z ->
       __getitem__ self k = Raise (IndexError "tuple index out of range")).
Proof.
  intros self. unfold __getitem__, __len__, __iter__.
  split; [apply tuple_getitem_seq|].
  split; [apply tuple_getitem_negative | apply tuple_getitem_out_of_range].
Qed.

Lemma operands_by_index_witness :
  let self := Function KIf [Less Sample.x Sample.y; Sample.x; Sample.y] in
  __getitem__ self (-1) = Return Sample.y /\
  __getitem__ self 3 = Raise (IndexError "tuple index out of range") /\
  __getitem__ (InitialValue Sample.x) 0
  = Raise (IndexError "tuple index out of range").
Proof.
  intros self.
  destruct (operands_by_index self) as (_ & Hneg & Hout).
  destruct (operands_by_index (InitialValue Sample.x)) as (_ & _ & Hout').
  split; [|split].
  - etransitivity; [|reflexivity].
    apply (Hneg 1%nat). unfold self, __len__. simpl. lia.
  - apply Hout. left. unfold self, __len__. simpl. lia.
  - apply Hout'. left. unfold __len__. simpl. lia.
Defined.

(** X28.  [==] on expressions is an equivalence relation (reflexive,
    symmetric, transitive), and [!=] is its negation. *)
Theorem equality_is_an_equivalence :
  forall host : Host,
    (forall e : Expression, __eq__ host e e = true) /\
    (forall e f : Expression, __eq__ host e f = __eq__ host f e) /\
    (forall e f g : Expression,
       __eq__ host e f = true -> __eq__ host f g = true ->
       __eq__ host e g = true) /\
    (forall e f : Expression, __ne__ host e f = negb (__eq__ host e f)).
Proof.
  intros host. split; [apply __eq___refl|].
  split; [intros e f; apply __eq___sym|].
  split; [intros e f g; apply __eq___trans | reflexivity].
Qed.

Lemma equality_is_an_equivalence_witness :
  __eq__ Sample.host (PrefixPlus (PrefixPlus Sample.x)) (PrefixPlus Sample.x)
  = true /\
  __eq__ Sample.host (PrefixPlus Sample.x)
    (PrefixPlus (PrefixPlus (PrefixPlus Sample.x))) = true /\
  __eq__ Sample.host (PrefixPlus (PrefixPlus Sample.x))
    (PrefixPlus (PrefixPlus (PrefixPlus Sample.x))) = true.
Proof.
  destruct (equality_is_an_equivalence Sample.host) as (_ & _ & Ht & _).
  split; [reflexivity|]. split; [reflexivity|].
  apply (Ht _ (PrefixPlus Sample.x)); reflexivity.
Defined.

(** ** Substitutes *)

Lemma dict_get_in_subst (host : Host) (subst : dict) (self s : Expression) :
  dict_get host subst self = Some s -> in_subst host subst self = true.
Proof.
  unfold in_subst. intros H. rewrite H.
  destruct subst; [discriminate | reflexivity].
Qed.

Lemma _eval_substitute (host : Host) (m : Model) (fuel : nat)
    (precision : Precision) (subst : dict) (self s : Expression) :
  isinstance self CLhsExpression = true ->
  dict_get host subst self = Some s ->
  _eval host m (S fuel) subst precision self
  = eval_checked host m fuel [] DOUBLE_PRECISION s.
Proof.
  intros Hl Hs.
  pose proof (dict_get_in_subst host subst self Hs) as Hin.
  destruct self as [| | | | |c ?|c ? ?|c ?];
    try discriminate; try (destruct c; discriminate);
    simpl; rewrite Hin, Hs; reflexivity.
Qed.

(** X29.  A left-hand side that is a key of [subst] evaluates to what
    [eval()] of its substitute gives: without the substitutions and in
    double precision, whatever the precision asked for.  In particular a
    substituted number is returned as it is stored. *)
Theorem substitutes_are_evaluated_on_their_own :
  forall (host : Host) (m : Model) (fuel : nat) (precision : Precision),
    (forall (subst : dict) (self s : Expression),
       isinstance self CLhsExpression = true ->
       dict_get host subst self = Some s ->
       _eval host m (S fuel) subst precision self
       = eval_checked host m fuel [] DOUBLE_PRECISION s)
    /\
    (forall (value : Handle) (x : Q),
       eval host m (4 + fuel) (Some [(Name value, SubstNumber x)]) precision
         (Name value)
       = Return (VFloat (if Py.eqb x 0 then 0%Q else Qred x))).
Proof.
  intros host m fuel precision.
  split; [intros subst self s; apply _eval_substitute|].
  intros value x.
  assert (Hsubst : checked_subst (Some [(Name value, SubstNumber x)])
                   = Return [(Name value, Number__init__ x None)])
    by reflexivity.
  assert (Hget : dict_get host [(Name value, Number__init__ x None)]
                   (Name value) = Some (Number__init__ x None)).
  { unfold dict_get, List.find, same_key.
    now rewrite Z.eqb_refl, __eq___refl. }
  unfold eval. rewrite Hsubst. cbn [bind].
  change (4 + fuel)%nat with (S (S (S (S fuel)))).
  apply eval_checked_returns.
  rewrite (@_eval_substitute host m (S (S fuel)) precision
             [(Name value, Number__init__ x None)] (Name value)
             (Number__init__ x None) eq_refl Hget).
  apply eval_checked_returns. reflexivity.
Qed.

Lemma substitutes_are_evaluated_on_their_own_witness :
  _eval Sample.host Sample.model 4
    [(Sample.y, Derivative Sample.x); (Derivative Sample.x, Number 7 None)]
    SINGLE_PRECISION Sample.y
  = eval_checked Sample.host Sample.model 3 [] DOUBLE_PRECISION
      (Derivative Sample.x).
Proof.
  apply (proj1 (substitutes_are_evaluated_on_their_own Sample.host
                  Sample.model 3 SINGLE_PRECISION)); reflexivity.
Defined.
